(** * Backup, restore and Drive synchronisation of the armoury tracker

    A shallow embedding of [src/services/storageService.ts] (with the
    declarations of [src/types.ts] it relies on) and the properties of its
    backup / restore / remote-upload paths.

    The program is JavaScript running in a browser.  It is embedded as
    follows.
    - Values are the untyped trees that [JSON.parse] produces, plus
      [undefined]; property access, truthiness, [===], spread and string
      conversion are written out as the language defines them.  Strings
      are byte strings, so [length] counts bytes.
    - [localStorage] is a finite map from keys to texts.
    - Every effect is threaded through one [World] record by a state and
      exception monad; a thrown exception keeps the effects made so far.
    - What the browser, the JSON codec, JSZip and the Google endpoints
      compute is taken through the interface classes [Runtime], [Archive],
      [Google] and [Browser]; the module [Sample] gives one executable
      instance of each, on which the program is run. *)

From Stdlib Require Import ZArith QArith String Ascii List Bool Lia.
From stdpp Require Import base option gmap strings list pretty.

Local Open Scope string_scope.
Local Open Scope Z_scope.
Local Set Warnings "-register-all".

(** ** JavaScript values *)

(** Numbers are the integers: the documents of this application carry
    quantities and millisecond counts only. *)
Inductive value : Type :=
| VUndefined
| VNull
| VBool (b : bool)
| VNum (n : Z)
| VStr (s : string)
| VArr (l : list value)
| VObj (fields : list (string * value)).

Inductive exn : Type :=
| SyntaxError
| TypeError
| Error (message : string)
| Rejected (reason : string).

Inductive Res (A : Type) : Type :=
| Ok (a : A)
| Throw (e : exn).
Arguments Ok {A} a.
Arguments Throw {A} e.

(** [ToBoolean]. *)
Definition truthy (v : value) : bool :=
  match v with
  | VUndefined | VNull => false
  | VBool b => b
  | VNum n => negb (n =? 0)
  | VStr s => negb (String.eqb s "")
  | VArr _ | VObj _ => true
  end.

Fixpoint assoc (k : string) (fields : list (string * value)) : option value :=
  match fields with
  | [] => None
  | (k', v) :: rest => if String.eqb k k' then Some v else assoc k rest
  end.

(** [v.k] for the property names the program uses ([length] and the field
    names of the documents); [None] is the [TypeError] of reading a
    property of [null] or [undefined]. *)
Definition getProp (v : value) (k : string) : option value :=
  match v with
  | VUndefined | VNull => None
  | VObj fields => Some (default VUndefined (assoc k fields))
  | VArr l => Some (if String.eqb k "length" then VNum (Z.of_nat (List.length l)) else VUndefined)
  | VStr s => Some (if String.eqb k "length" then VNum (Z.of_nat (String.length s)) else VUndefined)
  | VBool _ | VNum _ => Some VUndefined
  end.

(** [v?.k]. *)
Definition getPropOpt (v : value) (k : string) : value :=
  default VUndefined (getProp v k).

(** [v === 0]. *)
Definition isZero (v : value) : bool :=
  match v with VNum 0 => true | _ => false end.

(** [v === s] for a string literal [s], as the [case] labels of a [switch]. *)
Definition isStr (s : string) (v : value) : bool :=
  match v with VStr s' => String.eqb s' s | _ => false end.

Fixpoint chars (s : string) : list value :=
  match s with
  | EmptyString => []
  | String c rest => VStr (String c EmptyString) :: chars rest
  end.

(** [[...v]]: the elements an array literal takes from the iterable [v];
    [None] is the [TypeError] for a value that is not iterable. *)
Definition spread (v : value) : option (list value) :=
  match v with
  | VArr l => Some l
  | VStr s => Some (chars s)
  | _ => None
  end.

Fixpoint join (sep : string) (l : list string) : string :=
  match l with
  | [] => ""
  | [s] => s
  | s :: rest => s +:+ sep +:+ join sep rest
  end.

(** [String(v)], the conversion a template literal applies. *)
Fixpoint toString (v : value) : string :=
  match v with
  | VUndefined => "undefined"
  | VNull => "null"
  | VBool true => "true"
  | VBool false => "false"
  | VNum n => pretty n
  | VStr s => s
  | VArr l =>
      join "," (map (fun x => match x with
                              | VUndefined | VNull => ""
                              | _ => toString x
                              end) l)
  | VObj _ => "[object Object]"
  end.

(** ** Strings *)

Fixpoint isPrefix (p s : string) : bool :=
  match p, s with
  | EmptyString, _ => true
  | String a p', String b s' => Ascii.eqb a b && isPrefix p' s'
  | String _ _, EmptyString => false
  end.

(** [s.includes(p)]. *)
Fixpoint includes (p s : string) : bool :=
  isPrefix p s ||
  match s with
  | EmptyString => false
  | String _ s' => includes p s'
  end.

(** [s.endsWith(p)]. *)
Fixpoint endsWith (p s : string) : bool :=
  String.eqb s p ||
  match s with
  | EmptyString => false
  | String _ s' => endsWith p s'
  end.

(** [s.replace(/[:.]/g, '-')]. *)
Fixpoint dashed (s : string) : string :=
  match s with
  | EmptyString => EmptyString
  | String c rest =>
      String (if Ascii.eqb c ":" || Ascii.eqb c "." then "-"%char else c) (dashed rest)
  end.

(** ** The interfaces of the host *)

(** The language runtime: the JSON codec and the clock.
    [JSON_parse s = None] is the [SyntaxError] of [JSON.parse].
    [JSON_text v] is [JSON.stringify v] for a value other than [undefined].
    [clock n] is what the [n]-th reading of the system clock returns, in
    milliseconds.  [Date_getTime v] is [new Date(v).getTime()] for a truthy
    [v], [None] standing for [NaN] (an invalid date). *)
Class Runtime : Type := {
  JSON_parse : string -> option value;
  JSON_text : value -> string;
  clock : nat -> Z;
  Date_toISOString : Z -> string;
  Date_getTime : value -> option Z
}.

(** JSZip and FileReader.  An archive is the table of its members, in the
    order [Object.keys(zip.files)] lists them.  [None] is a rejected
    promise ([generateAsync], [loadAsync]) or a read that raised an error
    event instead of [onload]. *)
Class Archive : Type := {
  Blob : Type;
  Blob_size : Blob -> Z;
  JSZip_generateAsync : list (string * string) -> option Blob;
  JSZip_loadAsync : Blob -> option (list (string * string));
  FileReader_readAsText : Blob -> option string
}.

(** ** The remote store *)

Record DriveFile : Type := {
  df_id : string;
  df_name : string;
  df_mimeType : string;
  df_parents : list string;
  df_trashed : bool
}.

Record Drive : Type := {
  drive_files : list DriveFile;
  drive_next : nat
}.

Inductive TokenResponse : Type :=
| TokenError (error : string)
| TokenGranted (access_token : string).

(** What becomes of the multipart upload request: the server stores the
    file, answers with an error status, or the request never completes. *)
Inductive Verdict : Type :=
| Accepted
| Refused (statusText : string)
| Dropped.

(** The Google scripts and endpoints.  [gapi_loaded] and [gsi_loaded] tell
    whether [window.gapi] and [window.google] exist, [gapi_client_init]
    whether [gapi.client.init] succeeds for an API key, [gsi_response] what the token client passes to
    its callback, [authorized] which bearer tokens the server accepts and
    [upload_verdict] what it does with an upload it is authorised to take. *)
Class Google `{Archive} : Type := {
  gapi_loaded : bool;
  gsi_loaded : bool;
  gapi_client_init : value -> bool;
  gsi_response : value -> TokenResponse;
  authorized : string -> bool;
  upload_verdict : Drive -> string -> Blob -> Verdict
}.

(** ** The world and the monad of effects *)

Inductive ConsoleEntry : Type :=
| ConsoleError (message : string) (e : option exn)
| ConsoleWarn (message : string)
| ConsoleLog (message : string).

Section Program.
Context `{Runtime} `{Google}.

(** Everything the program can read or change.  [console], [downloads] and
    [callbacks] grow at the end: they list, oldest first, the console
    lines written, the files handed to the browser for download and the
    calls made to the restore callback.  [ticks] counts the readings of
    the clock.  [tokenClient] is [GoogleDriveService.tokenClient], holding
    the client id it was created for. *)
Record World : Type := {
  localStorage : gmap string string;
  console : list ConsoleEntry;
  ticks : nat;
  drive : Drive;
  tokenClient : option value;
  downloads : list (string * Blob);
  callbacks : list (bool * string)
}.

Definition set_localStorage (store : gmap string string) (w : World) : World :=
  {| localStorage := store; console := console w; ticks := ticks w;
     drive := drive w; tokenClient := tokenClient w;
     downloads := downloads w; callbacks := callbacks w |}.

Definition set_console (lines : list ConsoleEntry) (w : World) : World :=
  {| localStorage := localStorage w; console := lines; ticks := ticks w;
     drive := drive w; tokenClient := tokenClient w;
     downloads := downloads w; callbacks := callbacks w |}.

Definition set_ticks (n : nat) (w : World) : World :=
  {| localStorage := localStorage w; console := console w; ticks := n;
     drive := drive w; tokenClient := tokenClient w;
     downloads := downloads w; callbacks := callbacks w |}.

Definition set_drive (d : Drive) (w : World) : World :=
  {| localStorage := localStorage w; console := console w; ticks := ticks w;
     drive := d; tokenClient := tokenClient w;
     downloads := downloads w; callbacks := callbacks w |}.

Definition set_tokenClient (c : option value) (w : World) : World :=
  {| localStorage := localStorage w; console := console w; ticks := ticks w;
     drive := drive w; tokenClient := c;
     downloads := downloads w; callbacks := callbacks w |}.

Definition set_downloads (files : list (string * Blob)) (w : World) : World :=
  {| localStorage := localStorage w; console := console w; ticks := ticks w;
     drive := drive w; tokenClient := tokenClient w;
     downloads := files; callbacks := callbacks w |}.

Definition set_callbacks (calls : list (bool * string)) (w : World) : World :=
  {| localStorage := localStorage w; console := console w; ticks := ticks w;
     drive := drive w; tokenClient := tokenClient w;
     downloads := downloads w; callbacks := calls |}.

Definition M (A : Type) : Type := World -> Res A * World.

Definition ret {A} (a : A) : M A := fun w => (Ok a, w).

Definition bind {A B} (m : M A) (k : A -> M B) : M B :=
  fun w => match m w with
           | (Ok a, w') => k a w'
           | (Throw e, w') => (Throw e, w')
           end.

Definition throw {A} (e : exn) : M A := fun w => (Throw e, w).

(** [try { m } catch (e) { handler e }]. *)
Definition try_catch {A} (m : M A) (handler : exn -> M A) : M A :=
  fun w => match m w with
           | (Ok a, w') => (Ok a, w')
           | (Throw e, w') => handler e w'
           end.

(** A value that must not be [null] or [undefined] where it is used. *)
Definition orThrow {A} (e : exn) (o : option A) : M A :=
  match o with
  | Some a => ret a
  | None => throw e
  end.

Notation "x <- m ;; k" := (bind m (fun x => k))
  (at level 100, m at next level, right associativity).
Notation "m ;;; k" := (bind m (fun _ => k))
  (at level 100, right associativity).

Definition console_error (message : string) (e : option exn) : M unit :=
  fun w => (Ok tt, set_console (console w ++ [ConsoleError message e]) w).

Definition console_warn (message : string) : M unit :=
  fun w => (Ok tt, set_console (console w ++ [ConsoleWarn message]) w).

Definition console_log (message : string) : M unit :=
  fun w => (Ok tt, set_console (console w ++ [ConsoleLog message]) w).

(** [Date.now()], also the instant of [new Date()]. *)
Definition Date_now : M Z :=
  fun w => (Ok (clock (ticks w)), set_ticks (S (ticks w)) w).

Definition localStorage_getItem (key : string) : M (option string) :=
  fun w => (Ok (localStorage w !! key), w).

(** [localStorage.setItem]; the quota of the store is not modelled, so the
    call always succeeds. *)
Definition localStorage_setItem (key item : string) : M unit :=
  fun w => (Ok tt, set_localStorage (<[key := item]> (localStorage w)) w).

(** [JSON.stringify]: [undefined] has no text. *)
Definition JSON_stringify (v : value) : option string :=
  match v with
  | VUndefined => None
  | _ => Some (JSON_text v)
  end.

(** The string [setItem] stores for the result of [JSON.stringify]. *)
Definition itemText (o : option string) : string := default "undefined" o.

(** ** StorageService *)

Definition KEYS_MATERIALS := "sentinela_materials".
Definition KEYS_PERSONNEL := "sentinela_personnel".
Definition KEYS_CAUTELAS := "sentinela_cautelas".
Definition KEYS_LOGS := "sentinela_logs".
Definition KEYS_SETTINGS := "sentinela_settings".
Definition KEYS_ARMORER := "sentinela_current_armorer".

Definition BackupFrequency_NEVER := "never".
Definition BackupFrequency_ON_BOOT := "on_boot".
Definition BackupFrequency_DAILY := "daily".
Definition BackupFrequency_WEEKLY := "weekly".
Definition BackupFrequency_MONTHLY := "monthly".

Definition get (key : string) (defaultValue : value) : M value :=
  try_catch
    (item <- localStorage_getItem key ;;
     match item with
     | Some s =>
         if negb (String.eqb s "")
         then orThrow SyntaxError (JSON_parse s)
         else ret defaultValue
     | None => ret defaultValue
     end)
    (fun e => console_error ("Error reading " +:+ key) (Some e) ;;; ret defaultValue).

Definition set (key : string) (v : value) : M unit :=
  try_catch
    (localStorage_setItem key (itemText (JSON_stringify v)))
    (fun e => console_error ("Error saving " +:+ key) (Some e)).

Definition getMaterials : M value := get KEYS_MATERIALS (VArr []).
Definition saveMaterials (data : value) : M unit := set KEYS_MATERIALS data.

Definition getPersonnel : M value := get KEYS_PERSONNEL (VArr []).
Definition savePersonnel (data : value) : M unit := set KEYS_PERSONNEL data.

Definition getCautelas : M value := get KEYS_CAUTELAS (VArr []).
Definition saveCautelas (data : value) : M unit := set KEYS_CAUTELAS data.

Definition getLogs : M value := get KEYS_LOGS (VArr []).
Definition saveLogs (data : value) : M unit := set KEYS_LOGS data.

Definition defaultSettings : value :=
  VObj [("institutionName", VStr "Polícia Militar");
        ("theme", VStr "light");
        ("admins", VArr []);
        ("backup", VObj [("enabled", VBool false);
                         ("frequency", VStr BackupFrequency_NEVER)])].

Definition getSettings : M value := get KEYS_SETTINGS defaultSettings.
Definition saveSettings (data : value) : M unit := set KEYS_SETTINGS data.

(** The record [addLog] builds. *)
Definition SystemLog (id armorerName action details timestamp : string) : value :=
  VObj [("id", VStr id);
        ("armorerName", VStr armorerName);
        ("action", VStr action);
        ("details", VStr details);
        ("timestamp", VStr timestamp)].

Definition addLog (armorerName action details : string) : M unit :=
  logs <- getLogs ;;
  id <- Date_now ;;
  t <- Date_now ;;
  let newLog := SystemLog (pretty id) armorerName action details (Date_toISOString t) in
  rest <- orThrow TypeError (spread logs) ;;
  saveLogs (VArr (newLog :: rest)).

Definition generateBackupData : M value :=
  materials <- getMaterials ;;
  personnel <- getPersonnel ;;
  cautelas <- getCautelas ;;
  logs <- getLogs ;;
  settings <- getSettings ;;
  t <- Date_now ;;
  h <- Date_now ;;
  ret (VObj [("materials", materials);
             ("personnel", personnel);
             ("cautelas", cautelas);
             ("logs", logs);
             ("settings", settings);
             ("timestamp", VStr (Date_toISOString t));
             ("version", VStr "1.1");
             ("integrityHash", VStr (pretty h))]).

(** *** Local backup *)

Definition payloadName := "backup_sentinela.json".

(** The anchor click that hands [blob] to the browser under [fileName]. *)
Definition download (fileName : string) (blob : Blob) : M unit :=
  fun w => (Ok tt, set_downloads (downloads w ++ [(fileName, blob)]) w).

(** [zip.file(payloadName, jsonContent)] followed by [generateAsync]. *)
Definition encode (jsonContent : string) : M Blob :=
  orThrow (Rejected "generateAsync")
          (JSZip_generateAsync [(payloadName, jsonContent)]).

Definition createBackup (initiator : string) : M bool :=
  backupData <- generateBackupData ;;
  let jsonContent := itemText (JSON_stringify backupData) in
  t <- Date_now ;;
  let fileName := "backup_sentinela_" +:+ dashed (Date_toISOString t) +:+ ".zip" in
  try_catch
    (blob <- encode jsonContent ;;
     download fileName blob ;;;
     addLog initiator "Backup Local"
       ("Backup criado e baixado. Tamanho: " +:+ pretty (Blob_size blob) +:+ " bytes") ;;;
     ret true)
    (fun e =>
       console_error "Error creating zip backup" (Some e) ;;;
       addLog initiator "Erro Backup" "Falha ao gerar arquivo ZIP local." ;;;
       ret false).

(** *** Restore *)

Record File : Type := {
  file_name : string;
  file_type : string;
  file_data : Blob
}.

(** The first argument of [restoreBackup], of type [File | string]. *)
Inductive RestoreInput : Type :=
| Text (jsonString : string)
| Upload (file : File).

Definition callback (success : bool) (message : string) : M unit :=
  fun w => (Ok tt, set_callbacks (callbacks w ++ [(success, message)]) w).

(** The test of line 133, with the short circuit of [&&]: the stored
    settings are read only when the incoming document has no
    administrators. *)
Definition lockoutRisk (settings : value) : M bool :=
  admins <- orThrow TypeError (getProp settings "admins") ;;
  if negb (truthy admins) || isZero (getPropOpt admins "length")
  then
    current <- getSettings ;;
    currentAdmins <- orThrow TypeError (getProp current "admins") ;;
    ret (isZero (getPropOpt currentAdmins "length"))
  else ret false.

Definition processJson (initiator : string) (jsonString : string) : M unit :=
  try_catch
    (json <- orThrow SyntaxError (JSON_parse jsonString) ;;
     version <- orThrow TypeError (getProp json "version") ;;
     if negb (truthy version)
        || negb (truthy (getPropOpt json "materials"))
        || negb (truthy (getPropOpt json "settings"))
     then
       addLog initiator "Erro Restauração"
         "Arquivo inválido ou corrompido (falta estrutura básica)." ;;;
       callback false "Estrutura do arquivo inválida."
     else
       risk <- lockoutRisk (getPropOpt json "settings") ;;
       (if risk then console_warn "Backup has no admins. Be careful." else ret tt) ;;;
       saveMaterials (getPropOpt json "materials") ;;;
       savePersonnel (getPropOpt json "personnel") ;;;
       saveCautelas (getPropOpt json "cautelas") ;;;
       saveLogs (getPropOpt json "logs") ;;;
       saveSettings (getPropOpt json "settings") ;;;
       addLog initiator "Restauração"
         ("Sistema restaurado com sucesso. Versão do backup: " +:+ toString version) ;;;
       callback true "Dados restaurados com sucesso.")
    (fun e =>
       console_error "" (Some e) ;;;
       addLog initiator "Erro Restauração" "Erro ao processar JSON." ;;;
       callback false "Erro crítico ao processar dados.").

(** The first step of the archive branch: load the container, take the
    first member whose name ends in [.json] and read it as text. *)
Definition decode (blob : Blob) : M string :=
  zip <- orThrow (Rejected "loadAsync") (JSZip_loadAsync blob) ;;
  match List.find (fun member => endsWith ".json" (fst member)) zip with
  | Some (_, content) => ret content
  | None => throw (Error "JSON file not found in ZIP")
  end.

Definition restoreBackup (file : RestoreInput) (initiator : string) : M unit :=
  match file with
  | Text jsonString => processJson initiator jsonString
  | Upload f =>
      if endsWith ".zip" (file_name f) || includes "zip" (file_type f)
      then
        try_catch
          (content <- decode (file_data f) ;;
           if negb (String.eqb content "")
           then processJson initiator content
           else callback false "ZIP vazio ou ilegível.")
          (fun e =>
             console_error "Error reading zip" (Some e) ;;;
             callback false "Erro ao ler arquivo ZIP.")
      else
        match FileReader_readAsText (file_data f) with
        | Some result =>
            if negb (String.eqb result "")
            then processJson initiator result
            else callback false "Falha na leitura do arquivo."
        | None => ret tt
        end
  end.

(** ** The Drive endpoints

    The server side of the three requests the program sends.  A request
    with a bearer token the server does not accept is answered with an
    error body, which has neither [files] nor [id].  A search lists the
    matching files in the order the Drive holds them, and a new file goes
    to the end.  The two folder requests always reach the server; a
    request that is dropped on the way is modelled for the upload alone. *)

Definition folderMimeType := "application/vnd.google-apps.folder".

(** The query [mimeType='...folder' and name='...' and trashed=false],
    extended by [and '<parent>' in parents] when a parent is given. *)
Definition matchesQuery (name : string) (parent : option string) (f : DriveFile) : bool :=
  String.eqb (df_mimeType f) folderMimeType
  && String.eqb (df_name f) name
  && negb (df_trashed f)
  && match parent with
     | Some p => existsb (String.eqb p) (df_parents f)
     | None => true
     end.

Definition freshId (n : nat) : string := "drive-" +:+ pretty n.

Definition addFile (f : DriveFile) (d : Drive) : Drive :=
  {| drive_files := drive_files d ++ [f]; drive_next := S (drive_next d) |}.

(** [GET /drive/v3/files?q=...]: the [files] member of the answer. *)
Definition fetch_search (accessToken name : string) (parent : option string)
  : M (option (list DriveFile)) :=
  fun w =>
    if authorized accessToken
    then (Ok (Some (List.filter (matchesQuery name parent) (drive_files (drive w)))), w)
    else (Ok None, w).

(** [POST /drive/v3/files]: the [id] member of the answer. *)
Definition fetch_create (accessToken name mimeType : string) (parents : list string)
  : M (option string) :=
  fun w =>
    if authorized accessToken
    then
      let id := freshId (drive_next (drive w)) in
      (Ok (Some id),
       set_drive (addFile {| df_id := id; df_name := name; df_mimeType := mimeType;
                             df_parents := parents; df_trashed := false |}
                          (drive w)) w)
    else (Ok None, w).

Record Response : Type := {
  response_ok : bool;
  response_statusText : string;
  response_id : option string
}.

(** [POST /upload/drive/v3/files?uploadType=multipart]. *)
Definition fetch_upload (accessToken : string) (folderId : option string)
    (fileName : string) (blob : Blob) : M Response :=
  fun w =>
    match upload_verdict (drive w) fileName blob with
    | Dropped => (Throw TypeError, w)
    | Refused statusText =>
        (Ok {| response_ok := false; response_statusText := statusText;
               response_id := None |}, w)
    | Accepted =>
        if authorized accessToken
        then
          match folderId with
          | Some parent =>
              let id := freshId (drive_next (drive w)) in
              (Ok {| response_ok := true; response_statusText := "OK";
                     response_id := Some id |},
               set_drive (addFile {| df_id := id; df_name := fileName;
                                     df_mimeType := "application/zip";
                                     df_parents := [parent]; df_trashed := false |}
                                  (drive w)) w)
          | None =>
              (Ok {| response_ok := false; response_statusText := "Bad Request";
                     response_id := None |}, w)
          end
        else
          (Ok {| response_ok := false; response_statusText := "Unauthorized";
                 response_id := None |}, w)
    end.

(** ** GoogleDriveService *)

Definition initClient (config : value) : M unit :=
  if negb gapi_loaded
  then throw (Rejected "Google API script not loaded")
  else
    if gapi_client_init (getPropOpt config "apiKey")
    then
      if gsi_loaded
      then fun w => (Ok tt, set_tokenClient (Some (getPropOpt config "clientId")) w)
      else throw TypeError
    else throw (Rejected "gapi.client.init").

Definition getAccessToken : M string :=
  fun w =>
    match tokenClient w with
    | None => (Throw (Rejected "Client not initialized"), w)
    | Some clientId =>
        match gsi_response clientId with
        | TokenError error => (Throw (Rejected error), w)
        | TokenGranted access_token => (Ok access_token, w)
        end
    end.

(** A folder id as the program holds it: [None] is [null] or [undefined]. *)
Definition idTruthy (id : option string) : bool :=
  match id with
  | Some s => negb (String.eqb s "")
  | None => false
  end.

Definition createFolder (accessToken name : string) (parentId : option string)
  : M (option string) :=
  fetch_create accessToken name folderMimeType
    (match parentId with
     | Some p => if idTruthy parentId then [p] else []
     | None => []
     end).

Definition findFolder (accessToken name : string) (parentId : option string)
  : M (option string) :=
  files <- fetch_search accessToken name (if idTruthy parentId then parentId else None) ;;
  match files with
  | Some (f :: _) => ret (Some (df_id f))
  | Some [] | None => ret None
  end.

Definition findOrCreateFolderChain (accessToken : string) : M (option string) :=
  found <- findFolder accessToken "App_Controle_Armamento" None ;;
  rootId <- (if negb (idTruthy found)
             then createFolder accessToken "App_Controle_Armamento" None
             else ret found) ;;
  found' <- findFolder accessToken "Backups" rootId ;;
  backupId <- (if negb (idTruthy found')
               then createFolder accessToken "Backups" rootId
               else ret found') ;;
  ret backupId.

Fixpoint setField (k : string) (v : value) (fields : list (string * value))
  : list (string * value) :=
  match fields with
  | [] => [(k, v)]
  | (k', v') :: rest =>
      if String.eqb k k' then (k, v) :: rest else (k', v') :: setField k v rest
  end.

(** [currentSettings.backup.lastBackupDate = date; ] for a truthy
    [currentSettings.backup], giving [currentSettings] after the
    assignment.  The module is strict code, where assigning a property of
    a primitive is a [TypeError]; a property added to an array is not part
    of its JSON text. *)
Definition stampLastBackup (currentSettings backup : value) (date : string)
  : option value :=
  match backup with
  | VObj fields =>
      match currentSettings with
      | VObj top =>
          Some (VObj (setField "backup"
                        (VObj (setField "lastBackupDate" (VStr date) fields)) top))
      | _ => Some currentSettings
      end
  | VArr _ => Some currentSettings
  | _ => None
  end.

Definition uploadBackup (initiator : string) : M bool :=
  try_catch
    (accessToken <- getAccessToken ;;
     folderId <- findOrCreateFolderChain accessToken ;;
     backupData <- generateBackupData ;;
     let jsonContent := itemText (JSON_stringify backupData) in
     blob <- encode jsonContent ;;
     t <- Date_now ;;
     let fileName := "backup_auto_" +:+ dashed (Date_toISOString t) +:+ ".zip" in
     response <- fetch_upload accessToken folderId fileName blob ;;
     if negb (response_ok response)
     then throw (Error ("Upload failed: " +:+ response_statusText response))
     else
       currentSettings <- getSettings ;;
       backup <- orThrow TypeError (getProp currentSettings "backup") ;;
       (if truthy backup
        then
          d <- Date_now ;;
          stamped <- orThrow TypeError
                       (stampLastBackup currentSettings backup (Date_toISOString d)) ;;
          saveSettings stamped
        else ret tt) ;;;
       addLog initiator "Backup Drive"
         ("Backup automático enviado. ID: "
          +:+ match response_id response with
              | Some id => id
              | None => "undefined"
              end) ;;;
       ret true)
    (fun e =>
       console_error "" (Some e) ;;;
       addLog initiator "Erro Backup Drive" "Falha no envio para Google Drive." ;;;
       throw e).

(** [diffHours >= hours], where [diffHours] is the quotient of a
    millisecond difference by 3600000; [None] is [NaN], which compares
    false with everything.  The quotient is taken in the rationals: the two
    instants are integers below 2^53 in magnitude, rounding is monotone and
    the thresholds are exactly representable, so the floating-point
    comparison gives the same answer. *)
Definition diffAtLeast (hours : Z) (diffHours : option Q) : bool :=
  match diffHours with
  | Some q => Qle_bool (inject_Z hours) q
  | None => false
  end.

(** The due-check of lines 393-416: [backup] is [settings.backup] and
    [now] the instant of [new Date()]. *)
Definition shouldBackup (backup : value) (now : Z) : bool :=
  let lastBackupDate := getPropOpt backup "lastBackupDate" in
  if negb (truthy lastBackupDate)
  then true
  else
    let diffHours :=
      match Date_getTime lastBackupDate with
      | Some last => Some (Qmake (now - last) 3600000)
      | None => None
      end in
    let frequency := getPropOpt backup "frequency" in
    if isStr BackupFrequency_ON_BOOT frequency then true
    else if isStr BackupFrequency_DAILY frequency then diffAtLeast 24 diffHours
    else if isStr BackupFrequency_WEEKLY frequency then diffAtLeast 168 diffHours
    else if isStr BackupFrequency_MONTHLY frequency then diffAtLeast 720 diffHours
    else false.

Definition runAutoBackupCheck : M unit :=
  settings <- getSettings ;;
  googleDrive <- orThrow TypeError (getProp settings "googleDrive") ;;
  if negb (truthy (getPropOpt googleDrive "clientId"))
     || negb (truthy (getPropOpt (getPropOpt settings "backup") "enabled"))
  then ret tt
  else
    initialised <- try_catch (initClient googleDrive ;;; ret true)
                     (fun e =>
                        console_error "Could not init Google Client for AutoBackup check"
                          (Some e) ;;;
                        ret false) ;;
    if negb initialised
    then ret tt
    else
      now <- Date_now ;;
      if shouldBackup (getPropOpt settings "backup") now
      then
        console_log "Triggering Auto Backup..." ;;;
        try_catch (uploadBackup "Automático" ;;; ret tt)
          (fun e => console_error "Auto backup failed" (Some e))
      else ret tt.

(** ** What a run reads and leaves behind

    Closed forms of the value [get] returns, of the console lines it
    writes and of the worlds the logging helpers produce; the properties
    below are stated with them. *)

(** The value [get key defaultValue] returns for a store. *)
Definition read (store : gmap string string) (key : string) (defaultValue : value)
  : value :=
  match store !! key with
  | Some s =>
      if String.eqb s "" then defaultValue else default defaultValue (JSON_parse s)
  | None => defaultValue
  end.

(** The console lines [get key _] writes for a store. *)
Definition readErrors (store : gmap string string) (key : string)
  : list ConsoleEntry :=
  match store !! key with
  | Some s =>
      if String.eqb s "" then []
      else match JSON_parse s with
           | Some _ => []
           | None => [ConsoleError ("Error reading " +:+ key) (Some SyntaxError)]
           end
  | None => []
  end.

Definition logged (lines : list ConsoleEntry) (w : World) : World :=
  set_console (console w ++ lines) w.

Definition stored (key : string) (v : value) (w : World) : World :=
  set_localStorage (<[key := itemText (JSON_stringify v)]> (localStorage w)) w.

(** The world after [addLog] has read the clock twice, without the write
    of the new list. *)
Definition stamped (w : World) : World :=
  set_ticks (S (S (ticks w))) (logged (readErrors (localStorage w) KEYS_LOGS) w).

(** The entry [addLog] builds in world [w]. *)
Definition entry (armorerName action details : string) (w : World) : value :=
  SystemLog (pretty (clock (ticks w))) armorerName action details
            (Date_toISOString (clock (S (ticks w)))).

(** The world after a call of [addLog] that found the entries [rest]. *)
Definition audited (armorerName action details : string) (rest : list value)
    (w : World) : World :=
  stored KEYS_LOGS (VArr (entry armorerName action details w :: rest)) (stamped w).

(** The entries [addLog] finds in a store, when the stored list is
    iterable. *)
Definition auditTrail (store : gmap string string) : option (list value) :=
  spread (read store KEYS_LOGS (VArr [])).

(** The five writes of a restore, in the order of lines 138-142. *)
Definition applied (json : value) (w : World) : World :=
  stored KEYS_SETTINGS (getPropOpt json "settings")
    (stored KEYS_LOGS (getPropOpt json "logs")
       (stored KEYS_CAUTELAS (getPropOpt json "cautelas")
          (stored KEYS_PERSONNEL (getPropOpt json "personnel")
             (stored KEYS_MATERIALS (getPropOpt json "materials") w)))).

(** The structural test of line 126. *)
Definition wellFormed (json : value) : bool :=
  truthy (getPropOpt json "version")
  && truthy (getPropOpt json "materials")
  && truthy (getPropOpt json "settings").

(** The left operand of [&&] on line 133: the incoming settings carry no
    administrator. *)
Definition incomingHasNoAdmins (settings : value) : bool :=
  let admins := getPropOpt settings "admins" in
  negb (truthy admins) || isZero (getPropOpt admins "length").

(** The right operand: the stored administrator list has length zero;
    [None] when the stored settings are [null]. *)
Definition currentHasNoAdmins (store : gmap string string) : option bool :=
  match getProp (read store KEYS_SETTINGS defaultSettings) "admins" with
  | Some admins => Some (isZero (getPropOpt admins "length"))
  | None => None
  end.

(** What the lockout-risk test of a restore answers: [Some true] when the
    advisory is due, [None] when the test itself throws. *)
Definition lockoutOutcome (json : value) (store : gmap string string) : option bool :=
  if incomingHasNoAdmins (getPropOpt json "settings")
  then currentHasNoAdmins store
  else Some false.

(** The store after the five writes of a restore. *)
Definition restoredStore (json : value) (store : gmap string string)
  : gmap string string :=
  <[KEYS_SETTINGS := itemText (JSON_stringify (getPropOpt json "settings"))]>
    (<[KEYS_LOGS := itemText (JSON_stringify (getPropOpt json "logs"))]>
       (<[KEYS_CAUTELAS := itemText (JSON_stringify (getPropOpt json "cautelas"))]>
          (<[KEYS_PERSONNEL := itemText (JSON_stringify (getPropOpt json "personnel"))]>
             (<[KEYS_MATERIALS := itemText (JSON_stringify (getPropOpt json "materials"))]>
                store)))).

(** The [catch] block of [processJson]. *)
Definition failed (initiator : string) (e : exn) : M unit :=
  console_error "" (Some e) ;;;
  addLog initiator "Erro Restauração" "Erro ao processar JSON." ;;;
  callback false "Erro crítico ao processar dados.".

Definition invalidDetail := "Arquivo inválido ou corrompido (falta estrutura básica).".
Definition invalidMessage := "Estrutura do arquivo inválida.".
Definition successMessage := "Dados restaurados com sucesso.".
Definition successDetail (version : value) : string :=
  "Sistema restaurado com sucesso. Versão do backup: " +:+ toString version.
Definition advisory := ConsoleWarn "Backup has no admins. Be careful.".

(** The document [generateBackupData] returns in world [w]. *)
Definition snapshot (w : World) : value :=
  VObj [("materials", read (localStorage w) KEYS_MATERIALS (VArr []));
        ("personnel", read (localStorage w) KEYS_PERSONNEL (VArr []));
        ("cautelas", read (localStorage w) KEYS_CAUTELAS (VArr []));
        ("logs", read (localStorage w) KEYS_LOGS (VArr []));
        ("settings", read (localStorage w) KEYS_SETTINGS defaultSettings);
        ("timestamp", VStr (Date_toISOString (clock (ticks w))));
        ("version", VStr "1.1");
        ("integrityHash", VStr (pretty (clock (S (ticks w)))))].

(** [JSON.stringify(d)] for a document [d]. *)
Definition serialize (d : value) : string := itemText (JSON_stringify d).

(** The steps of [uploadBackup] that come before the upload request, and
    the request they arrive at: token, folder, file name and archive. *)
Definition uploadRequest : M (string * option string * string * Blob) :=
  accessToken <- getAccessToken ;;
  folderId <- findOrCreateFolderChain accessToken ;;
  backupData <- generateBackupData ;;
  blob <- encode (serialize backupData) ;;
  t <- Date_now ;;
  ret (accessToken, folderId,
       "backup_auto_" +:+ dashed (Date_toISOString t) +:+ ".zip", blob).

(** The upload request ends in an exception: the request is dropped, or
    the answer is not [ok]. *)
Definition uploadFails (request : string * option string * string * Blob)
    (w : World) : Prop :=
  let '(accessToken, folderId, fileName, blob) := request in
  match fetch_upload accessToken folderId fileName blob w with
  | (Ok response, _) => response_ok response = false
  | (Throw _, _) => True
  end.

(** The id [findFolder] answers for a list of files and an accepted token. *)
Definition lookupFolder (name : string) (parent : option string)
    (files : list DriveFile) : option string :=
  match List.filter (matchesQuery name parent) files with
  | f :: _ => Some (df_id f)
  | [] => None
  end.

(** The folder [createFolder] adds. *)
Definition folder (id name : string) (parents : list string) : DriveFile :=
  {| df_id := id; df_name := name; df_mimeType := folderMimeType;
     df_parents := parents; df_trashed := false |}.

Definition rootName := "App_Controle_Armamento".
Definition backupsName := "Backups".

(** The answer and the world of [findOrCreateFolderChain] for a token the
    server accepts. *)
Definition resolved (w : World) : Res (option string) * World :=
  let files := drive_files (drive w) in
  let n := drive_next (drive w) in
  match lookupFolder rootName None files with
  | Some rootId =>
      match lookupFolder backupsName (Some rootId) files with
      | Some backupId => (Ok (Some backupId), w)
      | None =>
          (Ok (Some (freshId n)),
           set_drive (addFile (folder (freshId n) backupsName [rootId]) (drive w)) w)
      end
  | None =>
      let w1 := set_drive (addFile (folder (freshId n) rootName []) (drive w)) w in
      match lookupFolder backupsName (Some (freshId n)) files with
      | Some backupId => (Ok (Some backupId), w1)
      | None =>
          (Ok (Some (freshId (S n))),
           set_drive (addFile (folder (freshId (S n)) backupsName [freshId n])
                              (drive w1)) w1)
      end
  end.

(** The number of folders called [name] in a list of files. *)
Definition countNamed (name : string) (files : list DriveFile) : nat :=
  List.length (List.filter (fun f => String.eqb (df_name f) name) files).

End Program.

(** ** The remaining operations of the services *)

(** The browser function [exportCSV] relies on. *)
Class Browser : Type := {
  encodeURI : string -> string
}.

Section Spreadsheet.
Context `{Runtime} `{Browser}.

(** The position a property name denotes in an array-like of [n] elements:
    the index whose decimal form is the name. *)
Definition indexOf (k : string) (n : nat) : option nat :=
  List.find (fun i => String.eqb (pretty i) k) (seq 0 n).

(** [v[k]] for an arbitrary property name [k]; [None] is the [TypeError]
    of reading a property of [null] or [undefined]. *)
Definition getMember (v : value) (k : string) : option value :=
  match v with
  | VUndefined | VNull => None
  | VObj fields => Some (default VUndefined (assoc k fields))
  | VArr l =>
      Some (if String.eqb k "length" then VNum (Z.of_nat (List.length l))
            else match indexOf k (List.length l) with
                 | Some i => nth i l VUndefined
                 | None => VUndefined
                 end)
  | VStr s =>
      Some (if String.eqb k "length" then VNum (Z.of_nat (String.length s))
            else match indexOf k (String.length s) with
                 | Some i => nth i (chars s) VUndefined
                 | None => VUndefined
                 end)
  | VBool _ | VNum _ => Some VUndefined
  end.

(** [Object.keys(v)], for an object whose member names are distinct and
    not numeric; [None] is the [TypeError] for [null] and [undefined]. *)
Definition objectKeys (v : value) : option (list string) :=
  match v with
  | VUndefined | VNull => None
  | VObj fields => Some (map fst fields)
  | VArr l => Some (map pretty (seq 0 (List.length l)))
  | VStr s => Some (map pretty (seq 0 (String.length s)))
  | VBool _ | VNum _ => Some []
  end.

(** [headers.map(fieldName => JSON.stringify(row[fieldName]))], each cell
    as [join] writes it: an [undefined] cell is written as the empty
    string.  With no header the row is never read. *)
Fixpoint cells (headers : list string) (row : value) : option (list string) :=
  match headers with
  | [] => Some []
  | fieldName :: rest =>
      match getMember row fieldName with
      | Some x =>
          match cells rest row with
          | Some tail => Some (default "" (JSON_stringify x) :: tail)
          | None => None
          end
      | None => None
      end
  end.

(** [data.map(row => ...)]: the cells of every row, up to the first row
    that throws. *)
Fixpoint table (headers : list string) (data : list value)
  : option (list (list string)) :=
  match data with
  | [] => Some []
  | row :: rest =>
      match cells headers row with
      | Some line =>
          match table headers rest with
          | Some lines => Some (line :: lines)
          | None => None
          end
      | None => None
      end
  end.

Definition newline : string := String (ascii_of_nat 10) EmptyString.

(** The link [exportCSV] builds and clicks. *)
Record Anchor : Type := {
  anchor_href : string;
  anchor_download : string
}.

(** [exportCSV]; the result is the link that was clicked, [None] when the
    function returns without making one. *)
Definition exportCSV (data : list value) (filename : string) : Res (option Anchor) :=
  match data with
  | [] => Ok None
  | first :: _ =>
      match objectKeys first with
      | None => Throw TypeError
      | Some headers =>
          match table headers data with
          | None => Throw TypeError
          | Some lines =>
              let csvContent :=
                "data:text/csv;charset=utf-8,"
                +:+ join newline (join "," headers :: map (join ",") lines) in
              Ok (Some {| anchor_href := encodeURI csvContent;
                          anchor_download := filename +:+ ".csv" |})
          end
      end
  end.

End Spreadsheet.

Section Listing.
Context `{Runtime} `{Google}.

Notation "x <- m ;; k" := (bind m (fun x => k))
  (at level 100, m at next level, right associativity).

(** The answer to the listing request: [ok], [statusText] and the [files]
    member of the body. *)
Record Listing : Type := {
  listing_ok : bool;
  listing_statusText : string;
  listing_files : list DriveFile
}.

(** A file is a live folder called [name]. *)
Definition isFolder (name : string) (f : DriveFile) : Prop :=
  df_name f = name /\ df_mimeType f = folderMimeType /\ df_trashed f = false.

(** The query ['<folder>' in parents and trashed = false]. *)
Definition inFolder (folder : string) (f : DriveFile) : bool :=
  existsb (String.eqb folder) (df_parents f) && negb (df_trashed f).

(** [GET /drive/v3/files?q=...&orderBy=createdTime desc]: the Drive holds
    its files in the order of their creation, so the newest comes first
    in the answer.  The folder id is written into the query as the
    template literal writes it. *)
Definition fetch_list (accessToken : string) (folderId : option string) : M Listing :=
  fun w =>
    if authorized accessToken
    then (Ok {| listing_ok := true; listing_statusText := "OK";
                listing_files :=
                  rev (List.filter (inFolder (default "undefined" folderId))
                         (drive_files (drive w))) |}, w)
    else (Ok {| listing_ok := false; listing_statusText := "Unauthorized";
                listing_files := [] |}, w).

Definition listBackups : M (list DriveFile) :=
  accessToken <- getAccessToken ;;
  folderId <- findOrCreateFolderChain accessToken ;;
  response <- fetch_list accessToken folderId ;;
  if negb (listing_ok response)
  then throw (Error ("List failed: " +:+ listing_statusText response))
  else ret (listing_files response).

End Listing.

(** ** An executable host

    One concrete instance of each interface, used to run the program on
    concrete inputs: a JSON codec for the values above (integer numerals
    only), the ISO 8601 form of [Date.prototype.toISOString], archives kept
    as their member table, and a Drive that accepts the single bearer token
    [Sample.token] and refuses uploads beyond a quota of files. *)
Module Sample.

Definition dquote : ascii := "034"%char.
Definition backslash : ascii := "092"%char.

Definition hexDigit (n : nat) : ascii :=
  ascii_of_nat (if (n <? 10)%nat then 48 + n else 87 + n).

(** A string literal of JSON, with the escapes [JSON.stringify] writes. *)
Fixpoint escape (s : string) : string :=
  match s with
  | EmptyString => EmptyString
  | String c rest =>
      let n := nat_of_ascii c in
      if Ascii.eqb c dquote then String backslash (String dquote (escape rest))
      else if Ascii.eqb c backslash then String backslash (String backslash (escape rest))
      else if (n =? 8)%nat then String backslash (String "b" (escape rest))
      else if (n =? 9)%nat then String backslash (String "t" (escape rest))
      else if (n =? 10)%nat then String backslash (String "n" (escape rest))
      else if (n =? 12)%nat then String backslash (String "f" (escape rest))
      else if (n =? 13)%nat then String backslash (String "r" (escape rest))
      else if (n <? 32)%nat
           then String backslash
                  (String "u" (String "0" (String "0"
                     (String (hexDigit (n / 16)) (String (hexDigit (n mod 16))
                        (escape rest))))))
      else String c (escape rest)
  end.

Definition quote (s : string) : string :=
  String dquote (escape s +:+ String dquote EmptyString).

(** [JSON.stringify]: an [undefined] element of an array is written
    [null], an [undefined] member of an object is left out. *)
Fixpoint text (v : value) : string :=
  match v with
  | VUndefined | VNull => "null"
  | VBool true => "true"
  | VBool false => "false"
  | VNum n => pretty n
  | VStr s => quote s
  | VArr l => "[" +:+ join "," (map text l) +:+ "]"
  | VObj fields =>
      "{" +:+ join ","
                ((fix members (l : list (string * value)) : list string :=
                    match l with
                    | [] => []
                    | (_, VUndefined) :: rest => members rest
                    | (k, x) :: rest => (quote k +:+ ":" +:+ text x) :: members rest
                    end) fields)
          +:+ "}"
  end.

Definition isSpace (c : ascii) : bool :=
  let n := nat_of_ascii c in
  (n =? 32)%nat || (n =? 9)%nat || (n =? 10)%nat || (n =? 13)%nat.

Fixpoint skipSpace (s : string) : string :=
  match s with
  | String c rest => if isSpace c then skipSpace rest else s
  | EmptyString => s
  end.

Definition digitOf (c : ascii) : option Z :=
  let n := nat_of_ascii c in
  if (48 <=? n)%nat && (n <=? 57)%nat then Some (Z.of_nat (n - 48)) else None.

Definition hexOf (c : ascii) : option nat :=
  let n := nat_of_ascii c in
  if (48 <=? n)%nat && (n <=? 57)%nat then Some (n - 48)%nat
  else if (97 <=? n)%nat && (n <=? 102)%nat then Some (n - 87)%nat
  else if (65 <=? n)%nat && (n <=? 70)%nat then Some (n - 55)%nat
  else None.

(** The UTF-8 bytes of a code point of the basic plane. *)
Definition utf8 (cp : nat) (rest : string) : string :=
  if (cp <? 128)%nat then String (ascii_of_nat cp) rest
  else if (cp <? 2048)%nat
       then String (ascii_of_nat (192 + cp / 64))
              (String (ascii_of_nat (128 + cp mod 64)) rest)
  else String (ascii_of_nat (224 + cp / 4096))
         (String (ascii_of_nat (128 + (cp / 64) mod 64))
            (String (ascii_of_nat (128 + cp mod 64)) rest)).

(** The characters of a string literal after its opening quote, up to the
    closing one, and the text that follows. *)
Fixpoint parseChars (s : string) : option (string * string) :=
  match s with
  | EmptyString => None
  | String c rest =>
      if Ascii.eqb c dquote then Some (EmptyString, rest)
      else if Ascii.eqb c backslash then
        match rest with
        | String e rest' =>
            if Ascii.eqb e "u" then
              match rest' with
              | String a (String b (String c' (String d rest''))) =>
                  match hexOf a, hexOf b, hexOf c', hexOf d, parseChars rest'' with
                  | Some a, Some b, Some c', Some d, Some (str, tail) =>
                      Some (utf8 (((a * 16 + b) * 16 + c') * 16 + d) str, tail)
                  | _, _, _, _, _ => None
                  end
              | _ => None
              end
            else
              let plain (x : ascii) :=
                match parseChars rest' with
                | Some (str, tail) => Some (String x str, tail)
                | None => None
                end in
              if Ascii.eqb e dquote then plain dquote
              else if Ascii.eqb e backslash then plain backslash
              else if Ascii.eqb e "/" then plain "/"%char
              else if Ascii.eqb e "b" then plain (ascii_of_nat 8)
              else if Ascii.eqb e "f" then plain (ascii_of_nat 12)
              else if Ascii.eqb e "n" then plain (ascii_of_nat 10)
              else if Ascii.eqb e "r" then plain (ascii_of_nat 13)
              else if Ascii.eqb e "t" then plain (ascii_of_nat 9)
              else None
        | EmptyString => None
        end
      else if (nat_of_ascii c <? 32)%nat then None
      else
        match parseChars rest with
        | Some (str, tail) => Some (String c str, tail)
        | None => None
        end
  end.

Fixpoint parseDigits (acc : Z) (s : string) : Z * string :=
  match s with
  | String c rest =>
      match digitOf c with
      | Some d => parseDigits (acc * 10 + d) rest
      | None => (acc, s)
      end
  | EmptyString => (acc, s)
  end.

(** An integer numeral; a fraction or an exponent is refused. *)
Definition parseNumber (s : string) : option (Z * string) :=
  let (negative, body) :=
    match s with
    | String "-" rest => (true, rest)
    | _ => (false, s)
    end in
  match body with
  | String c rest =>
      match digitOf c with
      | Some d =>
          let (n, tail) := if d =? 0 then (0, rest) else parseDigits d rest in
          match tail with
          | String "." _ | String "e" _ | String "E" _ => None
          | String c' _ =>
              if d =? 0 then
                match digitOf c' with
                | Some _ => None
                | None => Some (if negative then - n else n, tail)
                end
              else Some (if negative then - n else n, tail)
          | EmptyString => Some (if negative then - n else n, tail)
          end
      | None => None
      end
  | EmptyString => None
  end.

Definition expect (word : string) (v : value) (s : string) : option (value * string) :=
  if isPrefix word s
  then Some (v, String.substring (String.length word)
                  (String.length s - String.length word) s)
  else None.

(** Recursive descent; every call consumes a character, so the length of
    the text is fuel enough.  A member name that occurs twice keeps its
    first position and its last value, as in [JSON.parse]. *)
Fixpoint parseValue (fuel : nat) (s : string) : option (value * string) :=
  match fuel with
  | O => None
  | S fuel' =>
      match skipSpace s with
      | String "{" rest =>
          match skipSpace rest with
          | String "}" tail => Some (VObj [], tail)
          | body => parseMembers fuel' [] body
          end
      | String "[" rest =>
          match skipSpace rest with
          | String "]" tail => Some (VArr [], tail)
          | body => parseElements fuel' [] body
          end
      | String "t" _ as word => expect "true" (VBool true) word
      | String "f" _ as word => expect "false" (VBool false) word
      | String "n" _ as word => expect "null" VNull word
      | String c rest as word =>
          if Ascii.eqb c dquote then
            match parseChars rest with
            | Some (str, tail) => Some (VStr str, tail)
            | None => None
            end
          else
            match parseNumber word with
            | Some (n, tail) => Some (VNum n, tail)
            | None => None
            end
      | EmptyString => None
      end
  end
with parseElements (fuel : nat) (acc : list value) (s : string)
  : option (value * string) :=
  match fuel with
  | O => None
  | S fuel' =>
      match parseValue fuel' s with
      | Some (v, tail) =>
          match skipSpace tail with
          | String "," rest => parseElements fuel' (acc ++ [v]) rest
          | String "]" rest => Some (VArr (acc ++ [v]), rest)
          | _ => None
          end
      | None => None
      end
  end
with parseMembers (fuel : nat) (acc : list (string * value)) (s : string)
  : option (value * string) :=
  match fuel with
  | O => None
  | S fuel' =>
      match skipSpace s with
      | String c rest =>
          if Ascii.eqb c dquote then
            match parseChars rest with
            | Some (name, tail) =>
                match skipSpace tail with
                | String ":" rest' =>
                    match parseValue fuel' rest' with
                    | Some (v, tail') =>
                        match skipSpace tail' with
                        | String "," rest'' =>
                            parseMembers fuel' (setField name v acc) rest''
                        | String "}" rest'' => Some (VObj (setField name v acc), rest'')
                        | _ => None
                        end
                    | None => None
                    end
                | _ => None
                end
            | None => None
            end
          else None
      | EmptyString => None
      end
  end.

Definition parse (s : string) : option value :=
  match parseValue (S (String.length s)) s with
  | Some (v, tail) =>
      match skipSpace tail with
      | EmptyString => Some v
      | _ => None
      end
  | None => None
  end.

(** *** Dates *)

Fixpoint padded (width : nat) (n : Z) : string :=
  match width with
  | O => ""
  | S width' => padded width' (n / 10) +:+ String (ascii_of_nat (48 + Z.to_nat (n mod 10))) ""
  end.

(** The civil date of a day number counted from 1970-01-01. *)
Definition civil (days : Z) : Z * Z * Z :=
  let z := days + 719468 in
  let era := z / 146097 in
  let doe := z - era * 146097 in
  let yoe := (doe - doe / 1460 + doe / 36524 - doe / 146096) / 365 in
  let doy := doe - (365 * yoe + yoe / 4 - yoe / 100) in
  let mp := (5 * doy + 2) / 153 in
  let d := doy - (153 * mp + 2) / 5 + 1 in
  let m := if mp <? 10 then mp + 3 else mp - 9 in
  let y := yoe + era * 400 + (if m <=? 2 then 1 else 0) in
  (y, m, d).

(** The day number of a civil date. *)
Definition dayNumber (y m d : Z) : Z :=
  let y' := if m <=? 2 then y - 1 else y in
  let era := y' / 400 in
  let yoe := y' - era * 400 in
  let doy := (153 * (if 2 <? m then m - 3 else m + 9) + 2) / 5 + d - 1 in
  let doe := yoe * 365 + yoe / 4 - yoe / 100 + doy in
  era * 146097 + doe - 719468.

(** [YYYY-MM-DDTHH:mm:ss.sssZ], for the years 0 to 9999. *)
Definition toISOString (ms : Z) : string :=
  let '(y, m, d) := civil (ms / 86400000) in
  let t := ms mod 86400000 in
  padded 4 y +:+ "-" +:+ padded 2 m +:+ "-" +:+ padded 2 d +:+ "T"
  +:+ padded 2 (t / 3600000) +:+ ":" +:+ padded 2 (t / 60000 mod 60) +:+ ":"
  +:+ padded 2 (t / 1000 mod 60) +:+ "." +:+ padded 3 (t mod 1000) +:+ "Z".

Fixpoint number (width : nat) (acc : Z) (s : string) : option (Z * string) :=
  match width with
  | O => Some (acc, s)
  | S width' =>
      match s with
      | String c rest =>
          match digitOf c with
          | Some d => number width' (acc * 10 + d) rest
          | None => None
          end
      | EmptyString => None
      end
  end.

Definition sep (c : ascii) (s : string) : option string :=
  match s with
  | String c' rest => if Ascii.eqb c c' then Some rest else None
  | EmptyString => None
  end.

(** The instant a text in the form above denotes; any other text is an
    invalid date. *)
Definition fromISOString (s : string) : option Z :=
  '(y, s) ← number 4 0 s; s ← sep "-" s;
  '(m, s) ← number 2 0 s; s ← sep "-" s;
  '(d, s) ← number 2 0 s; s ← sep "T" s;
  '(hh, s) ← number 2 0 s; s ← sep ":" s;
  '(mm, s) ← number 2 0 s; s ← sep ":" s;
  '(ss, s) ← number 2 0 s; s ← sep "." s;
  '(ms, s) ← number 3 0 s; s ← sep "Z" s;
  if String.eqb s ""
     && (1 <=? m) && (m <=? 12) && (1 <=? d) && (d <=? 31)
     && (hh <=? 23) && (mm <=? 59) && (ss <=? 59)
  then Some (dayNumber y m d * 86400000 + hh * 3600000 + mm * 60000 + ss * 1000 + ms)
  else None.

Definition getTime (v : value) : option Z :=
  match v with
  | VStr s => fromISOString s
  | VNum n => Some n
  | VBool true => Some 1
  | _ => None
  end.

(** The clock starts at 2024-03-01T12:00:00.000Z and advances by seven
    milliseconds from one reading to the next. *)
Definition epoch : Z := 1709294400000.

#[export] Instance runtime : Runtime := {|
  JSON_parse := parse;
  JSON_text := text;
  clock := fun n => epoch + 7 * Z.of_nat n;
  Date_toISOString := toISOString;
  Date_getTime := getTime
|}.

(** *** Archives and files *)

(** A blob is either a container, kept as its member table, or plain text. *)
Inductive blob : Type :=
| Container (members : list (string * string))
| Plain (content : string).

Definition size (b : blob) : Z :=
  match b with
  | Container members =>
      Z.of_nat (list_sum (map (fun m => String.length (fst m) + String.length (snd m))%nat
                              members))
  | Plain content => Z.of_nat (String.length content)
  end.

#[export] Instance archive : Archive := {|
  Blob := blob;
  Blob_size := size;
  JSZip_generateAsync := fun members => Some (Container members);
  JSZip_loadAsync := fun b =>
    match b with
    | Container members => Some members
    | Plain _ => None
    end;
  FileReader_readAsText := fun b =>
    match b with
    | Container _ => Some "PK"
    | Plain content => Some content
    end
|}.

(** *** Google *)

Definition token := "ya29.sample".

(** The scripts are loaded, the client initialises, the token client grants
    [token], and the server stores an upload while the Drive holds fewer
    than [quota] files. *)
Definition google (quota : nat) : Google := {|
  gapi_loaded := true;
  gsi_loaded := true;
  gapi_client_init := fun _ => true;
  gsi_response := fun _ => TokenGranted token;
  authorized := String.eqb token;
  upload_verdict := fun d _ _ =>
    if (List.length (drive_files d) <? quota)%nat then Accepted else Refused "Forbidden"
|}.

Definition emptyDrive : Drive := {| drive_files := []; drive_next := 0 |}.

(** A world with the given store and Drive and nothing else. *)
Definition world (store : gmap string string) (d : Drive) : World :=
  {| localStorage := store; console := []; ticks := 0; drive := d;
     tokenClient := None; downloads := []; callbacks := [] |}.

(** *** The browser *)

Definition upperHex (n : nat) : ascii :=
  ascii_of_nat (if (n <? 10)%nat then 48 + n else 55 + n).

(** The characters [encodeURI] leaves as they are. *)
Definition uriSafe (c : ascii) : bool :=
  let n := nat_of_ascii c in
  ((48 <=? n)%nat && (n <=? 57)%nat)
  || ((65 <=? n)%nat && (n <=? 90)%nat)
  || ((97 <=? n)%nat && (n <=? 122)%nat)
  || existsb (Ascii.eqb c) (list_ascii_of_string ";,/?:@&=+$-_.!~*'()#").

(** [encodeURI] on the bytes of a UTF-8 text. *)
Fixpoint encodeBytes (s : string) : string :=
  match s with
  | EmptyString => EmptyString
  | String c rest =>
      if uriSafe c then String c (encodeBytes rest)
      else
        let n := nat_of_ascii c in
        String "%" (String (upperHex (n / 16)) (String (upperHex (n mod 16))
                                                    (encodeBytes rest)))
  end.

#[export] Instance browser : Browser := {| encodeURI := encodeBytes |}.

End Sample.

(** ** Sample worlds and documents *)

#[local] Existing Instance Sample.runtime.
#[local] Existing Instance Sample.archive.
#[local] Existing Instance Sample.browser.

(** A Drive with room for eight files, and one that is full. *)
#[local] Instance roomyDrive : Google := Sample.google 8.
Definition fullDrive : Google := Sample.google 0.

(** Settings with the Drive configured and automatic backup enabled at
    frequency [never]; no backup has been made yet. *)
Definition neverSettings : value :=
  VObj [("institutionName", VStr "1a Cia 12 BPM");
        ("theme", VStr "light");
        ("admins", VArr []);
        ("googleDrive", VObj [("clientId", VStr "client"); ("apiKey", VStr "key")]);
        ("backup", VObj [("enabled", VBool true);
                         ("frequency", VStr BackupFrequency_NEVER)])].

Definition neverWorld : World :=
  Sample.world {[ KEYS_SETTINGS := Sample.text neverSettings ]} Sample.emptyDrive.

Definition dailyPolicy : value :=
  VObj [("enabled", VBool true);
        ("frequency", VStr BackupFrequency_DAILY);
        ("lastBackupDate", VStr "2024-03-01T12:00:00.000Z")].

(** A document without [settings], and one without [version]. *)
Definition noSettingsDoc : value :=
  VObj [("version", VStr "1.1"); ("materials", VArr []); ("personnel", VArr []);
        ("cautelas", VArr []); ("logs", VArr [])].

Definition noVersionDoc : value :=
  VObj [("materials", VArr []); ("personnel", VArr []); ("cautelas", VArr []);
        ("logs", VArr []); ("settings", VObj [("admins", VArr [])])].

(** A document with the three required members only. *)
Definition minimalDoc : value :=
  VObj [("version", VStr "1.1");
        ("materials", VArr [VObj [("id", VStr "m1"); ("quantity", VNum 2)]]);
        ("settings", VObj [("institutionName", VStr "1a Cia 12 BPM")])].

(** The same with a log that is not a list. *)
Definition nullLogDoc : value :=
  VObj [("version", VStr "1.1");
        ("materials", VArr [VObj [("id", VStr "m1"); ("quantity", VNum 2)]]);
        ("settings", VObj [("institutionName", VStr "1a Cia 12 BPM")]);
        ("logs", VNull)].

Definition emptyWorld : World := Sample.world ∅ Sample.emptyDrive.

(** An archive that holds no member ending in [.json]. *)
Definition strayArchive : File :=
  {| file_name := "backup.zip"; file_type := "application/zip";
     file_data := Sample.Container [("readme.txt", "nothing to restore")] |}.

(** A file that claims to be an archive and is not one. *)
Definition brokenArchive : File :=
  {| file_name := "backup.zip"; file_type := "application/zip";
     file_data := Sample.Plain "garbage" |}.

(** A world whose token client has been created. *)
Definition readyWorld : World := set_tokenClient (Some (VStr "client")) emptyWorld.

(** Settings that name one administrator. *)
Definition staffedSettings : value :=
  VObj [("institutionName", VStr "1a Cia 12 BPM");
        ("theme", VStr "light");
        ("admins", VArr [VObj [("id", VStr "a1"); ("name", VStr "Ana");
                               ("matricula", VStr "100"); ("role", VStr "ADMIN")]])].

Definition staffedWorld : World :=
  Sample.world {[ KEYS_SETTINGS := Sample.text staffedSettings ]} Sample.emptyDrive.

(** A store whose log slot holds a text that is no JSON, and one whose log
    slot holds [null]. *)
Definition garbledLogWorld : World :=
  Sample.world {[ KEYS_LOGS := "{oops" ]} Sample.emptyDrive.

Definition nullLogWorld : World :=
  Sample.world {[ KEYS_LOGS := "null" ]} Sample.emptyDrive.

(** A container library that cannot produce an archive, and an empty world
    on it. *)
Definition failingArchive : Archive := {|
  Blob := Sample.blob;
  Blob_size := Sample.size;
  JSZip_generateAsync := fun _ => None;
  JSZip_loadAsync := JSZip_loadAsync (Archive := Sample.archive);
  FileReader_readAsText := FileReader_readAsText (Archive := Sample.archive)
|}.

Definition failingWorld : World (H0 := failingArchive) :=
  {| localStorage := ∅; console := []; ticks := 0; drive := Sample.emptyDrive;
     tokenClient := None; downloads := []; callbacks := [] |}.

(** An archive of the minimal document. *)
Definition minimalArchive : File :=
  {| file_name := "backup_sentinela_2024-03-01.zip"; file_type := "";
     file_data := Sample.Container [(payloadName, Sample.text minimalDoc)] |}.

(** The world of the [never] settings with its token client created. *)
Definition readyNeverWorld : World :=
  set_tokenClient (Some (VStr "client")) neverWorld.

(** A policy whose last backup date is no date. *)
Definition garbledPolicy : value :=
  VObj [("enabled", VBool true);
        ("frequency", VStr BackupFrequency_DAILY);
        ("lastBackupDate", VStr "yesterday")].

(** A token client that grants a token the server no longer accepts. *)
Definition staleGoogle : Google := {|
  gapi_loaded := true;
  gsi_loaded := true;
  gapi_client_init := fun _ => true;
  gsi_response := fun _ => TokenGranted "ya29.stale";
  authorized := String.eqb Sample.token;
  upload_verdict := fun _ _ _ => Accepted
|}.

(** Two rows of a materials table; the second lacks a column of the first
    and has one of its own. *)
Definition rifleRow : value :=
  VObj [("id", VStr "m1"); ("name", VStr "Fuzil 7,62")].

Definition pistolRow : list (string * value) := [("id", VStr "m2")].

(** Settings with the Drive configured and a daily policy whose last
    backup was made at noon of 2024-03-01, in a world whose token client
    has been created. *)
Definition datedSettings : value :=
  VObj [("institutionName", VStr "1a Cia 12 BPM");
        ("theme", VStr "light");
        ("admins", VArr []);
        ("googleDrive", VObj [("clientId", VStr "client"); ("apiKey", VStr "key")]);
        ("backup", dailyPolicy)].

Definition datedWorld : World :=
  set_tokenClient (Some (VStr "client"))
    (Sample.world {[ KEYS_SETTINGS := Sample.text datedSettings ]} Sample.emptyDrive).

(** The store whose log slot holds [null], with the token client created. *)
Definition readyNullLogWorld : World :=
  set_tokenClient (Some (VStr "client")) nullLogWorld.

(** ** Properties *)

Section Properties.
Context `{Runtime} `{Google}.

Notation "x <- m ;; k" := (bind m (fun x => k))
  (at level 100, m at next level, right associativity).
Notation "m ;;; k" := (bind m (fun _ => k))
  (at level 100, right associativity).

(** *** Running the monad *)

Lemma bind_ok {A B} (m : M A) (k : A -> M B) w a w' :
  m w = (Ok a, w') -> bind m k w = k a w'.
Proof. intros E. unfold bind. now rewrite E. Qed.

Lemma bind_throw {A B} (m : M A) (k : A -> M B) w e w' :
  m w = (Throw e, w') -> bind m k w = (Throw e, w').
Proof. intros E. unfold bind. now rewrite E. Qed.

Lemma try_ok {A} (m : M A) handler w a w' :
  m w = (Ok a, w') -> try_catch m handler w = (Ok a, w').
Proof. intros E. unfold try_catch. now rewrite E. Qed.

Lemma try_throw {A} (m : M A) handler w e w' :
  m w = (Throw e, w') -> try_catch m handler w = handler e w'.
Proof. intros E. unfold try_catch. now rewrite E. Qed.

(** One step of a run: replace the first computation of a sequence by its
    result. *)
Tactic Notation "run" uconstr(E) := rewrite (bind_ok _ _ _ _ _ E).
Tactic Notation "fails" uconstr(E) := rewrite (bind_throw _ _ _ _ _ E).

Lemma bind_console_error {B} message e (k : unit -> M B) w :
  bind (console_error message e) k w = k tt (logged [ConsoleError message e] w).
Proof. reflexivity. Qed.

Lemma logged_nil w : logged [] w = w.
Proof. destruct w. unfold logged, set_console. simpl. now rewrite app_nil_r. Qed.

(** *** The store *)

Lemma get_run key defaultValue w :
  get key defaultValue w
  = (Ok (read (localStorage w) key defaultValue),
     logged (readErrors (localStorage w) key) w).
Proof.
  unfold get, try_catch, bind, localStorage_getItem, read, readErrors.
  destruct (localStorage w !! key) as [s|]; simpl.
  - destruct (String.eqb s ""); simpl.
    + now rewrite logged_nil.
    + destruct (JSON_parse s); simpl; [now rewrite logged_nil | reflexivity].
  - now rewrite logged_nil.
Qed.

Lemma set_run key v w : set key v w = (Ok tt, stored key v w).
Proof. reflexivity. Qed.

Lemma addLog_run armorerName action details w rest :
  auditTrail (localStorage w) = Some rest ->
  addLog armorerName action details w
  = (Ok tt, audited armorerName action details rest w).
Proof.
  unfold auditTrail. intros E. unfold addLog, getLogs.
  run (get_run _ _ _).
  unfold bind at 1. unfold Date_now at 1.
  unfold bind at 1. unfold Date_now at 1.
  rewrite E. reflexivity.
Qed.

Lemma addLog_throws armorerName action details w :
  auditTrail (localStorage w) = None ->
  addLog armorerName action details w = (Throw TypeError, stamped w).
Proof.
  unfold auditTrail. intros E. unfold addLog, getLogs.
  run (get_run _ _ _).
  unfold bind at 1. unfold Date_now at 1.
  unfold bind at 1. unfold Date_now at 1.
  rewrite E. reflexivity.
Qed.

(** *** Building a snapshot *)

Lemma generateBackupData_run (w : World) :
  exists w',
    generateBackupData w = (Ok (snapshot w), w')
    /\ localStorage w' = localStorage w
    /\ ticks w' = S (S (ticks w))
    /\ drive w' = drive w
    /\ tokenClient w' = tokenClient w
    /\ downloads w' = downloads w
    /\ callbacks w' = callbacks w.
Proof.
  unfold generateBackupData, getMaterials, getPersonnel, getCautelas, getLogs,
    getSettings.
  repeat (run (get_run _ _ _); simpl localStorage).
  unfold bind, Date_now, ret. simpl.
  eexists. split; [reflexivity |]. simpl. repeat split.
Qed.

(** C9.  [generateBackupData] always returns, and what it returns is a
    document holding the five persisted collections as [get] reads them, a
    timestamp, the version tag [1.1] and an integrity marker; the store
    (hence every persisted collection and the settings), the Drive, the
    downloads and the callbacks are left as they were. *)
Theorem generateBackupData_reads_only (w : World) :
  exists w',
    generateBackupData w
    = (Ok (VObj [("materials", read (localStorage w) KEYS_MATERIALS (VArr []));
                 ("personnel", read (localStorage w) KEYS_PERSONNEL (VArr []));
                 ("cautelas", read (localStorage w) KEYS_CAUTELAS (VArr []));
                 ("logs", read (localStorage w) KEYS_LOGS (VArr []));
                 ("settings", read (localStorage w) KEYS_SETTINGS defaultSettings);
                 ("timestamp", VStr (Date_toISOString (clock (ticks w))));
                 ("version", VStr "1.1");
                 ("integrityHash", VStr (pretty (clock (S (ticks w)))))]), w')
    /\ localStorage w' = localStorage w
    /\ drive w' = drive w
    /\ tokenClient w' = tokenClient w
    /\ downloads w' = downloads w
    /\ callbacks w' = callbacks w.
Proof.
  destruct (generateBackupData_run w) as (w' & R & S & _ & D & T & Dl & C).
  exists w'. repeat split; assumption.
Qed.

(** *** The due-check *)

Lemma diffAtLeast_spec (hours elapsed : Z) :
  diffAtLeast hours (Some (Qmake elapsed 3600000)) = true
  <-> hours * 3600000 <= elapsed.
Proof.
  unfold diffAtLeast. rewrite Qle_bool_iff. unfold Qle. simpl. lia.
Qed.

Lemma isStr_eq s v : isStr s v = true -> v = VStr s.
Proof.
  destruct v; simpl; try discriminate.
  intros E. apply String.eqb_eq in E. now subst.
Qed.

Lemma shouldBackup_dated backup now lastBackupDate last :
  getPropOpt backup "lastBackupDate" = lastBackupDate ->
  truthy lastBackupDate = true ->
  Date_getTime lastBackupDate = Some last ->
  shouldBackup backup now
  = let frequency := getPropOpt backup "frequency" in
    let diffHours := Some (Qmake (now - last) 3600000) in
    if isStr BackupFrequency_ON_BOOT frequency then true
    else if isStr BackupFrequency_DAILY frequency then diffAtLeast 24 diffHours
    else if isStr BackupFrequency_WEEKLY frequency then diffAtLeast 168 diffHours
    else if isStr BackupFrequency_MONTHLY frequency then diffAtLeast 720 diffHours
    else false.
Proof.
  intros E T D. unfold shouldBackup. rewrite E, T, D. reflexivity.
Qed.

(** Without a last backup date the check answers due, whatever the
    frequency. *)
Lemma shouldBackup_undated backup now :
  truthy (getPropOpt backup "lastBackupDate") = false ->
  shouldBackup backup now = true.
Proof. intros T. unfold shouldBackup. now rewrite T. Qed.

(** With a last backup date, frequency [never] is not due. *)
Lemma shouldBackup_never_dated backup now :
  truthy (getPropOpt backup "lastBackupDate") = true ->
  isStr BackupFrequency_NEVER (getPropOpt backup "frequency") = true ->
  shouldBackup backup now = false.
Proof.
  intros T F. unfold shouldBackup. rewrite T. apply isStr_eq in F. now rewrite F.
Qed.

(** [runAutoBackupCheck] with the Drive configured, automatic backup
    enabled and the Google client initialising: the upload cycle is run
    exactly when the due-check, taken at the instant the clock shows,
    answers due. *)
Lemma runAutoBackupCheck_enabled w settings googleDrive :
  read (localStorage w) KEYS_SETTINGS defaultSettings = settings ->
  getProp settings "googleDrive" = Some googleDrive ->
  truthy (getPropOpt googleDrive "clientId") = true ->
  truthy (getPropOpt (getPropOpt settings "backup") "enabled") = true ->
  gapi_loaded = true ->
  gapi_client_init (getPropOpt googleDrive "apiKey") = true ->
  gsi_loaded = true ->
  runAutoBackupCheck w
  = (if shouldBackup (getPropOpt settings "backup") (clock (ticks w))
     then
       console_log "Triggering Auto Backup..." ;;;
       try_catch (uploadBackup "Automático" ;;; ret tt)
         (fun e => console_error "Auto backup failed" (Some e))
     else ret tt)
      (set_ticks (S (ticks w))
         (set_tokenClient (Some (getPropOpt googleDrive "clientId"))
            (logged (readErrors (localStorage w) KEYS_SETTINGS) w))).
Proof.
  intros S G C E L I T. unfold runAutoBackupCheck, getSettings.
  run (get_run _ _ _). rewrite S, G.
  cbn [orThrow]. unfold bind at 1, ret at 1. rewrite C, E. cbn [negb orb].
  unfold initClient. rewrite L, I, T. cbn [negb].
  unfold try_catch at 1, bind at 1, bind at 1, ret at 1. cbn [negb].
  unfold bind at 1, Date_now at 1. reflexivity.
Qed.

(** C7.  With a last backup date present and valid: under [daily] the
    check is not due at 23 elapsed hours, due at 25, and due exactly from
    24 hours on; under [weekly] it is due exactly from 168 hours on and
    under [monthly] exactly from 720 hours on. *)
Theorem shouldBackup_thresholds (backup lastBackupDate : value) (now last : Z) :
  getPropOpt backup "lastBackupDate" = lastBackupDate ->
  truthy lastBackupDate = true ->
  Date_getTime lastBackupDate = Some last ->
  (isStr BackupFrequency_DAILY (getPropOpt backup "frequency") = true ->
     (now - last = 23 * 3600000 -> shouldBackup backup now = false)
     /\ (now - last = 25 * 3600000 -> shouldBackup backup now = true)
     /\ (shouldBackup backup now = true <-> 24 * 3600000 <= now - last))
  /\ (isStr BackupFrequency_WEEKLY (getPropOpt backup "frequency") = true ->
        (shouldBackup backup now = true <-> 168 * 3600000 <= now - last))
  /\ (isStr BackupFrequency_MONTHLY (getPropOpt backup "frequency") = true ->
        (shouldBackup backup now = true <-> 720 * 3600000 <= now - last)).
Proof.
  intros E T D. rewrite (shouldBackup_dated _ _ _ _ E T D). cbv zeta.
  split; [| split]; intros F; apply isStr_eq in F; rewrite F.
  - cbn -[diffAtLeast]. split; [| split].
    + intros G. destruct (diffAtLeast 24 _) eqn:Q; [| reflexivity].
      apply diffAtLeast_spec in Q. lia.
    + intros G. apply diffAtLeast_spec. lia.
    + apply diffAtLeast_spec.
  - cbn -[diffAtLeast]. apply diffAtLeast_spec.
  - cbn -[diffAtLeast]. apply diffAtLeast_spec.
Qed.

(** *** Restoring *)

Lemma lockoutRisk_run settings w :
  truthy settings = true ->
  lockoutRisk settings w
  = if incomingHasNoAdmins settings
    then match currentHasNoAdmins (localStorage w) with
         | Some risk => (Ok risk, logged (readErrors (localStorage w) KEYS_SETTINGS) w)
         | None => (Throw TypeError, logged (readErrors (localStorage w) KEYS_SETTINGS) w)
         end
    else (Ok false, w).
Proof.
  intros T. unfold lockoutRisk, incomingHasNoAdmins, currentHasNoAdmins, getPropOpt.
  destruct (getProp settings "admins") as [admins|] eqn:A.
  - cbn [orThrow from_option id]. unfold bind at 1, ret at 1.
    destruct (negb (truthy admins) || isZero (default VUndefined (getProp admins "length")));
      [| reflexivity].
    unfold getSettings. run (get_run _ _ _).
    destruct (getProp (read (localStorage w) KEYS_SETTINGS defaultSettings) "admins");
      reflexivity.
  - destruct settings; discriminate.
Qed.

Lemma failed_run initiator e w rest :
  auditTrail (localStorage w) = Some rest ->
  failed initiator e w
  = (Ok tt,
     set_callbacks (callbacks w ++ [(false, "Erro crítico ao processar dados.")])%list
       (audited initiator "Erro Restauração" "Erro ao processar JSON." rest
          (logged [ConsoleError "" (Some e)] w))).
Proof.
  intros E. unfold failed. rewrite bind_console_error. cbv beta.
  run (addLog_run _ _ _ (logged [ConsoleError "" (Some e)] w) rest E).
  reflexivity.
Qed.

Lemma failed_throws initiator e w :
  auditTrail (localStorage w) = None ->
  failed initiator e w = (Throw TypeError, stamped (logged [ConsoleError "" (Some e)] w)).
Proof.
  intros E. unfold failed. rewrite bind_console_error. cbv beta.
  now fails (addLog_throws _ _ _ (logged [ConsoleError "" (Some e)] w) E).
Qed.

Lemma processJson_unparsable initiator jsonString w :
  JSON_parse jsonString = None ->
  processJson initiator jsonString w = failed initiator SyntaxError w.
Proof. intros E. unfold processJson, try_catch, bind. now rewrite E. Qed.

Lemma processJson_nullish initiator jsonString w json :
  JSON_parse jsonString = Some json ->
  getProp json "version" = None ->
  processJson initiator jsonString w = failed initiator TypeError w.
Proof. intros E V. unfold processJson, try_catch, bind. now rewrite E; cbn; rewrite V. Qed.

Lemma wellFormed_false json version :
  getProp json "version" = Some version ->
  wellFormed json = false ->
  negb (truthy version)
  || negb (truthy (getPropOpt json "materials"))
  || negb (truthy (getPropOpt json "settings")) = true.
Proof.
  unfold wellFormed, getPropOpt at 1. intros ->. cbn [from_option id].
  destruct (truthy version), (truthy (getPropOpt json "materials")),
    (truthy (getPropOpt json "settings")); now cbn.
Qed.

Lemma wellFormed_true json :
  wellFormed json = true ->
  exists version,
    getProp json "version" = Some version
    /\ getPropOpt json "version" = version
    /\ truthy (getPropOpt json "settings") = true
    /\ negb (truthy version)
       || negb (truthy (getPropOpt json "materials"))
       || negb (truthy (getPropOpt json "settings")) = false.
Proof.
  unfold wellFormed. intros W.
  apply andb_prop in W as [W S]. apply andb_prop in W as [V Mt].
  unfold getPropOpt at 1 in V.
  destruct (getProp json "version") as [version|] eqn:G; [| discriminate].
  exists version. cbn [from_option id] in V. unfold getPropOpt at 1. rewrite G.
  repeat split; [exact S |]. now rewrite V, Mt, S.
Qed.

(** A document that fails the structural test, when the stored log is
    iterable: one entry, one call of the callback, nothing else written. *)
Lemma processJson_invalid initiator jsonString w json version rest :
  JSON_parse jsonString = Some json ->
  getProp json "version" = Some version ->
  wellFormed json = false ->
  auditTrail (localStorage w) = Some rest ->
  processJson initiator jsonString w
  = (Ok tt,
     set_callbacks ((callbacks w ++ [(false, invalidMessage)])%list)
       (audited initiator "Erro Restauração" invalidDetail rest w)).
Proof.
  intros E V W A. unfold processJson, try_catch. unfold bind at 1. rewrite E.
  cbn [orThrow ret]. unfold bind at 1. rewrite V. cbn [orThrow ret].
  rewrite (wellFormed_false _ _ V W).
  now run (addLog_run _ _ _ _ rest A).
Qed.

(** The world after the writes of a restore and its advisory. *)
Lemma processJson_valid initiator jsonString w json risk w1 :
  JSON_parse jsonString = Some json ->
  wellFormed json = true ->
  lockoutRisk (getPropOpt json "settings") w = (Ok risk, w1) ->
  processJson initiator jsonString w
  = try_catch
      (addLog initiator "Restauração" (successDetail (getPropOpt json "version")) ;;;
       callback true successMessage)
      (failed initiator)
      (applied json (if risk then logged [advisory] w1 else w1)).
Proof.
  intros E W L. destruct (wellFormed_true _ W) as (version & V & V' & S & F).
  unfold processJson. unfold try_catch at 1. unfold bind at 1. rewrite E.
  cbn [orThrow ret]. unfold bind at 1. rewrite V. cbn [orThrow ret].
  rewrite F. run L. rewrite V'.
  destruct risk; reflexivity.
Qed.

Lemma lockoutRisk_outcome json w risk :
  wellFormed json = true ->
  lockoutOutcome json (localStorage w) = Some risk ->
  exists w1,
    lockoutRisk (getPropOpt json "settings") w = (Ok risk, w1)
    /\ localStorage w1 = localStorage w
    /\ ticks w1 = ticks w
    /\ callbacks w1 = callbacks w
    /\ drive w1 = drive w.
Proof.
  intros W O. destruct (wellFormed_true _ W) as (_ & _ & _ & S & _).
  rewrite (lockoutRisk_run _ _ S). unfold lockoutOutcome in O.
  destruct (incomingHasNoAdmins _).
  - rewrite O. eexists. split; [reflexivity |]. now cbn.
  - injection O as <-. eexists. split; [reflexivity |]. now cbn.
Qed.

(** A well-formed document whose lockout test does not throw, restored
    into a store whose log is iterable after the five writes: the writes
    are made, one entry is put in front of the restored log and the
    callback is told of the success. *)
Lemma processJson_success initiator jsonString w json risk rest :
  JSON_parse jsonString = Some json ->
  wellFormed json = true ->
  lockoutOutcome json (localStorage w) = Some risk ->
  auditTrail (restoredStore json (localStorage w)) = Some rest ->
  exists w',
    processJson initiator jsonString w = (Ok tt, w')
    /\ localStorage w'
       = <[KEYS_LOGS := JSON_text
             (VArr (entry initiator "Restauração"
                      (successDetail (getPropOpt json "version")) w :: rest))]>
           (restoredStore json (localStorage w))
    /\ callbacks w' = (callbacks w ++ [(true, successMessage)])%list
    /\ (risk = true -> In advisory (console w'))
    /\ drive w' = drive w.
Proof.
  intros E W O A.
  destruct (lockoutRisk_outcome _ _ _ W O) as (w1 & L & S1 & T1 & C1 & D1).
  rewrite (processJson_valid _ _ _ _ _ _ E W L).
  set (w2 := applied json (if risk then logged [advisory] w1 else w1)).
  assert (S2 : localStorage w2 = restoredStore json (localStorage w)).
  { unfold w2, restoredStore. rewrite <- S1. now destruct risk. }
  assert (T2 : ticks w2 = ticks w) by (unfold w2; rewrite <- T1; now destruct risk).
  assert (C2 : callbacks w2 = callbacks w)
    by (unfold w2; rewrite <- C1; now destruct risk).
  assert (D2 : drive w2 = drive w) by (unfold w2; rewrite <- D1; now destruct risk).
  assert (A2 : auditTrail (localStorage w2) = Some rest) by now rewrite S2.
  erewrite try_ok
    by (run (addLog_run _ _ _ _ rest A2); reflexivity).
  eexists. split; [reflexivity |]. cbn [localStorage callbacks console drive
    set_callbacks audited stored stamped set_localStorage set_ticks logged set_console].
  rewrite S2, C2, D2. unfold entry. rewrite T2.
  repeat split.
  intros ->. unfold w2. cbn. rewrite !in_app_iff. left. right. now left.
Qed.

(** The same document restored into a store whose log cannot be spread
    after the writes (a [logs] member that is [null], a number or an
    object): the five writes are made, [addLog] throws in the [try] block
    and again in the [catch] block, and the callback is never called. *)
Lemma processJson_unauditable initiator jsonString w json risk :
  JSON_parse jsonString = Some json ->
  wellFormed json = true ->
  lockoutOutcome json (localStorage w) = Some risk ->
  auditTrail (restoredStore json (localStorage w)) = None ->
  exists w',
    processJson initiator jsonString w = (Throw TypeError, w')
    /\ localStorage w' = restoredStore json (localStorage w)
    /\ callbacks w' = callbacks w.
Proof.
  intros E W O A.
  destruct (lockoutRisk_outcome _ _ _ W O) as (w1 & L & S1 & T1 & C1 & D1).
  rewrite (processJson_valid _ _ _ _ _ _ E W L).
  set (w2 := applied json (if risk then logged [advisory] w1 else w1)).
  assert (S2 : localStorage w2 = restoredStore json (localStorage w)).
  { unfold w2, restoredStore. rewrite <- S1. now destruct risk. }
  assert (C2 : callbacks w2 = callbacks w)
    by (unfold w2; rewrite <- C1; now destruct risk).
  assert (A2 : auditTrail (localStorage w2) = None) by now rewrite S2.
  erewrite try_throw
    by (fails (addLog_throws _ _ _ _ A2); reflexivity).
  rewrite failed_throws by exact A2.
  eexists. split; [reflexivity |].
  cbn [localStorage callbacks stamped logged set_ticks set_console].
  now rewrite S2, C2.
Qed.

(** The log [addLog] finds after the writes of a restore, for a document
    without [logs] and for one whose [logs] is a list the codec reads
    back. *)
Lemma auditTrail_restored_absent json store :
  JSON_parse "undefined" = None ->
  getPropOpt json "logs" = VUndefined ->
  auditTrail (restoredStore json store) = Some [].
Proof.
  intros P U. unfold auditTrail, restoredStore, read. rewrite U.
  rewrite lookup_insert_ne by discriminate. rewrite lookup_insert_eq.
  cbn. now rewrite P.
Qed.

Lemma auditTrail_restored_list json store l :
  getPropOpt json "logs" = VArr l ->
  JSON_text (VArr l) <> "" ->
  JSON_parse (JSON_text (VArr l)) = Some (VArr l) ->
  auditTrail (restoredStore json store) = Some l.
Proof.
  intros U N P. unfold auditTrail, restoredStore, read. rewrite U.
  rewrite lookup_insert_ne by discriminate. rewrite lookup_insert_eq.
  cbn. destruct (String.eqb_spec (JSON_text (VArr l)) ""); [contradiction |].
  now rewrite P.
Qed.

(** An archive that cannot be decoded: the callback is told, the console
    gets the error, and nothing else happens; in particular [addLog] is
    not called. *)
Lemma decode_frame blob w r w1 : decode blob w = (r, w1) -> w1 = w.
Proof.
  unfold decode, bind. destruct (JSZip_loadAsync blob) as [zip|]; cbn.
  - destruct (List.find _ zip) as [[name content]|]; cbn; now intros [= _ <-].
  - now intros [= _ <-].
Qed.

Lemma restoreBackup_undecodable initiator f w e w1 :
  endsWith ".zip" (file_name f) || includes "zip" (file_type f) = true ->
  decode (file_data f) w = (Throw e, w1) ->
  exists w',
    restoreBackup (Upload f) initiator w = (Ok tt, w')
    /\ callbacks w' = (callbacks w ++ [(false, "Erro ao ler arquivo ZIP.")])%list
    /\ localStorage w' = localStorage w
    /\ console w' = (console w ++ [ConsoleError "Error reading zip" (Some e)])%list.
Proof.
  intros Z D. pose proof (decode_frame _ _ _ _ D) as ->.
  cbn [restoreBackup]. rewrite Z. unfold try_catch.
  fails D. rewrite bind_console_error.
  eexists. split; [reflexivity |]. now cbn.
Qed.

(** C3 (amended).  A document that parses to a value other than [null]
    and lacks [version], [materials] or [settings] (or holds a falsy value
    there), restored over a stored log that [addLog] can spread, is
    rejected with the one fixed message, whatever is missing; the callback
    is called once with [false], the slots of the materials, the
    personnel, the checkout records and the settings keep their texts, and
    the log slot is the stored log with one failure entry in front. *)
Theorem restore_rejects_incomplete initiator jsonString w json version rest :
  JSON_parse jsonString = Some json ->
  getProp json "version" = Some version ->
  wellFormed json = false ->
  auditTrail (localStorage w) = Some rest ->
  exists w',
    restoreBackup (Text jsonString) initiator w = (Ok tt, w')
    /\ callbacks w' = (callbacks w ++ [(false, "Estrutura do arquivo inválida.")])%list
    /\ localStorage w'
       = <[KEYS_LOGS := JSON_text
             (VArr (entry initiator "Erro Restauração"
                      "Arquivo inválido ou corrompido (falta estrutura básica)." w
                    :: rest))]> (localStorage w)
    /\ localStorage w' !! KEYS_MATERIALS = localStorage w !! KEYS_MATERIALS
    /\ localStorage w' !! KEYS_PERSONNEL = localStorage w !! KEYS_PERSONNEL
    /\ localStorage w' !! KEYS_CAUTELAS = localStorage w !! KEYS_CAUTELAS
    /\ localStorage w' !! KEYS_SETTINGS = localStorage w !! KEYS_SETTINGS.
Proof.
  intros E V W A. cbn [restoreBackup].
  rewrite (processJson_invalid _ _ _ _ _ _ E V W A).
  eexists. split; [reflexivity |]. cbn.
  repeat split; now rewrite lookup_insert_ne.
Qed.



(** *** The archive *)

(** C6.  When the container library reads back what it wrote, decoding
    the archive that [encode] makes of the serialized text of a document
    [d] gives exactly that text, and changes nothing. *)
Theorem decode_encode (d : value) (w w1 w2 : World) (blob : Blob) :
  (forall members b,
      JSZip_generateAsync members = Some b -> JSZip_loadAsync b = Some members) ->
  encode (serialize d) w = (Ok blob, w1) ->
  decode blob w2 = (Ok (serialize d), w2).
Proof.
  intros Law. unfold encode, decode.
  destruct (JSZip_generateAsync [(payloadName, serialize d)]) as [b|] eqn:G;
    [| discriminate].
  cbn [orThrow ret]. intros [= <- _].
  rewrite (Law _ _ G). reflexivity.
Qed.

(** [createBackup] hands the browser the archive [encode] makes of the
    serialized snapshot, and records it in the log. *)
Lemma createBackup_download initiator w blob rest :
  JSZip_generateAsync [(payloadName, serialize (snapshot w))] = Some blob ->
  auditTrail (localStorage w) = Some rest ->
  exists w',
    createBackup initiator w = (Ok true, w')
    /\ downloads w'
       = (downloads w
          ++ [("backup_sentinela_"
               +:+ dashed (Date_toISOString (clock (S (S (ticks w))))) +:+ ".zip",
               blob)])%list
    /\ localStorage w'
       = <[KEYS_LOGS := JSON_text
             (VArr (SystemLog (pretty (clock (S (S (S (ticks w)))))) initiator
                      "Backup Local"
                      ("Backup criado e baixado. Tamanho: "
                       +:+ pretty (Blob_size blob) +:+ " bytes")
                      (Date_toISOString (clock (S (S (S (S (ticks w)))))))
                    :: rest))]> (localStorage w).
Proof.
  intros G A.
  destruct (generateBackupData_run w) as (w1 & Gen & S1 & T1 & _ & _ & Dl1 & _).
  unfold createBackup. run Gen. cbv zeta.
  unfold bind at 1, Date_now at 1. unfold try_catch, encode.
  fold (serialize (snapshot w)). rewrite G. cbn [orThrow].
  unfold bind at 1, ret at 1. unfold bind at 1, download at 1.
  erewrite bind_ok.
  2: { apply addLog_run with (rest := rest). cbn. now rewrite S1. }
  eexists. split; [reflexivity |]. cbn. now rewrite S1, T1, Dl1.
Qed.

(** *** Folder resolution *)

Lemma findFolder_run accessToken name parentId w :
  findFolder accessToken name parentId w
  = (Ok (if authorized accessToken
         then lookupFolder name (if idTruthy parentId then parentId else None)
                (drive_files (drive w))
         else None), w).
Proof.
  unfold findFolder, bind, fetch_search, lookupFolder.
  destruct (authorized accessToken); [| reflexivity].
  now destruct (List.filter _ _).
Qed.

Lemma createFolder_run accessToken name parentId w :
  authorized accessToken = true ->
  createFolder accessToken name parentId w
  = (Ok (Some (freshId (drive_next (drive w)))),
     set_drive (addFile (folder (freshId (drive_next (drive w))) name
                           (match parentId with
                            | Some p => if idTruthy parentId then [p] else []
                            | None => []
                            end))
                        (drive w)) w).
Proof. intros A. unfold createFolder, fetch_create. now rewrite A. Qed.

Lemma createFolder_refused accessToken name parentId w :
  authorized accessToken = false ->
  createFolder accessToken name parentId w = (Ok None, w).
Proof. intros A. unfold createFolder, fetch_create. now rewrite A. Qed.

Lemma lookupFolder_app name parent files files' :
  lookupFolder name parent (files ++ files')
  = match lookupFolder name parent files with
    | Some id => Some id
    | None => lookupFolder name parent files'
    end.
Proof.
  unfold lookupFolder. rewrite List.filter_app.
  now destruct (List.filter _ files).
Qed.

Lemma lookupFolder_truthy name parent files id :
  Forall (fun f => df_id f <> "") files ->
  lookupFolder name parent files = Some id ->
  idTruthy (Some id) = true.
Proof.
  unfold lookupFolder. intros F L.
  destruct (List.filter (matchesQuery name parent) files) as [|f fs] eqn:E;
    [discriminate |].
  injection L as <-.
  assert (I : In f (List.filter (matchesQuery name parent) files))
    by (rewrite E; now left).
  apply List.filter_In in I as [I _].
  rewrite List.Forall_forall in F. specialize (F _ I).
  cbn. destruct (String.eqb_spec (df_id f) ""); [contradiction | reflexivity].
Qed.

Lemma freshId_truthy n : idTruthy (Some (freshId n)) = true.
Proof. reflexivity. Qed.

Lemma chain_refused accessToken w :
  authorized accessToken = false ->
  findOrCreateFolderChain accessToken w = (Ok None, w).
Proof.
  intros A. unfold findOrCreateFolderChain.
  run (findFolder_run _ _ _ _). rewrite A. cbn [idTruthy negb].
  run (createFolder_refused _ _ _ _ A).
  run (findFolder_run _ _ _ _). rewrite A. cbn [idTruthy negb].
  now run (createFolder_refused _ _ _ _ A).
Qed.

Lemma lookup_other name parent id name' parents :
  String.eqb name' name = false ->
  lookupFolder name parent [folder id name' parents] = None.
Proof.
  intros N. unfold lookupFolder, matchesQuery. cbn. now rewrite N.
Qed.

Lemma lookup_created name id parent :
  lookupFolder name (Some parent) [folder id name [parent]] = Some id.
Proof.
  unfold lookupFolder, matchesQuery. cbn. now rewrite !String.eqb_refl.
Qed.

Lemma lookup_created_top name id :
  lookupFolder name None [folder id name []] = Some id.
Proof.
  unfold lookupFolder, matchesQuery. cbn. now rewrite !String.eqb_refl.
Qed.

Lemma chain_accepted accessToken w :
  authorized accessToken = true ->
  Forall (fun f => df_id f <> "") (drive_files (drive w)) ->
  findOrCreateFolderChain accessToken w = resolved w.
Proof.
  intros A F. unfold findOrCreateFolderChain, resolved.
  run (findFolder_run _ _ _ _). rewrite A.
  cbn [idTruthy]. fold rootName backupsName.
  destruct (lookupFolder rootName None (drive_files (drive w))) as [rootId|] eqn:R.
  - rewrite (lookupFolder_truthy _ _ _ _ F R). cbn [negb].
    unfold bind at 1, ret at 1.
    run (findFolder_run _ _ _ _). rewrite A.
    rewrite (lookupFolder_truthy _ _ _ _ F R).
    destruct (lookupFolder backupsName (Some rootId) (drive_files (drive w)))
      as [backupId|] eqn:B.
    + rewrite (lookupFolder_truthy _ _ _ _ F B). reflexivity.
    + cbn [idTruthy negb].
      erewrite bind_ok by (apply createFolder_run, A).
      rewrite (lookupFolder_truthy _ _ _ _ F R). reflexivity.
  - cbn [idTruthy negb]. erewrite bind_ok by (apply createFolder_run, A).
    run (findFolder_run _ _ _ _). rewrite A.
    rewrite freshId_truthy.
    cbn [drive set_drive drive_files addFile drive_next].
    rewrite lookupFolder_app, (lookup_other backupsName _ _ rootName) by reflexivity.
    destruct (lookupFolder backupsName (Some (freshId (drive_next (drive w))))
                (drive_files (drive w))) as [backupId|] eqn:B.
    + rewrite (lookupFolder_truthy _ _ _ _ F B). reflexivity.
    + cbn [idTruthy negb].
      erewrite bind_ok by (apply createFolder_run, A).
      rewrite freshId_truthy. reflexivity.
Qed.

Lemma freshId_nonempty n : freshId n <> "".
Proof. discriminate. Qed.

(** C5.  On a Drive whose files have non-empty ids, resolving the folder
    chain returns; resolving it again from the world the first call left
    returns the same id and leaves that world as it is, so the second call
    creates nothing; and the first call adds at most one folder called
    [App_Controle_Armamento] and at most one called [Backups]. *)
Theorem findOrCreateFolderChain_idempotent accessToken w :
  Forall (fun f => df_id f <> "") (drive_files (drive w)) ->
  exists id w1 created,
    findOrCreateFolderChain accessToken w = (Ok id, w1)
    /\ findOrCreateFolderChain accessToken w1 = (Ok id, w1)
    /\ drive_files (drive w1) = (drive_files (drive w) ++ created)%list
    /\ (countNamed "App_Controle_Armamento" created <= 1)%nat
    /\ (countNamed "Backups" created <= 1)%nat.
Proof.
  intros F. destruct (authorized accessToken) eqn:A.
  2: { exists None, w, []. rewrite !(chain_refused _ _ A), app_nil_r.
       repeat split; cbn; lia. }
  rewrite (chain_accepted _ _ A F). unfold resolved at 1. cbv zeta.
  set (files := drive_files (drive w)) in *.
  set (n := drive_next (drive w)).
  destruct (lookupFolder rootName None files) as [rootId|] eqn:R.
  - destruct (lookupFolder backupsName (Some rootId) files) as [backupId|] eqn:B.
    + exists (Some backupId), w, [].
      rewrite (chain_accepted _ _ A F). unfold resolved. cbv zeta. fold files.
      rewrite R, B, app_nil_r. repeat split; cbn; lia.
    + eexists _, _, [_]. split; [reflexivity |].
      rewrite chain_accepted; [| exact A |].
      * unfold resolved. cbv zeta. cbn [drive set_drive drive_files addFile drive_next].
        fold files. rewrite lookupFolder_app, R. cbv beta iota.
        rewrite lookupFolder_app, B, lookup_created.
        repeat split; cbn; lia.
      * cbn [drive set_drive drive_files addFile]. apply Forall_app. split; [exact F |].
        repeat constructor. apply freshId_nonempty.
  - destruct (lookupFolder backupsName (Some (freshId n)) files) as [backupId|] eqn:B.
    + eexists _, _, [_]. split; [reflexivity |].
      rewrite chain_accepted; [| exact A |].
      * unfold resolved. cbv zeta. cbn [drive set_drive drive_files addFile drive_next].
        fold files. rewrite lookupFolder_app, R, lookup_created_top. cbv beta iota.
        fold n. rewrite lookupFolder_app, B.
        repeat split; cbn; lia.
      * cbn [drive set_drive drive_files addFile]. apply Forall_app. split; [exact F |].
        repeat constructor. apply freshId_nonempty.
    + eexists _, _, [_; _]. split; [reflexivity |].
      rewrite chain_accepted; [| exact A |].
      * unfold resolved. cbv zeta. cbn [drive set_drive drive_files addFile drive_next].
        fold files. rewrite <- !app_assoc.
        rewrite lookupFolder_app, R, lookupFolder_app, lookup_created_top.
        cbv beta iota. fold n.
        rewrite lookupFolder_app, B, lookupFolder_app.
        rewrite (lookup_other backupsName _ _ rootName) by reflexivity.
        rewrite lookup_created.
        repeat split; cbn; lia.
      * cbn [drive set_drive drive_files addFile]. rewrite <- app_assoc.
        apply Forall_app. split; [exact F |].
        repeat constructor; apply freshId_nonempty.
Qed.

(** *** Uploading *)

Lemma bind_inv {A B} (m : M A) (k : A -> M B) w b w2 :
  bind m k w = (Ok b, w2) ->
  exists a w1, m w = (Ok a, w1) /\ k a w1 = (Ok b, w2).
Proof.
  unfold bind. destruct (m w) as [[a|e] w1]; [| discriminate].
  intros E. now exists a, w1.
Qed.

Lemma createFolder_frame accessToken name parentId w :
  exists id w',
    createFolder accessToken name parentId w = (Ok id, w')
    /\ localStorage w' = localStorage w
    /\ ticks w' = ticks w.
Proof.
  unfold createFolder, fetch_create.
  destruct (authorized accessToken); eexists _, _; repeat split.
Qed.

Lemma findOrCreate_frame accessToken name parentId w :
  exists id w',
    (found <- findFolder accessToken name parentId ;;
     if negb (idTruthy found)
     then createFolder accessToken name parentId
     else ret found) w = (Ok id, w')
    /\ localStorage w' = localStorage w
    /\ ticks w' = ticks w.
Proof.
  run (findFolder_run _ _ _ _).
  destruct (negb (idTruthy _)).
  - apply createFolder_frame.
  - eexists _, _. repeat split.
Qed.

Lemma findOrCreateFolderChain_frame accessToken w :
  exists id w',
    findOrCreateFolderChain accessToken w = (Ok id, w')
    /\ localStorage w' = localStorage w
    /\ ticks w' = ticks w.
Proof.
  unfold findOrCreateFolderChain.
  destruct (findOrCreate_frame accessToken "App_Controle_Armamento" None w)
    as (rootId & w1 & R & S1 & T1).
  apply bind_inv in R as (found & w0 & Fd & R).
  run Fd. run R.
  destruct (findOrCreate_frame accessToken "Backups" rootId w1)
    as (backupId & w2 & B & S2 & T2).
  apply bind_inv in B as (found' & w1' & Fd' & B).
  run Fd'. run B.
  exists backupId, w2. repeat split; congruence.
Qed.

Lemma getAccessToken_frame w accessToken w' :
  getAccessToken w = (Ok accessToken, w') -> w' = w.
Proof.
  unfold getAccessToken. destruct (tokenClient w); [| discriminate].
  destruct (gsi_response _); [discriminate |]. now intros [= _ <-].
Qed.

Lemma encode_frame jsonContent w blob w' :
  encode jsonContent w = (Ok blob, w') -> w' = w.
Proof.
  unfold encode. destruct (JSZip_generateAsync _); [| discriminate].
  now intros [= _ <-].
Qed.

Lemma uploadRequest_frame w request w1 :
  uploadRequest w = (Ok request, w1) -> localStorage w1 = localStorage w.
Proof.
  unfold uploadRequest. intros R.
  apply bind_inv in R as (accessToken & wa & Tk & R).
  apply getAccessToken_frame in Tk as ->.
  apply bind_inv in R as (folderId & wb & Ch & R).
  destruct (findOrCreateFolderChain_frame accessToken w) as (? & ? & Ch' & Sb & _).
  rewrite Ch in Ch'. injection Ch' as <- <-.
  apply bind_inv in R as (backupData & wc & Gen & R).
  destruct (generateBackupData_run wb) as (? & Gen' & Sc & _).
  rewrite Gen in Gen'. injection Gen' as _ <-.
  apply bind_inv in R as (blob & wd & En & R).
  apply encode_frame in En as ->.
  unfold bind, Date_now, ret in R. injection R as _ <-.
  cbn. congruence.
Qed.

Lemma fetch_upload_failure {A} (K : Response -> M A)
    accessToken folderId fileName blob w :
  uploadFails (accessToken, folderId, fileName, blob) w ->
  exists e,
    (response <- fetch_upload accessToken folderId fileName blob ;;
     if negb (response_ok response)
     then throw (Error ("Upload failed: " +:+ response_statusText response))
     else K response) w = (Throw e, w).
Proof.
  unfold uploadFails, fetch_upload, bind, throw.
  destruct (upload_verdict (drive w) fileName blob); cbn.
  - destruct (authorized accessToken); [destruct folderId |]; cbn;
      [discriminate | eauto | eauto].
  - eauto.
  - eauto.
Qed.

(** The [lastBackupDate] a store holds, as [runAutoBackupCheck] reads it. *)
Lemma lastBackupDate_of_settings (store store' : gmap string string) :
  store' !! KEYS_SETTINGS = store !! KEYS_SETTINGS ->
  read store' KEYS_SETTINGS defaultSettings = read store KEYS_SETTINGS defaultSettings.
Proof. unfold read. now intros ->. Qed.

(** C2 (amended).  A cycle that reaches the upload request and fails
    there, run on a stored log that [addLog] can spread, ends in the
    exception of that request; the settings slot, and with it the stored
    [lastBackupDate], is as before, and the log slot is the stored log
    with one entry in front, whose action is [Erro Backup Drive] and whose
    detail is the fixed text of the one [catch] block of the cycle. *)
Theorem uploadBackup_upload_failure initiator w request w1 rest :
  uploadRequest w = (Ok request, w1) ->
  uploadFails request w1 ->
  auditTrail (localStorage w) = Some rest ->
  exists e w',
    uploadBackup initiator w = (Throw e, w')
    /\ localStorage w'
       = <[KEYS_LOGS := JSON_text
             (VArr (SystemLog (pretty (clock (ticks w1))) initiator
                      "Erro Backup Drive" "Falha no envio para Google Drive."
                      (Date_toISOString (clock (S (ticks w1))))
                    :: rest))]> (localStorage w)
    /\ localStorage w' !! KEYS_SETTINGS = localStorage w !! KEYS_SETTINGS
    /\ getPropOpt (getPropOpt (read (localStorage w') KEYS_SETTINGS defaultSettings)
                     "backup") "lastBackupDate"
       = getPropOpt (getPropOpt (read (localStorage w) KEYS_SETTINGS defaultSettings)
                       "backup") "lastBackupDate".
Proof.
  intros R U A. pose proof (uploadRequest_frame _ _ _ R) as S1.
  unfold uploadRequest in R.
  apply bind_inv in R as (accessToken & wa & Tk & R).
  apply bind_inv in R as (folderId & wb & Ch & R).
  apply bind_inv in R as (backupData & wc & Gen & R).
  apply bind_inv in R as (blob & wd & En & R).
  apply bind_inv in R as (t & we & Now & R).
  unfold ret in R. injection R as <- <-.
  destruct (fetch_upload_failure
              (fun response : Response =>
                 currentSettings <- getSettings ;;
                 backup <- orThrow TypeError (getProp currentSettings "backup") ;;
                 (if truthy backup
                  then
                    d <- Date_now ;;
                    stamped <- orThrow TypeError
                                 (stampLastBackup currentSettings backup
                                    (Date_toISOString d)) ;;
                    saveSettings stamped
                  else ret tt) ;;;
                 addLog initiator "Backup Drive"
                   ("Backup automático enviado. ID: "
                    +:+ match response_id response with
                        | Some id => id
                        | None => "undefined"
                        end) ;;;
                 ret true)
              _ _ _ _ _ U) as (e & Up).
  assert (A1 : auditTrail
                 (localStorage (logged [ConsoleError "" (Some e)] we)) = Some rest)
    by (cbn [localStorage logged set_console]; now rewrite S1).
  exists e. eexists. split.
  - unfold uploadBackup, try_catch.
    run Tk. run Ch. run Gen.
    cbv zeta. fold (serialize backupData).
    run En. run Now.
    rewrite Up. rewrite bind_console_error. cbv beta.
    run (addLog_run _ _ _ _ rest A1). reflexivity.
  - cbn [localStorage audited stored stamped set_localStorage set_ticks logged
           set_console ticks entry].
    rewrite S1. cbn [itemText JSON_stringify from_option id].
    assert (E : forall x : string,
               <[KEYS_LOGS := x]> (localStorage w) !! KEYS_SETTINGS
               = localStorage w !! KEYS_SETTINGS)
      by (intros x; now rewrite lookup_insert_ne).
    repeat split.
    + apply E.
    + now rewrite (lastBackupDate_of_settings _ _ (E _)).
Qed.

End Properties.

(** ** Runs on the executable host *)

(** C1.  With automatic backup enabled, the Drive configured, frequency
    [never] and no backup made yet, the due-check answers due and
    [runAutoBackupCheck] runs a whole upload cycle: it announces the
    backup, stores an archive in the Drive and records the date. *)
Theorem never_policy_uploads_on_first_check :
  shouldBackup (getPropOpt neverSettings "backup") Sample.epoch = true
  /\ exists w',
       runAutoBackupCheck neverWorld = (Ok tt, w')
       /\ In (ConsoleLog "Triggering Auto Backup...") (console w')
       /\ existsb (fun f => String.eqb (df_mimeType f) "application/zip")
            (drive_files (drive w')) = true
       /\ truthy (getPropOpt
                    (getPropOpt (read (localStorage w') KEYS_SETTINGS defaultSettings)
                       "backup") "lastBackupDate") = true.
Proof.
  split; [reflexivity |].
  eexists. split; [vm_compute; reflexivity |].
  split; [now left |]. split; vm_compute; reflexivity.
Qed.

(** C2 (amended), at a full Drive, with a last backup date in the store:
    the upload is refused, the date is the one stored before and the log
    holds the one failure entry. *)
Lemma uploadBackup_upload_failure_witness :
  exists request w1,
    uploadRequest (H1 := fullDrive) datedWorld = (Ok request, w1)
    /\ uploadFails (H1 := fullDrive) request w1
    /\ auditTrail (localStorage datedWorld) = Some []
    /\ exists e w' failure,
         uploadBackup (H1 := fullDrive) "Automático" datedWorld = (Throw e, w')
         /\ getPropOpt (getPropOpt (read (localStorage w') KEYS_SETTINGS defaultSettings)
                          "backup") "lastBackupDate"
            = VStr "2024-03-01T12:00:00.000Z"
         /\ auditTrail (localStorage w') = Some [failure]
         /\ getPropOpt failure "action" = VStr "Erro Backup Drive"
         /\ getPropOpt failure "details" = VStr "Falha no envio para Google Drive.".
Proof.
  eassert (R : uploadRequest (H1 := fullDrive) datedWorld = (Ok _, _))
    by (vm_compute; reflexivity).
  match type of R with
  | _ = (Ok ?request, ?w1) =>
      assert (U : uploadFails (H1 := fullDrive) request w1) by (vm_compute; reflexivity)
  end.
  assert (A : auditTrail (localStorage datedWorld) = Some [])
    by (vm_compute; reflexivity).
  eexists _, _. split; [exact R |]. split; [exact U |]. split; [exact A |].
  destruct (uploadBackup_upload_failure (H1 := fullDrive) "Automático" _ _ _ _ R U A)
    as (e & w' & Run & L & _ & D).
  exists e, w'. eexists. split; [exact Run |]. split.
  - rewrite D. vm_compute. reflexivity.
  - rewrite L. split; [vm_compute; reflexivity |]. split; reflexivity.
Defined.

(** C2 as stated fails in two ways.  With a log slot that holds [null],
    a cycle whose upload is refused ends in the [TypeError] of [addLog]
    and appends nothing: the slot is as before.  And the entry an upload
    failure leaves has the action and the detail of the entry left by a
    cycle that failed before any upload, for want of a token client: the
    detail does not tell the failing step. *)
Lemma upload_failure_counterexample :
  (exists request w1 w',
      uploadRequest (H1 := fullDrive) readyNullLogWorld = (Ok request, w1)
      /\ uploadFails (H1 := fullDrive) request w1
      /\ uploadBackup (H1 := fullDrive) "Automático" readyNullLogWorld
         = (Throw TypeError, w')
      /\ localStorage w' = localStorage readyNullLogWorld)
  /\ (exists request w1 e w' w'' uploading authenticating,
         uploadRequest (H1 := fullDrive) readyWorld = (Ok request, w1)
         /\ uploadFails (H1 := fullDrive) request w1
         /\ uploadBackup (H1 := fullDrive) "Automático" readyWorld = (Throw e, w')
         /\ auditTrail (localStorage w') = Some [uploading]
         /\ getAccessToken (H1 := fullDrive) emptyWorld
            = (Throw (Rejected "Client not initialized"), emptyWorld)
         /\ uploadBackup (H1 := fullDrive) "Automático" emptyWorld
            = (Throw (Rejected "Client not initialized"), w'')
         /\ auditTrail (localStorage w'') = Some [authenticating]
         /\ getPropOpt uploading "action" = getPropOpt authenticating "action"
         /\ getPropOpt uploading "details" = getPropOpt authenticating "details"
         /\ getPropOpt uploading "details" = VStr "Falha no envio para Google Drive.").
Proof.
  split.
  - eexists _, _, _. split; [vm_compute; reflexivity |].
    split; [vm_compute; reflexivity |]. split; [vm_compute; reflexivity |].
    reflexivity.
  - eexists _, _, _, _, _, _, _. split; [vm_compute; reflexivity |].
    split; [vm_compute; reflexivity |]. split; [vm_compute; reflexivity |].
    split; [vm_compute; reflexivity |]. split; [reflexivity |].
    split; [vm_compute; reflexivity |]. split; [vm_compute; reflexivity |].
    split; [reflexivity |]. split; reflexivity.
Qed.

(** C3 as stated fails: a document without [settings] and one without
    [version] are answered alike, with a message and an audit entry that
    name no field, and the log slot is written. *)
Lemma restore_incomplete_counterexample :
  exists w' w'',
    restoreBackup (Text (Sample.text noSettingsDoc)) "Ana" emptyWorld = (Ok tt, w')
    /\ restoreBackup (Text (Sample.text noVersionDoc)) "Ana" emptyWorld = (Ok tt, w'')
    /\ callbacks w' = [(false, "Estrutura do arquivo inválida.")]
    /\ callbacks w'' = callbacks w'
    /\ localStorage w'' = localStorage w'
    /\ includes "settings" "Estrutura do arquivo inválida." = false
    /\ (forall item,
           localStorage w' !! KEYS_LOGS = Some item -> includes "settings" item = false)
    /\ localStorage w' !! KEYS_LOGS <> localStorage emptyWorld !! KEYS_LOGS.
Proof.
  eexists _, _. split; [vm_compute; reflexivity |].
  split; [vm_compute; reflexivity |].
  split; [reflexivity |]. split; [reflexivity |]. split; [reflexivity |].
  split; [reflexivity |]. split.
  - intros item. vm_compute. intros [= <-]. reflexivity.
  - vm_compute. discriminate.
Qed.

(** C3 (amended), at the document without [settings]. *)
Lemma restore_rejects_incomplete_witness :
  JSON_parse (Sample.text noSettingsDoc) = Some noSettingsDoc
  /\ getProp noSettingsDoc "version" = Some (VStr "1.1")
  /\ wellFormed noSettingsDoc = false
  /\ auditTrail (localStorage emptyWorld) = Some []
  /\ exists w',
       restoreBackup (Text (Sample.text noSettingsDoc)) "Ana" emptyWorld = (Ok tt, w')
       /\ callbacks w' = [(false, "Estrutura do arquivo inválida.")]
       /\ localStorage w' !! KEYS_SETTINGS = None.
Proof.
  assert (P : JSON_parse (Sample.text noSettingsDoc) = Some noSettingsDoc)
    by (vm_compute; reflexivity).
  assert (V : getProp noSettingsDoc "version" = Some (VStr "1.1")) by reflexivity.
  assert (W : wellFormed noSettingsDoc = false) by reflexivity.
  assert (A : auditTrail (localStorage emptyWorld) = Some [])
    by (vm_compute; reflexivity).
  repeat (split; [assumption |]).
  destruct (restore_rejects_incomplete "Ana" _ emptyWorld _ _ _ P V W A)
    as (w' & Run & Cb & _ & _ & _ & _ & S).
  exists w'. split; [exact Run |]. split; [exact Cb |]. now rewrite S.
Defined.

(** The failure entry of a rejected document needs a stored log that can
    be spread: over a log slot that holds [null] the rejection ends in the
    [TypeError] of [addLog], with no callback and the store as before. *)
Example restore_incomplete_unauditable :
  wellFormed noSettingsDoc = false
  /\ auditTrail (localStorage nullLogWorld) = None
  /\ exists w',
       restoreBackup (Text (Sample.text noSettingsDoc)) "Ana" nullLogWorld
       = (Throw TypeError, w')
       /\ callbacks w' = []
       /\ localStorage w' = localStorage nullLogWorld.
Proof.
  split; [reflexivity |]. split; [vm_compute; reflexivity |].
  eexists. split; [vm_compute; reflexivity |]. split; reflexivity.
Qed.

(** C4.  An archive with no member ending in [.json], and a file that is
    no archive at all, are answered through the callback and leave the
    store as it was: no audit entry is written.  A document whose log is
    [null] is written to the store, after which [addLog] throws in the
    [try] block and again in the [catch] block: no entry, no callback. *)
Theorem restore_failures_without_audit_entry :
  (exists w',
      restoreBackup (Upload strayArchive) "Ana" emptyWorld = (Ok tt, w')
      /\ callbacks w' = [(false, "Erro ao ler arquivo ZIP.")]
      /\ localStorage w' = localStorage emptyWorld)
  /\ (exists w',
         restoreBackup (Upload brokenArchive) "Ana" emptyWorld = (Ok tt, w')
         /\ callbacks w' = [(false, "Erro ao ler arquivo ZIP.")]
         /\ localStorage w' = localStorage emptyWorld)
  /\ (exists w',
         restoreBackup (Text (Sample.text nullLogDoc)) "Ana" emptyWorld
         = (Throw TypeError, w')
         /\ callbacks w' = []
         /\ localStorage w' !! KEYS_LOGS = Some "null").
Proof.
  repeat split; eexists; (split; [vm_compute; reflexivity |]); split; reflexivity.
Qed.

(** C8.  The document [nullLogDoc] passes the structural test and names
    no administrator, and the empty store holds none: the advisory is
    written and the five slots are written from the document, but the
    restore is not reported.  [addLog] cannot spread the log that was just
    stored, the [catch] block calls [addLog] again, and the [TypeError]
    leaves [restoreBackup] with the callback never called. *)
Theorem restore_no_admins_unreported :
  JSON_parse (Sample.text nullLogDoc) = Some nullLogDoc
  /\ wellFormed nullLogDoc = true
  /\ incomingHasNoAdmins (getPropOpt nullLogDoc "settings") = true
  /\ currentHasNoAdmins (localStorage emptyWorld) = Some true
  /\ exists w',
       restoreBackup (Text (Sample.text nullLogDoc)) "Ana" emptyWorld
       = (Throw TypeError, w')
       /\ In (ConsoleWarn "Backup has no admins. Be careful.") (console w')
       /\ localStorage w' = restoredStore nullLogDoc (localStorage emptyWorld)
       /\ callbacks w' = [].
Proof.
  split; [vm_compute; reflexivity |]. split; [reflexivity |].
  split; [reflexivity |]. split; [vm_compute; reflexivity |].
  eexists. split; [vm_compute; reflexivity |].
  split; [now left |]. split; [vm_compute; reflexivity | reflexivity].
Qed.

(** C10.  The document [nullLogDoc] has [version], [materials] and
    [settings] and lacks [personnel] and [cautelas].  Restored over
    settings that name an administrator, it passes the structural test
    and is applied, the slots of the lacking collections holding the text
    [undefined]; the success is not reported, for the reason given at C8. *)
Theorem restore_missing_collections_unreported :
  JSON_parse (Sample.text nullLogDoc) = Some nullLogDoc
  /\ wellFormed nullLogDoc = true
  /\ getPropOpt nullLogDoc "personnel" = VUndefined
  /\ getPropOpt nullLogDoc "cautelas" = VUndefined
  /\ lockoutOutcome nullLogDoc (localStorage staffedWorld) = Some false
  /\ exists w',
       restoreBackup (Text (Sample.text nullLogDoc)) "Ana" staffedWorld
       = (Throw TypeError, w')
       /\ localStorage w' = restoredStore nullLogDoc (localStorage staffedWorld)
       /\ localStorage w' !! KEYS_PERSONNEL = Some "undefined"
       /\ localStorage w' !! KEYS_CAUTELAS = Some "undefined"
       /\ callbacks w' = [].
Proof.
  split; [vm_compute; reflexivity |]. split; [reflexivity |].
  split; [reflexivity |]. split; [reflexivity |].
  split; [vm_compute; reflexivity |].
  eexists. split; [vm_compute; reflexivity |].
  split; [vm_compute; reflexivity |]. split; [vm_compute; reflexivity |].
  split; [vm_compute; reflexivity | reflexivity].
Qed.

(** C5, on an empty Drive. *)
Lemma findOrCreateFolderChain_idempotent_witness :
  Forall (fun f => df_id f <> "") (drive_files (drive emptyWorld))
  /\ exists id w1 created,
       findOrCreateFolderChain Sample.token emptyWorld = (Ok id, w1)
       /\ findOrCreateFolderChain Sample.token w1 = (Ok id, w1)
       /\ drive_files (drive w1) = (drive_files (drive emptyWorld) ++ created)%list
       /\ (countNamed "App_Controle_Armamento" created <= 1)%nat
       /\ (countNamed "Backups" created <= 1)%nat.
Proof.
  assert (F : Forall (fun f => df_id f <> "") (drive_files (drive emptyWorld)))
    by constructor.
  split; [exact F |].
  exact (findOrCreateFolderChain_idempotent Sample.token emptyWorld F).
Defined.

(** C6, for the sample container. *)
Lemma decode_encode_witness :
  (forall members b,
      JSZip_generateAsync members = Some b -> JSZip_loadAsync b = Some members)
  /\ encode (serialize minimalDoc) emptyWorld
     = (Ok (Sample.Container [(payloadName, serialize minimalDoc)]), emptyWorld)
  /\ decode (Sample.Container [(payloadName, serialize minimalDoc)]) emptyWorld
     = (Ok (serialize minimalDoc), emptyWorld).
Proof.
  assert (Law : forall members b,
             JSZip_generateAsync members = Some b -> JSZip_loadAsync b = Some members)
    by (intros members b [= <-]; reflexivity).
  assert (E : encode (serialize minimalDoc) emptyWorld
              = (Ok (Sample.Container [(payloadName, serialize minimalDoc)]),
                 emptyWorld)) by reflexivity.
  split; [exact Law |]. split; [exact E |].
  exact (decode_encode minimalDoc emptyWorld emptyWorld emptyWorld _ Law E).
Defined.

(** C7, for a last backup at noon of 2024-03-01. *)
Lemma shouldBackup_thresholds_witness :
  getPropOpt dailyPolicy "lastBackupDate" = VStr "2024-03-01T12:00:00.000Z"
  /\ truthy (VStr "2024-03-01T12:00:00.000Z") = true
  /\ Date_getTime (VStr "2024-03-01T12:00:00.000Z") = Some Sample.epoch
  /\ shouldBackup dailyPolicy (Sample.epoch + 23 * 3600000) = false
  /\ shouldBackup dailyPolicy (Sample.epoch + 25 * 3600000) = true.
Proof.
  assert (E : getPropOpt dailyPolicy "lastBackupDate"
              = VStr "2024-03-01T12:00:00.000Z") by reflexivity.
  assert (T : truthy (VStr "2024-03-01T12:00:00.000Z") = true) by reflexivity.
  assert (D : Date_getTime (VStr "2024-03-01T12:00:00.000Z") = Some Sample.epoch)
    by (vm_compute; reflexivity).
  repeat (split; [assumption |]).
  split.
  - destruct (shouldBackup_thresholds dailyPolicy _ (Sample.epoch + 23 * 3600000)
                Sample.epoch E T D) as (Daily & _).
    apply (Daily eq_refl). lia.
  - destruct (shouldBackup_thresholds dailyPolicy _ (Sample.epoch + 25 * 3600000)
                Sample.epoch E T D) as (Daily & _).
    apply (Daily eq_refl). lia.
Defined.



(** ** Further properties *)

Section More.
Context `{Runtime} `{Google} `{Browser}.

Notation "x <- m ;; k" := (bind m (fun x => k))
  (at level 100, m at next level, right associativity).
Notation "m ;;; k" := (bind m (fun _ => k))
  (at level 100, right associativity).

Tactic Notation "step" uconstr(E) := rewrite (bind_ok _ _ _ _ _ E).
Tactic Notation "stop" uconstr(E) := rewrite (bind_throw _ _ _ _ _ E).

(** *** The store *)

Lemma read_insert_eq store key item defaultValue :
  read (<[key := item]> store) key defaultValue
  = if String.eqb item "" then defaultValue
    else default defaultValue (JSON_parse item).
Proof. unfold read. now rewrite lookup_insert_eq. Qed.

Lemma read_insert_ne store key key' item defaultValue :
  key <> key' ->
  read (<[key := item]> store) key' defaultValue = read store key' defaultValue.
Proof. intros N. unfold read. now rewrite lookup_insert_ne. Qed.

Lemma readErrors_insert_eq store key item :
  readErrors (<[key := item]> store) key
  = if String.eqb item "" then []
    else match JSON_parse item with
         | Some _ => []
         | None => [ConsoleError ("Error reading " +:+ key) (Some SyntaxError)]
         end.
Proof. unfold readErrors. now rewrite lookup_insert_eq. Qed.

Lemma nonempty_eqb s : s <> "" -> String.eqb s "" = false.
Proof. intros N. now destruct (String.eqb_spec s ""). Qed.

(** X1.  A value other than [undefined] that the codec reads back from its
    text is what [get] returns after [set], without a console line; what
    [get] returns for any other key is as before the [set]. *)
Theorem set_get_roundtrip key v defaultValue w :
  v <> VUndefined ->
  JSON_text v <> "" ->
  JSON_parse (JSON_text v) = Some v ->
  exists w1 w2,
    set key v w = (Ok tt, w1)
    /\ get key defaultValue w1 = (Ok v, w2)
    /\ console w2 = console w1
    /\ localStorage w2 = localStorage w1
    /\ forall key' d, key' <> key -> fst (get key' d w1) = fst (get key' d w).
Proof.
  intros U N P. eexists _, _. split; [reflexivity |].
  assert (T : itemText (JSON_stringify v) = JSON_text v) by now destruct v.
  rewrite !get_run. cbn [localStorage stored set_localStorage].
  rewrite T, read_insert_eq, readErrors_insert_eq, P, (nonempty_eqb _ N).
  rewrite logged_nil. repeat split.
  intros key' d Ne. rewrite !get_run. cbn [fst localStorage stored set_localStorage].
  now rewrite read_insert_ne by congruence.
Qed.

(** X2.  Saving [undefined] leaves the text [undefined] in the slot; since
    that text is no JSON, the next [get] answers the default value and
    writes one error line. *)
Theorem set_undefined_reads_default key defaultValue w :
  JSON_parse "undefined" = None ->
  exists w1 w2,
    set key VUndefined w = (Ok tt, w1)
    /\ localStorage w1 !! key = Some "undefined"
    /\ get key defaultValue w1 = (Ok defaultValue, w2)
    /\ console w2
       = (console w1 ++ [ConsoleError ("Error reading " +:+ key) (Some SyntaxError)])%list.
Proof.
  intros P. eexists _, _. split; [reflexivity |].
  rewrite get_run. cbn [localStorage stored set_localStorage itemText JSON_stringify
                          from_option].
  rewrite read_insert_eq, readErrors_insert_eq, lookup_insert_eq, P.
  repeat split.
Qed.

(** X3.  [get] never throws and never changes the store; for a key that is
    missing, holds the empty text or holds a text that is no JSON, it
    answers the default value. *)
Theorem get_falls_back key defaultValue w :
  exists v w',
    get key defaultValue w = (Ok v, w')
    /\ localStorage w' = localStorage w
    /\ (localStorage w !! key = None
        \/ localStorage w !! key = Some ""
        \/ (exists item, localStorage w !! key = Some item /\ JSON_parse item = None)
        -> v = defaultValue).
Proof.
  eexists _, _. rewrite get_run. split; [reflexivity |]. split; [reflexivity |].
  unfold read. intros [-> | [-> | (item & -> & P)]]; try reflexivity.
  rewrite P. now destruct (String.eqb item "").
Qed.

(** *** The audit log *)

(** X4.  When the stored log can be spread and the codec reads the new
    list back, [addLog] leaves a log whose first entry is the new one and
    whose other entries are the old ones in their order; no other slot
    changes. *)
Theorem addLog_prepends armorerName action details w rest :
  auditTrail (localStorage w) = Some rest ->
  JSON_text (VArr (entry armorerName action details w :: rest)) <> "" ->
  JSON_parse (JSON_text (VArr (entry armorerName action details w :: rest)))
  = Some (VArr (entry armorerName action details w :: rest)) ->
  exists w',
    addLog armorerName action details w = (Ok tt, w')
    /\ auditTrail (localStorage w')
       = Some (entry armorerName action details w :: rest)
    /\ forall key, key <> KEYS_LOGS -> localStorage w' !! key = localStorage w !! key.
Proof.
  intros A N P. rewrite (addLog_run _ _ _ _ rest A).
  eexists. split; [reflexivity |].
  cbn [localStorage audited stored stamped set_localStorage set_ticks logged
         set_console itemText JSON_stringify from_option id].
  split.
  - unfold auditTrail. now rewrite read_insert_eq, (nonempty_eqb _ N), P.
  - intros key Ne. now rewrite lookup_insert_ne by congruence.
Qed.

(** X5.  When the stored log is a text that is no JSON, [addLog] does not
    fail: it writes a log that holds the new entry alone, and what was
    stored is lost. *)
Theorem addLog_resets_unreadable_log armorerName action details w item :
  localStorage w !! KEYS_LOGS = Some item ->
  JSON_parse item = None ->
  exists w',
    addLog armorerName action details w = (Ok tt, w')
    /\ localStorage w' !! KEYS_LOGS
       = Some (JSON_text (VArr [entry armorerName action details w])).
Proof.
  intros L P.
  assert (A : auditTrail (localStorage w) = Some []).
  { unfold auditTrail, read. rewrite L, P. now destruct (String.eqb item ""). }
  rewrite (addLog_run _ _ _ _ [] A). eexists. split; [reflexivity |].
  cbn [localStorage audited stored stamped set_localStorage set_ticks logged
         set_console itemText JSON_stringify from_option id].
  now rewrite lookup_insert_eq.
Qed.

(** X6.  When the stored log is a JSON value that cannot be spread
    ([null], a number, an object), [addLog] throws a [TypeError] and the
    store is as before: the entry is not recorded. *)
Theorem addLog_rejects_unspreadable_log armorerName action details w item v :
  localStorage w !! KEYS_LOGS = Some item ->
  item <> "" ->
  JSON_parse item = Some v ->
  spread v = None ->
  exists w',
    addLog armorerName action details w = (Throw TypeError, w')
    /\ localStorage w' = localStorage w.
Proof.
  intros L N P S.
  assert (A : auditTrail (localStorage w) = None).
  { unfold auditTrail, read. now rewrite L, P, (nonempty_eqb _ N). }
  rewrite (addLog_throws _ _ _ _ A). eexists. split; reflexivity.
Qed.

(** *** Local backup and restore *)

Lemma endsWith_unfold p s :
  endsWith p s
  = String.eqb s p
    || match s with
       | EmptyString => false
       | String _ s' => endsWith p s'
       end.
Proof. now destruct s. Qed.

Lemma endsWith_app p s : endsWith p (s +:+ p) = true.
Proof.
  induction s as [|c s IH].
  - change ("" +:+ p) with p. now rewrite endsWith_unfold, String.eqb_refl.
  - change (String c s +:+ p) with (String c (s +:+ p)).
    rewrite endsWith_unfold, IH. apply orb_true_r.
Qed.

Lemma endsWith_app2 p a s : endsWith p (a +:+ s +:+ p) = true.
Proof.
  induction a as [|c a IH].
  - change ("" +:+ s +:+ p) with (s +:+ p). apply endsWith_app.
  - change (String c a +:+ s +:+ p) with (String c (a +:+ s +:+ p)).
    rewrite endsWith_unfold, IH. apply orb_true_r.
Qed.

Lemma isPrefix_app p s : isPrefix p (p +:+ s) = true.
Proof.
  induction p as [|c p IH]; [reflexivity |].
  change (isPrefix (String c p) (String c p +:+ s))
    with (Ascii.eqb c c && isPrefix p (p +:+ s)).
  now rewrite Ascii.eqb_refl, IH.
Qed.

Lemma decode_payload (blob : Blob) content w :
  JSZip_loadAsync blob = Some [(payloadName, content)] ->
  decode blob w = (Ok content, w).
Proof. intros L. unfold decode. now rewrite L. Qed.

(** X7.  When the container library produces the archive and reads back
    what it wrote, [createBackup] answers [true], hands the browser one
    file whose name starts with [backup_sentinela_] and ends in [.zip],
    and decoding that file gives the serialized snapshot of the store;
    apart from the log slot the store is unchanged. *)
Theorem createBackup_archive_holds_snapshot initiator w blob rest :
  (forall members b,
      JSZip_generateAsync members = Some b -> JSZip_loadAsync b = Some members) ->
  JSZip_generateAsync [(payloadName, serialize (snapshot w))] = Some blob ->
  auditTrail (localStorage w) = Some rest ->
  exists w' fileName,
    createBackup initiator w = (Ok true, w')
    /\ downloads w' = (downloads w ++ [(fileName, blob)])%list
    /\ isPrefix "backup_sentinela_" fileName = true
    /\ endsWith ".zip" fileName = true
    /\ (forall w2, decode blob w2 = (Ok (serialize (snapshot w)), w2))
    /\ forall key, key <> KEYS_LOGS -> localStorage w' !! key = localStorage w !! key.
Proof.
  intros Law G A.
  destruct (createBackup_download initiator w blob rest G A) as (w' & R & D & S).
  exists w'. eexists. split; [exact R |]. split; [exact D |].
  split; [apply (isPrefix_app "backup_sentinela_") |].
  split; [apply endsWith_app2 |]. split.
  - intros w2. apply decode_payload, Law, G.
  - intros key Ne. rewrite S. now rewrite lookup_insert_ne by congruence.
Qed.

(** X8.  When the container library fails to produce the archive and the
    stored log can be spread, [createBackup] answers [false] instead of
    throwing, hands nothing to the browser and puts one [Erro Backup]
    entry in front of the log. *)
Theorem createBackup_reports_archive_failure initiator w rest :
  JSZip_generateAsync [(payloadName, serialize (snapshot w))] = None ->
  auditTrail (localStorage w) = Some rest ->
  exists w' id timestamp,
    createBackup initiator w = (Ok false, w')
    /\ downloads w' = downloads w
    /\ localStorage w'
       = <[KEYS_LOGS := JSON_text
             (VArr (SystemLog id initiator "Erro Backup"
                      "Falha ao gerar arquivo ZIP local." timestamp :: rest))]>
           (localStorage w).
Proof.
  intros G A.
  destruct (generateBackupData_run w) as (w1 & Gen & S1 & T1 & _ & _ & Dl1 & _).
  unfold createBackup. step Gen. cbv zeta.
  unfold bind at 1, Date_now at 1. unfold try_catch, encode.
  fold (serialize (snapshot w)). rewrite G. cbn [orThrow].
  unfold bind at 1, throw at 1. rewrite bind_console_error. cbv beta.
  erewrite bind_ok.
  2: { apply addLog_run with (rest := rest). cbn. now rewrite S1. }
  eexists _, _, _. split; [reflexivity |]. cbn. now rewrite S1, Dl1.
Qed.

(** X10.  A text that is no JSON, or that parses to [null], restored over
    a stored log that can be spread, is answered with the critical-error
    message; the log gets one entry in front and no other slot is
    written. *)
Theorem restore_rejects_unparsable_text initiator jsonString w rest :
  JSON_parse jsonString = None
  \/ (exists json, JSON_parse jsonString = Some json /\ getProp json "version" = None) ->
  auditTrail (localStorage w) = Some rest ->
  exists w',
    restoreBackup (Text jsonString) initiator w = (Ok tt, w')
    /\ callbacks w'
       = (callbacks w ++ [(false, "Erro crítico ao processar dados.")])%list
    /\ localStorage w'
       = <[KEYS_LOGS := JSON_text
             (VArr (entry initiator "Erro Restauração" "Erro ao processar JSON." w
                    :: rest))]> (localStorage w).
Proof.
  intros P A. cbn [restoreBackup].
  assert (exists e, processJson initiator jsonString w = failed initiator e w)
    as (e & ->).
  { destruct P as [P | (json & P & V)].
    - exists SyntaxError. now apply processJson_unparsable.
    - exists TypeError. now apply processJson_nullish with (json := json). }
  rewrite (failed_run _ _ _ rest A). eexists. split; [reflexivity |]. now cbn.
Qed.

(** X11.  An archive whose payload is the text [content] is restored as
    that text is, as long as the restore of the text does not throw; when
    it throws, the archive branch catches the exception and tells the
    callback that the ZIP could not be read, with the store as the failed
    restore left it. *)
Theorem restore_archive_as_text f initiator w content w1 :
  endsWith ".zip" (file_name f) || includes "zip" (file_type f) = true ->
  decode (file_data f) w = (Ok content, w1) ->
  content <> "" ->
  (forall w', restoreBackup (Text content) initiator w = (Ok tt, w') ->
              restoreBackup (Upload f) initiator w = (Ok tt, w'))
  /\ (forall e w', restoreBackup (Text content) initiator w = (Throw e, w') ->
        exists w'',
          restoreBackup (Upload f) initiator w = (Ok tt, w'')
          /\ callbacks w'' = (callbacks w' ++ [(false, "Erro ao ler arquivo ZIP.")])%list
          /\ localStorage w'' = localStorage w').
Proof.
  intros Z D N. pose proof (decode_frame _ _ _ _ D) as ->.
  assert (E : restoreBackup (Upload f) initiator w
              = try_catch (processJson initiator content)
                  (fun e => console_error "Error reading zip" (Some e) ;;;
                            callback false "Erro ao ler arquivo ZIP.") w).
  { cbn [restoreBackup]. rewrite Z. unfold try_catch. step D.
    now rewrite (nonempty_eqb _ N). }
  rewrite E. cbn [restoreBackup]. unfold try_catch. split.
  - intros w' R. now rewrite R.
  - intros e w' R. rewrite R. rewrite bind_console_error.
    eexists. split; [reflexivity |]. now cbn.
Qed.




(** X9.  Backup and restore compose: the file [createBackup] hands over,
    restored on a device whose lockout test does not throw, is accepted
    when the codec reads the snapshot back from its text and the stored
    materials and settings are truthy; the materials, personnel,
    checkout-record and settings slots then hold the texts of what the
    backup read. *)
Theorem backup_then_restore initiator initiator' fileType w w0 blob rest rest' risk :
  (forall members b,
      JSZip_generateAsync members = Some b -> JSZip_loadAsync b = Some members) ->
  JSZip_generateAsync [(payloadName, serialize (snapshot w))] = Some blob ->
  auditTrail (localStorage w) = Some rest ->
  serialize (snapshot w) <> "" ->
  JSON_parse (serialize (snapshot w)) = Some (snapshot w) ->
  truthy (read (localStorage w) KEYS_MATERIALS (VArr [])) = true ->
  truthy (read (localStorage w) KEYS_SETTINGS defaultSettings) = true ->
  lockoutOutcome (snapshot w) (localStorage w0) = Some risk ->
  auditTrail (restoredStore (snapshot w) (localStorage w0)) = Some rest' ->
  exists w1 fileName w',
    createBackup initiator w = (Ok true, w1)
    /\ downloads w1 = (downloads w ++ [(fileName, blob)])%list
    /\ restoreBackup
         (Upload {| file_name := fileName; file_type := fileType; file_data := blob |})
         initiator' w0 = (Ok tt, w')
    /\ callbacks w' = (callbacks w0 ++ [(true, "Dados restaurados com sucesso.")])%list
    /\ localStorage w' !! KEYS_MATERIALS
       = Some (itemText (JSON_stringify (read (localStorage w) KEYS_MATERIALS (VArr []))))
    /\ localStorage w' !! KEYS_PERSONNEL
       = Some (itemText (JSON_stringify (read (localStorage w) KEYS_PERSONNEL (VArr []))))
    /\ localStorage w' !! KEYS_CAUTELAS
       = Some (itemText (JSON_stringify (read (localStorage w) KEYS_CAUTELAS (VArr []))))
    /\ localStorage w' !! KEYS_SETTINGS
       = Some (itemText (JSON_stringify
                           (read (localStorage w) KEYS_SETTINGS defaultSettings))).
Proof.
  intros Law G A N P Tm Ts O A'.
  destruct (createBackup_download initiator w blob rest G A) as (w1 & R & D & _).
  assert (W : wellFormed (snapshot w) = true).
  { unfold wellFormed, snapshot, getPropOpt. cbn. now rewrite Tm, Ts. }
  destruct (processJson_success initiator' _ w0 _ _ _ P W O A')
    as (w' & Rs & S & Cb & _).
  exists w1. eexists. exists w'. split; [exact R |]. split; [exact D |]. split.
  - cbn [restoreBackup file_name file_type file_data].
    rewrite endsWith_app2. cbn [orb]. unfold try_catch.
    step (decode_payload blob _ w0 (Law _ _ G)).
    rewrite (nonempty_eqb _ N). cbn [negb]. now rewrite Rs.
  - split; [exact Cb |]. rewrite S. unfold restoredStore, snapshot, getPropOpt.
    cbn [getProp assoc String.eqb Ascii.eqb Bool.eqb from_option id].
    repeat split; now simplify_map_eq.
Qed.

(** *** Uploading *)

Lemma bind_ret {A B} (a : A) (k : A -> M B) w : bind (ret a) k w = k a w.
Proof. reflexivity. Qed.

Lemma bind_assoc {A B C} (m : M A) (k : A -> M B) (k' : B -> M C) w :
  bind (bind m k) k' w = bind m (fun x => bind (k x) k') w.
Proof. unfold bind. now destruct (m w) as [[a|e] w']. Qed.

Lemma bind_Date_now {B} (k : Z -> M B) w :
  bind Date_now k w = k (clock (ticks w)) (set_ticks (S (ticks w)) w).
Proof. reflexivity. Qed.

Lemma fetch_upload_accepted accessToken folderId fileName blob w response w' :
  fetch_upload accessToken folderId fileName blob w = (Ok response, w') ->
  response_ok response = true ->
  exists parent,
    folderId = Some parent
    /\ response_id response = Some (freshId (drive_next (drive w)))
    /\ w' = set_drive
              (addFile {| df_id := freshId (drive_next (drive w));
                          df_name := fileName; df_mimeType := "application/zip";
                          df_parents := [parent]; df_trashed := false |}
                       (drive w)) w.
Proof.
  unfold fetch_upload.
  destruct (upload_verdict (drive w) fileName blob); [| | discriminate].
  - destruct (authorized accessToken); [destruct folderId as [parent|] |];
      intros [= <- <-] O; try discriminate.
    now exists parent.
  - intros [= <- <-] O. discriminate.
Qed.

Lemma uploadRequest_ticks w request w1 :
  uploadRequest w = (Ok request, w1) -> ticks w1 = S (S (S (ticks w))).
Proof.
  unfold uploadRequest. intros R.
  apply bind_inv in R as (accessToken & wa & Tk & R).
  apply getAccessToken_frame in Tk as ->.
  apply bind_inv in R as (folderId & wb & Ch & R).
  destruct (findOrCreateFolderChain_frame accessToken w) as (? & ? & Ch' & _ & Tb).
  rewrite Ch in Ch'. injection Ch' as <- <-.
  apply bind_inv in R as (backupData & wc & Gen & R).
  destruct (generateBackupData_run wb) as (? & Gen' & _ & Tc & _).
  rewrite Gen in Gen'. injection Gen' as _ <-.
  apply bind_inv in R as (blob & wd & En & R).
  apply encode_frame in En as ->.
  unfold bind, Date_now, ret in R. injection R as _ <-.
  cbn. congruence.
Qed.

(** X13.  A cycle whose upload is accepted, run with stored settings that
    are an object with a [backup] object and with a stored log that can
    be spread: [uploadBackup] answers [true],
    the Drive holds the archive under the resolved folder, the settings
    slot is the stored settings with [backup.lastBackupDate] set to the
    instant read after the upload (every other member as it was), and the
    log gets one [Backup Drive] entry in front that carries the id of the
    new file. *)
Theorem uploadBackup_success initiator w accessToken folderId fileName blob w1
    response w2 top fields rest :
  uploadRequest w = (Ok (accessToken, folderId, fileName, blob), w1) ->
  fetch_upload accessToken folderId fileName blob w1 = (Ok response, w2) ->
  response_ok response = true ->
  read (localStorage w) KEYS_SETTINGS defaultSettings = VObj top ->
  assoc "backup" top = Some (VObj fields) ->
  auditTrail (localStorage w) = Some rest ->
  exists w' parent fileId,
    uploadBackup initiator w = (Ok true, w')
    /\ folderId = Some parent
    /\ In {| df_id := fileId; df_name := fileName; df_mimeType := "application/zip";
             df_parents := [parent]; df_trashed := false |}
          (drive_files (drive w'))
    /\ localStorage w' !! KEYS_SETTINGS
       = Some (JSON_text
                 (VObj (setField "backup"
                          (VObj (setField "lastBackupDate"
                                   (VStr (Date_toISOString (clock (ticks w1))))
                                   fields))
                          top)))
    /\ localStorage w' !! KEYS_LOGS
       = Some (JSON_text
                 (VArr (SystemLog (pretty (clock (S (ticks w1)))) initiator
                          "Backup Drive"
                          ("Backup automático enviado. ID: " +:+ fileId)
                          (Date_toISOString (clock (S (S (ticks w1)))))
                        :: rest))).
Proof.
  intros R U O St Bk A. pose proof (uploadRequest_frame _ _ _ R) as S1.
  unfold uploadRequest in R.
  apply bind_inv in R as (tk & wa & Tk & R).
  apply bind_inv in R as (fid & wb & Ch & R).
  apply bind_inv in R as (backupData & wc & Gen & R).
  apply bind_inv in R as (bl & wd & En & R).
  apply bind_inv in R as (t & we & Now & R).
  unfold ret in R. injection R as -> -> <- -> ->.
  destruct (fetch_upload_accepted _ _ _ _ _ _ _ U O) as (parent & -> & Id & ->).
  set (zip := {| df_id := freshId (drive_next (drive w1)); df_name := _;
                 df_mimeType := "application/zip"; df_parents := [parent];
                 df_trashed := false |}) in *.
  set (w2 := set_drive (addFile zip (drive w1)) w1) in *.
  assert (S2 : localStorage w2 = localStorage w) by (cbn; exact S1).
  pose proof (get_run KEYS_SETTINGS defaultSettings w2) as Gs.
  rewrite S2, St in Gs.
  set (w3 := logged (readErrors (localStorage w) KEYS_SETTINGS) w2) in *.
  set (stamp := VObj (setField "backup"
                        (VObj (setField "lastBackupDate"
                                 (VStr (Date_toISOString (clock (ticks w1)))) fields))
                        top)).
  set (w4 := stored KEYS_SETTINGS stamp (set_ticks (S (ticks w3)) w3)).
  assert (A4 : auditTrail (localStorage w4) = Some rest).
  { unfold auditTrail. cbn [w4 w3 w2 localStorage stored set_localStorage set_ticks
      logged set_console set_drive]. rewrite S1.
    rewrite read_insert_ne by discriminate. exact A. }
  exists (audited initiator "Backup Drive"
            ("Backup automático enviado. ID: " +:+ freshId (drive_next (drive w1)))
            rest w4), parent, (freshId (drive_next (drive w1))).
  split.
  - unfold uploadBackup, try_catch.
    step Tk. step Ch. step Gen. cbv zeta. fold (serialize backupData).
    step En. step Now. step U. rewrite O. cbn [negb].
    unfold getSettings. step Gs. cbn [getProp orThrow]. rewrite Bk.
    cbn [from_option id]. rewrite bind_ret. cbn [truthy].
    rewrite bind_assoc, bind_Date_now. cbn [stampLastBackup orThrow].
    rewrite bind_assoc, bind_ret. unfold saveSettings.
    step (set_run KEYS_SETTINGS _ _).
    step (addLog_run initiator _ _ _ rest A4). rewrite Id. reflexivity.
  - split; [reflexivity |]. split.
    + cbn. apply in_or_app. right. now left.
    + cbn [localStorage audited stored stamped set_localStorage set_ticks logged
             set_console w4 w3 w2 set_drive itemText JSON_stringify from_option id
             entry ticks].
      rewrite S1. split; now simplify_map_eq.
Qed.

(** X14.  A cycle that cannot get a token, because the token client was
    never created or because the grant is refused, run on a stored log
    that can be spread, sends nothing to the Drive: [uploadBackup]
    rethrows the rejection, the Drive and the settings slot are as
    before, and the log gets the same failure entry as for a failed
    upload. *)
Theorem uploadBackup_unauthenticated initiator w e rest :
  (tokenClient w = None /\ e = Rejected "Client not initialized")
  \/ (exists clientId error,
         tokenClient w = Some clientId
         /\ gsi_response clientId = TokenError error
         /\ e = Rejected error) ->
  auditTrail (localStorage w) = Some rest ->
  exists w',
    uploadBackup initiator w = (Throw e, w')
    /\ drive w' = drive w
    /\ localStorage w'
       = <[KEYS_LOGS := JSON_text
             (VArr (entry initiator "Erro Backup Drive"
                      "Falha no envio para Google Drive." w :: rest))]>
           (localStorage w).
Proof.
  intros T A.
  assert (G : getAccessToken w = (Throw e, w)).
  { unfold getAccessToken.
    destruct T as [[-> ->] | (clientId & error & -> & -> & ->)]; reflexivity. }
  unfold uploadBackup, try_catch. stop G. rewrite bind_console_error. cbv beta.
  step (addLog_run initiator _ _ (logged [ConsoleError "" (Some e)] w) rest A).
  eexists. split; [reflexivity |]. now cbn.
Qed.

(** *** The scheduler *)

(** X15.  With no client id configured, or with automatic backup not
    enabled, [runAutoBackupCheck] returns at once: the Google client is
    not initialised, the clock is not read, and the store and the Drive
    are untouched. *)
Theorem runAutoBackupCheck_idle_when_disabled w settings googleDrive :
  read (localStorage w) KEYS_SETTINGS defaultSettings = settings ->
  getProp settings "googleDrive" = Some googleDrive ->
  truthy (getPropOpt googleDrive "clientId") = false
  \/ truthy (getPropOpt (getPropOpt settings "backup") "enabled") = false ->
  exists w',
    runAutoBackupCheck w = (Ok tt, w')
    /\ localStorage w' = localStorage w
    /\ drive w' = drive w
    /\ tokenClient w' = tokenClient w
    /\ ticks w' = ticks w.
Proof.
  intros S G D. unfold runAutoBackupCheck, getSettings.
  step (get_run KEYS_SETTINGS defaultSettings w). rewrite S, G. cbn [orThrow].
  unfold bind at 1, ret at 1.
  assert (negb (truthy (getPropOpt googleDrive "clientId"))
          || negb (truthy (getPropOpt (getPropOpt settings "backup") "enabled"))
          = true) as ->.
  { destruct D as [-> | ->]; [reflexivity | apply orb_true_r]. }
  eexists. split; [reflexivity |]. now cbn.
Qed.


Lemma diffAtLeast_mono hours elapsed elapsed' :
  elapsed <= elapsed' ->
  diffAtLeast hours (Some (Qmake elapsed 3600000)) = true ->
  diffAtLeast hours (Some (Qmake elapsed' 3600000)) = true.
Proof. rewrite !diffAtLeast_spec. lia. Qed.

(** X17.  A last backup date that is present but not a valid date makes
    every elapsed-time test false: the check is then due under [on_boot]
    and under no other frequency, at every instant. *)
Theorem shouldBackup_invalid_date backup now :
  truthy (getPropOpt backup "lastBackupDate") = true ->
  Date_getTime (getPropOpt backup "lastBackupDate") = None ->
  shouldBackup backup now
  = isStr BackupFrequency_ON_BOOT (getPropOpt backup "frequency").
Proof.
  intros T D. unfold shouldBackup. rewrite T, D. cbn [negb diffAtLeast].
  now repeat destruct (isStr _ _).
Qed.

(** X18.  Once the check is due it stays due as the clock advances, for
    every policy. *)
Theorem shouldBackup_monotone backup now now' :
  now <= now' ->
  shouldBackup backup now = true ->
  shouldBackup backup now' = true.
Proof.
  intros L. unfold shouldBackup.
  destruct (negb (truthy _)); [reflexivity |].
  destruct (Date_getTime _) as [last|].
  - repeat (destruct (isStr _ _); [try reflexivity; apply diffAtLeast_mono; lia |]).
    discriminate.
  - now repeat destruct (isStr _ _).
Qed.

(** *** Folder resolution *)

Lemma matchesQuery_sound name parent f :
  matchesQuery name parent f = true ->
  isFolder name f
  /\ match parent with
     | Some p => In p (df_parents f)
     | None => True
     end.
Proof.
  unfold matchesQuery, isFolder. intros Q.
  apply andb_prop in Q as [Q P]. apply andb_prop in Q as [Q T].
  apply andb_prop in Q as [Mi Na].
  apply String.eqb_eq in Mi, Na. apply negb_true_iff in T.
  repeat split; try assumption.
  destruct parent as [p|]; [| exact I].
  apply existsb_exists in P as (x & In_x & E). apply String.eqb_eq in E. now subst.
Qed.

Lemma lookupFolder_found name parent files id :
  lookupFolder name parent files = Some id ->
  exists f,
    In f files /\ df_id f = id /\ isFolder name f
    /\ match parent with
       | Some p => In p (df_parents f)
       | None => True
       end.
Proof.
  unfold lookupFolder. intros L.
  destruct (List.filter (matchesQuery name parent) files) as [|f fs] eqn:E;
    [discriminate |].
  injection L as <-.
  assert (I : In f (List.filter (matchesQuery name parent) files))
    by (rewrite E; now left).
  apply List.filter_In in I as [I Q]. exists f.
  destruct (matchesQuery_sound _ _ _ Q) as [Fo Pa].
  split; [exact I |]. split; [reflexivity |]. split; [exact Fo | exact Pa].
Qed.

(** X20.  With a token the server accepts, on a Drive whose file ids are
    not empty, the resolution answers the id of a file that is in the
    Drive afterwards, is a live folder called [Backups], and has among
    its parents a live folder of the Drive called
    [App_Controle_Armamento]. *)
Theorem findOrCreateFolderChain_resolves accessToken w :
  authorized accessToken = true ->
  Forall (fun f => df_id f <> "") (drive_files (drive w)) ->
  exists id w1 backups root,
    findOrCreateFolderChain accessToken w = (Ok (Some id), w1)
    /\ In backups (drive_files (drive w1))
    /\ df_id backups = id
    /\ isFolder "Backups" backups
    /\ In root (drive_files (drive w1))
    /\ isFolder "App_Controle_Armamento" root
    /\ In (df_id root) (df_parents backups).
Proof.
  intros A F. rewrite (chain_accepted _ _ A F). unfold resolved. cbv zeta.
  assert (New : forall id name parents, isFolder name (folder id name parents))
    by (intros; repeat split).
  destruct (lookupFolder rootName None (drive_files (drive w))) as [rootId|] eqn:R.
  - destruct (lookupFolder_found _ _ _ _ R) as (root & Ir & <- & Fr & _).
    destruct (lookupFolder backupsName (Some (df_id root)) (drive_files (drive w)))
      as [backupId|] eqn:B.
    + destruct (lookupFolder_found _ _ _ _ B) as (backups & Ib & <- & Fb & Pb).
      exists (df_id backups), w, backups, root.
      split; [reflexivity |]. split; [exact Ib |]. split; [reflexivity |].
      split; [exact Fb |]. split; [exact Ir |]. split; [exact Fr | exact Pb].
    + eexists _, _, (folder _ backupsName [df_id root]), root.
      split; [reflexivity |]. cbn [drive set_drive drive_files addFile].
      split; [apply in_or_app; right; now left |]. split; [reflexivity |].
      split; [apply New |]. split; [apply in_or_app; now left |].
      split; [exact Fr | now left].
  - destruct (lookupFolder backupsName
                (Some (freshId (drive_next (drive w)))) (drive_files (drive w)))
      as [backupId|] eqn:B.
    + destruct (lookupFolder_found _ _ _ _ B) as (backups & Ib & <- & Fb & Pb).
      eexists (df_id backups), _, backups, (folder _ rootName []).
      split; [reflexivity |]. cbn [drive set_drive drive_files addFile].
      split; [apply in_or_app; now left |]. split; [reflexivity |].
      split; [exact Fb |]. split; [apply in_or_app; right; now left |].
      split; [apply New | exact Pb].
    + eexists _, _, (folder _ backupsName [_]), (folder _ rootName []).
      split; [reflexivity |]. cbn [drive set_drive drive_files addFile].
      split; [apply in_or_app; right; now left |]. split; [reflexivity |].
      split; [apply New |].
      split; [apply in_or_app; left; apply in_or_app; right; now left |].
      split; [apply New | now left].
Qed.

(** X19.  With a token that the token client grants and the server does
    not accept, and a stored log that can be spread, the cycle creates
    nothing in the Drive and ends in an exception, whatever the server
    does with the upload request; the settings slot is as before and the
    log gets one failure entry in front. *)
Theorem uploadBackup_refused_token initiator w clientId accessToken rest :
  tokenClient w = Some clientId ->
  gsi_response clientId = TokenGranted accessToken ->
  authorized accessToken = false ->
  auditTrail (localStorage w) = Some rest ->
  exists e w' id timestamp,
    uploadBackup initiator w = (Throw e, w')
    /\ drive w' = drive w
    /\ localStorage w' !! KEYS_SETTINGS = localStorage w !! KEYS_SETTINGS
    /\ localStorage w' !! KEYS_LOGS
       = Some (JSON_text
                 (VArr (SystemLog id initiator "Erro Backup Drive"
                          "Falha no envio para Google Drive." timestamp :: rest))).
Proof.
  intros T G A L.
  assert (Tk : getAccessToken w = (Ok accessToken, w))
    by (unfold getAccessToken; now rewrite T, G).
  destruct (generateBackupData_run w) as (w1 & Gen & S1 & _ & D1 & _).
  assert (Fin : forall e w2,
             localStorage w2 = localStorage w -> drive w2 = drive w ->
             exists w' id timestamp,
               (console_error "" (Some e) ;;;
                addLog initiator "Erro Backup Drive"
                  "Falha no envio para Google Drive." ;;;
                throw (A := bool) e) w2 = (Throw e, w')
               /\ drive w' = drive w
               /\ localStorage w' !! KEYS_SETTINGS = localStorage w !! KEYS_SETTINGS
               /\ localStorage w' !! KEYS_LOGS
                  = Some (JSON_text
                            (VArr (SystemLog id initiator "Erro Backup Drive"
                                     "Falha no envio para Google Drive." timestamp
                                   :: rest)))).
  { intros e w2 S2 D2. rewrite bind_console_error. cbv beta.
    assert (A2 : auditTrail (localStorage (logged [ConsoleError "" (Some e)] w2))
                 = Some rest) by (cbn; now rewrite S2).
    step (addLog_run initiator _ _ _ rest A2).
    eexists _, _, _. split; [reflexivity |]. cbn. rewrite S2, D2.
    repeat split; now simplify_map_eq. }
  unfold uploadBackup, try_catch.
  step Tk. step (chain_refused _ w A). step Gen. cbv zeta. unfold encode.
  destruct (JSZip_generateAsync _) as [blob|]; cbn [orThrow].
  - rewrite bind_ret, bind_Date_now.
    destruct (fetch_upload_failure
                (fun response : Response =>
                   currentSettings <- getSettings ;;
                   backup <- orThrow TypeError (getProp currentSettings "backup") ;;
                   (if truthy backup
                    then
                      d <- Date_now ;;
                      stamped <- orThrow TypeError
                                   (stampLastBackup currentSettings backup
                                      (Date_toISOString d)) ;;
                      saveSettings stamped
                    else ret tt) ;;;
                   addLog initiator "Backup Drive"
                     ("Backup automático enviado. ID: "
                      +:+ match response_id response with
                          | Some id => id
                          | None => "undefined"
                          end) ;;;
                   ret true)
                accessToken None
                ("backup_auto_" +:+ dashed (Date_toISOString (clock (ticks w1)))
                 +:+ ".zip")
                blob (set_ticks (S (ticks w1)) w1)) as (e & Up).
    { unfold uploadFails, fetch_upload.
      destruct (upload_verdict _ _ _); [now rewrite A | reflexivity | exact I]. }
    rewrite Up.
    destruct (Fin e (set_ticks (S (ticks w1)) w1) S1 D1) as (w' & id & ts & Hw).
    now exists e, w', id, ts.
  - unfold bind at 1, throw at 1.
    destruct (Fin (Rejected "generateAsync") w1 S1 D1) as (w' & id & ts & Hw).
    now exists (Rejected "generateAsync"), w', id, ts.
Qed.

(** *** Exporting *)

Lemma cells_length headers row line :
  cells headers row = Some line -> List.length line = List.length headers.
Proof.
  revert line. induction headers as [|h hs IH]; cbn; intros line E.
  - now injection E as <-.
  - destruct (getMember row h); [| discriminate].
    destruct (cells hs row) as [tail|]; [| discriminate].
    injection E as <-. cbn. now rewrite (IH tail).
Qed.

Lemma table_shape headers data lines :
  table headers data = Some lines ->
  List.length lines = List.length data
  /\ Forall (fun line => List.length line = List.length headers) lines.
Proof.
  revert lines. induction data as [|row data IH]; cbn; intros lines E.
  - injection E as <-. now split.
  - destruct (cells headers row) as [line|] eqn:C; [| discriminate].
    destruct (table headers data) as [tail|]; [| discriminate].
    injection E as <-. destruct (IH tail eq_refl) as [L F]. cbn. split.
    + now rewrite L.
    + constructor; [now apply cells_length with (row := row) | exact F].
Qed.

(** X21.  [exportCSV] on a list that is not empty either throws a
    [TypeError] or clicks one link: its name is the file name followed by
    [.csv], and its address is the encoded text of a header line made of
    the keys of the first row, followed by one line for each row, every
    line with exactly one cell for each header. *)
Theorem exportCSV_rectangular first more filename :
  match exportCSV (first :: more) filename with
  | Throw e => e = TypeError
  | Ok None => False
  | Ok (Some link) =>
      exists headers lines,
        objectKeys first = Some headers
        /\ List.length lines = S (List.length more)
        /\ Forall (fun line => List.length line = List.length headers) lines
        /\ anchor_download link = filename +:+ ".csv"
        /\ anchor_href link
           = encodeURI ("data:text/csv;charset=utf-8,"
                        +:+ join newline (join "," headers :: map (join ",") lines))
  end.
Proof.
  unfold exportCSV. destruct (objectKeys first) as [headers|]; [| reflexivity].
  destruct (table headers (first :: more)) as [lines|] eqn:T; [| reflexivity].
  destruct (table_shape _ _ _ T) as [L F].
  exists headers, lines. now repeat split.
Qed.

Lemma assoc_app_other k k' v fields :
  k' <> k -> assoc k' (fields ++ [(k, v)]) = assoc k' fields.
Proof.
  intros N. induction fields as [|[k0 v0] fields IH]; cbn.
  - now destruct (String.eqb_spec k' k).
  - now rewrite IH.
Qed.

Lemma cells_extra_member headers fields k v :
  ~ In k headers ->
  cells headers (VObj (fields ++ [(k, v)])) = cells headers (VObj fields).
Proof.
  induction headers as [|h hs IH]; [reflexivity |]. intros N. cbn.
  rewrite assoc_app_other by (intros ->; apply N; now left).
  rewrite IH; [reflexivity |]. intros I. apply N. now right.
Qed.

Lemma table_extra_member headers before fields after k v :
  ~ In k headers ->
  table headers (before ++ VObj (fields ++ [(k, v)]) :: after)
  = table headers (before ++ VObj fields :: after).
Proof.
  intros N. induction before as [|row before IH]; cbn.
  - now rewrite cells_extra_member.
  - now rewrite IH.
Qed.

(** X22.  The columns are those of the first row: a member that a later
    row has and the first row has not is left out of the export, which is
    the same with and without it. *)
Theorem exportCSV_columns_of_first_row first before fields after k v filename
    headers :
  objectKeys first = Some headers ->
  ~ In k headers ->
  exportCSV (first :: before ++ VObj (fields ++ [(k, v)]) :: after) filename
  = exportCSV (first :: before ++ VObj fields :: after) filename.
Proof.
  intros K N. unfold exportCSV. rewrite K.
  change (first :: before ++ ?x :: after)%list
    with ((first :: before) ++ x :: after)%list.
  now rewrite (table_extra_member headers (first :: before)).
Qed.

Lemma table_null_row h headers data :
  In VNull data \/ In VUndefined data ->
  table (h :: headers) data = None.
Proof.
  induction data as [|row data IH]; intros N.
  - now destruct N.
  - cbn [table].
    destruct N as [[-> | N] | [-> | N]]; try reflexivity;
      (destruct (cells (h :: headers) row); [| reflexivity]);
      rewrite IH by tauto; reflexivity.
Qed.

(** X23.  A row that is [null] or [undefined] makes [exportCSV] throw a
    [TypeError] as soon as the first row has a key; with a first row
    without keys no row is read and the export goes through. *)
Theorem exportCSV_null_row first more filename headers :
  objectKeys first = Some headers ->
  In VNull more \/ In VUndefined more ->
  match headers with
  | [] => exists link, exportCSV (first :: more) filename = Ok (Some link)
  | _ :: _ => exportCSV (first :: more) filename = Throw TypeError
  end.
Proof.
  intros K N. unfold exportCSV. rewrite K. destruct headers as [|h hs].
  - assert (T : forall data, table [] data = Some (map (fun _ => []) data)).
    { induction data as [|row data IH]; cbn; [reflexivity | now rewrite IH]. }
    rewrite T. eexists. reflexivity.
  - rewrite table_null_row; [reflexivity |].
    destruct N as [N | N]; [left | right]; now right.
Qed.

(** *** Listing *)

Lemma lookupFolder_nonfolders name parent extra :
  Forall (fun f => df_mimeType f <> folderMimeType) extra ->
  lookupFolder name parent extra = None.
Proof.
  unfold lookupFolder. induction 1 as [|f extra N _ IH]; [reflexivity |].
  cbn [List.filter]. unfold matchesQuery at 1.
  destruct (String.eqb_spec (df_mimeType f) folderMimeType); [contradiction |].
  cbn [andb]. exact IH.
Qed.

(** What the resolution leaves behind: the id it answers is answered
    again, with nothing created, from every Drive that holds the files it
    left followed by files that are no folders. *)
Lemma resolved_stable w :
  Forall (fun f => df_id f <> "") (drive_files (drive w)) ->
  exists id wb created,
    resolved w = (Ok (Some id), wb)
    /\ drive_files (drive wb) = (drive_files (drive w) ++ created)%list
    /\ Forall (fun f => df_id f <> "") created
    /\ tokenClient wb = tokenClient w
    /\ forall W extra,
         drive_files (drive W) = (drive_files (drive wb) ++ extra)%list ->
         Forall (fun f => df_mimeType f <> folderMimeType) extra ->
         resolved W = (Ok (Some id), W).
Proof.
  intros F. unfold resolved at 1. cbv zeta.
  set (files := drive_files (drive w)) in *.
  set (n := drive_next (drive w)).
  destruct (lookupFolder rootName None files) as [rootId|] eqn:R.
  - destruct (lookupFolder backupsName (Some rootId) files) as [backupId|] eqn:B.
    + exists backupId, w, []. split; [reflexivity |]. fold files.
      rewrite app_nil_r. split; [reflexivity |]. split; [constructor |].
      split; [reflexivity |]. intros W extra E N. unfold resolved. cbv zeta.
      rewrite E. rewrite lookupFolder_app, R. cbv beta iota.
      now rewrite lookupFolder_app, B.
    + eexists _, _, [_]. split; [reflexivity |].
      cbn [drive set_drive drive_files addFile tokenClient]. fold files.
      split; [reflexivity |].
      split; [repeat constructor; apply freshId_nonempty |].
      split; [reflexivity |]. intros W extra E N. unfold resolved. cbv zeta.
      rewrite E. rewrite !lookupFolder_app, R. cbv beta iota.
      now rewrite !lookupFolder_app, B, lookup_created.
  - destruct (lookupFolder backupsName (Some (freshId n)) files) as [backupId|] eqn:B.
    + eexists _, _, [_]. split; [reflexivity |].
      cbn [drive set_drive drive_files addFile tokenClient]. fold files.
      split; [reflexivity |].
      split; [repeat constructor; apply freshId_nonempty |].
      split; [reflexivity |]. intros W extra E N. unfold resolved. cbv zeta.
      rewrite E. rewrite !lookupFolder_app, R, lookup_created_top. cbv beta iota.
      now rewrite !lookupFolder_app, B.
    + eexists _, _, [_; _]. split; [reflexivity |].
      cbn [drive set_drive drive_files addFile tokenClient]. fold files.
      split; [now rewrite <- app_assoc |].
      split; [repeat constructor; apply freshId_nonempty |].
      split; [reflexivity |]. intros W extra E N. unfold resolved. cbv zeta.
      rewrite E. rewrite !lookupFolder_app, R, lookup_created_top. cbv beta iota.
      rewrite !lookupFolder_app, B.
      rewrite (lookup_other backupsName _ _ rootName) by reflexivity.
      now rewrite lookup_created.
Qed.

(** X24.  With a granted token that the server does not accept,
    [listBackups] throws [List failed: Unauthorized] and leaves
    everything as it was. *)
Theorem listBackups_refused_token w clientId accessToken :
  tokenClient w = Some clientId ->
  gsi_response clientId = TokenGranted accessToken ->
  authorized accessToken = false ->
  listBackups w = (Throw (Error "List failed: Unauthorized"), w).
Proof.
  intros T G A.
  assert (Tk : getAccessToken w = (Ok accessToken, w))
    by (unfold getAccessToken; now rewrite T, G).
  unfold listBackups. step Tk. step (chain_refused _ w A).
  unfold bind, fetch_list. now rewrite A.
Qed.

(** X25.  Listing is not a pure read: on a Drive that has no live folder
    called [App_Controle_Armamento], [listBackups] returns a list and
    leaves the Drive with exactly one new folder of that name (and at most
    one called [Backups]) after the files it held. *)
Theorem listBackups_creates_missing_folders w clientId accessToken :
  tokenClient w = Some clientId ->
  gsi_response clientId = TokenGranted accessToken ->
  authorized accessToken = true ->
  Forall (fun f => df_id f <> "") (drive_files (drive w)) ->
  lookupFolder "App_Controle_Armamento" None (drive_files (drive w)) = None ->
  exists files w' created,
    listBackups w = (Ok files, w')
    /\ drive_files (drive w') = (drive_files (drive w) ++ created)%list
    /\ countNamed "App_Controle_Armamento" created = 1%nat
    /\ (countNamed "Backups" created <= 1)%nat
    /\ localStorage w' = localStorage w.
Proof.
  intros T G A F R.
  assert (Tk : getAccessToken w = (Ok accessToken, w))
    by (unfold getAccessToken; now rewrite T, G).
  unfold listBackups. step Tk. unfold bind at 1.
  rewrite (chain_accepted _ w A F).
  unfold resolved. cbv zeta. fold rootName in R. rewrite R.
  destruct (lookupFolder backupsName _ _);
    unfold bind, fetch_list; rewrite A; cbn [listing_ok negb ret];
    eexists _, _, _; (split; [reflexivity |]);
    cbn [drive set_drive drive_files addFile localStorage];
    rewrite <- ?app_assoc; (split; [reflexivity |]); cbn; repeat split; lia.
Qed.

Lemma try_rethrow_inv {A} (m : M A) (first second : exn -> M unit) w a w' :
  try_catch m (fun e => first e ;;; second e ;;; throw e) w = (Ok a, w') ->
  m w = (Ok a, w').
Proof.
  unfold try_catch, bind, throw. destruct (m w) as [[x|e] w1]; [trivial |].
  destruct (first e w1) as [[[]|e'] w2]; [| discriminate].
  destruct (second e w2) as [[[]|e'] w3]; discriminate.
Qed.

Lemma get_remote key defaultValue w r w' :
  get key defaultValue w = (r, w') ->
  drive w' = drive w /\ tokenClient w' = tokenClient w.
Proof. rewrite get_run. now intros [= _ <-]. Qed.

Lemma addLog_remote armorerName action details w r w' :
  addLog armorerName action details w = (r, w') ->
  drive w' = drive w /\ tokenClient w' = tokenClient w.
Proof.
  destruct (auditTrail (localStorage w)) as [rest|] eqn:A.
  - rewrite (addLog_run _ _ _ _ rest A). now intros [= _ <-].
  - rewrite (addLog_throws _ _ _ _ A). now intros [= _ <-].
Qed.

Lemma orThrow_frame {A} e (o : option A) w r w' :
  orThrow e o w = (r, w') -> w' = w.
Proof. destruct o; now intros [= _ <-]. Qed.

Lemma fetch_upload_authorized accessToken folderId fileName blob w response w' :
  fetch_upload accessToken folderId fileName blob w = (Ok response, w') ->
  response_ok response = true ->
  authorized accessToken = true.
Proof.
  unfold fetch_upload.
  destruct (upload_verdict (drive w) fileName blob); [| | discriminate].
  - destruct (authorized accessToken); [reflexivity |].
    intros [= <- <-]. discriminate.
  - intros [= <- <-]. discriminate.
Qed.

(** What a successful cycle went through: the request, its acceptance,
    and a tail that leaves the Drive and the token client alone. *)
Lemma uploadBackup_success_inv initiator w w' :
  uploadBackup initiator w = (Ok true, w') ->
  exists accessToken folderId fileName blob w1 response w2,
    uploadRequest w = (Ok (accessToken, folderId, fileName, blob), w1)
    /\ isPrefix "backup_auto_" fileName = true
    /\ fetch_upload accessToken folderId fileName blob w1 = (Ok response, w2)
    /\ response_ok response = true
    /\ drive w' = drive w2
    /\ tokenClient w' = tokenClient w2.
Proof.
  unfold uploadBackup. intros U. apply try_rethrow_inv in U.
  apply bind_inv in U as (accessToken & wa & Tk & U).
  apply bind_inv in U as (folderId & wb & Ch & U).
  apply bind_inv in U as (backupData & wc & Gen & U). cbv zeta in U.
  apply bind_inv in U as (blob & wd & En & U).
  apply bind_inv in U as (t & w1 & Now & U).
  apply bind_inv in U as (response & w2 & Up & U).
  destruct (response_ok response) eqn:O; [| discriminate]. cbn [negb] in U.
  apply bind_inv in U as (currentSettings & w3 & Gs & U).
  apply bind_inv in U as (backup & w4 & Bk & U).
  apply bind_inv in U as ([] & w5 & St & U).
  apply bind_inv in U as ([] & w6 & Lg & U).
  unfold ret in U. injection U as <-.
  apply get_remote in Gs as [D3 T3]. apply orThrow_frame in Bk as ->.
  apply addLog_remote in Lg as [D6 T6].
  assert (drive w5 = drive w3 /\ tokenClient w5 = tokenClient w3) as [D5 T5].
  { destruct (truthy backup).
    - apply bind_inv in St as (d & w7 & Nw & St).
      apply bind_inv in St as (stamped & w8 & Sp & St).
      apply orThrow_frame in Sp as ->. unfold saveSettings in St.
      rewrite set_run in St. injection St as <-.
      unfold Date_now in Nw. now injection Nw as _ <-.
    - unfold ret in St. now injection St as <-. }
  exists accessToken, folderId,
    ("backup_auto_" +:+ dashed (Date_toISOString t) +:+ ".zip"), blob, w1, response, w2.
  split.
  - unfold uploadRequest. step Tk. step Ch. step Gen. fold (serialize backupData) in En.
    step En. step Now. reflexivity.
  - split; [apply (isPrefix_app "backup_auto_") |]. split; [exact Up |].
    split; [exact O |]. split; congruence.
Qed.

Lemma uploadRequest_inv w accessToken folderId fileName blob w1 :
  uploadRequest w = (Ok (accessToken, folderId, fileName, blob), w1) ->
  getAccessToken w = (Ok accessToken, w)
  /\ exists wb,
       findOrCreateFolderChain accessToken w = (Ok folderId, wb)
       /\ drive w1 = drive wb
       /\ tokenClient w1 = tokenClient wb.
Proof.
  unfold uploadRequest. intros R.
  apply bind_inv in R as (tk & wa & Tk & R).
  pose proof (getAccessToken_frame _ _ _ Tk) as ->.
  apply bind_inv in R as (fid & wb & Ch & R).
  apply bind_inv in R as (backupData & wc & Gen & R).
  destruct (generateBackupData_run wb) as (? & Gen' & _ & _ & Dc & Tc & _).
  rewrite Gen in Gen'. injection Gen' as _ <-.
  apply bind_inv in R as (bl & wd & En & R).
  apply encode_frame in En as ->.
  unfold bind, Date_now, ret in R. injection R as <- <- _ _ <-.
  split; [exact Tk |]. exists wb. now repeat split.
Qed.

Lemma inFolder_app folder files files' :
  List.filter (inFolder folder) (files ++ files')
  = (List.filter (inFolder folder) files ++ List.filter (inFolder folder) files')%list.
Proof. apply List.filter_app. Qed.

(** X26.  After a cycle that [uploadBackup] reports as done, on a Drive
    whose file ids were not empty, [listBackups] creates nothing and its
    first item is the archive that cycle stored. *)
Theorem listBackups_after_upload initiator w w' :
  Forall (fun f => df_id f <> "") (drive_files (drive w)) ->
  uploadBackup initiator w = (Ok true, w') ->
  exists archive older,
    listBackups w' = (Ok (archive :: older), w')
    /\ df_mimeType archive = "application/zip"
    /\ isPrefix "backup_auto_" (df_name archive) = true
    /\ In archive (drive_files (drive w')).
Proof.
  intros F U.
  destruct (uploadBackup_success_inv _ _ _ U)
    as (accessToken & folderId & fileName & blob & w1 & response & w2
        & R & Pre & Up & O & D' & T').
  pose proof (fetch_upload_authorized _ _ _ _ _ _ _ Up O) as A.
  destruct (fetch_upload_accepted _ _ _ _ _ _ _ Up O) as (parent & -> & _ & ->).
  destruct (uploadRequest_inv _ _ _ _ _ _ R) as (Tk & wb & Ch & D1 & T1).
  rewrite (chain_accepted _ _ A F) in Ch.
  destruct (resolved_stable w F) as (id & wb' & created & Rs & Fs & Fc & Tb & Stable).
  rewrite Ch in Rs. injection Rs as <- <-.
  set (zip := {| df_id := freshId (drive_next (drive w1)); df_name := fileName;
                 df_mimeType := "application/zip"; df_parents := [parent];
                 df_trashed := false |}) in *.
  assert (Fw : drive_files (drive w') = (drive_files (drive wb) ++ [zip])%list).
  { rewrite D'. cbn [drive set_drive drive_files addFile]. now rewrite D1. }
  assert (Tk' : getAccessToken w' = (Ok accessToken, w')).
  { unfold getAccessToken in *. rewrite T'. cbn [tokenClient set_drive].
    rewrite T1, Tb. destruct (tokenClient w) as [c|]; [| discriminate].
    destruct (gsi_response c); [discriminate |]. now injection Tk as ->. }
  assert (F' : Forall (fun f => df_id f <> "") (drive_files (drive w'))).
  { rewrite Fw, Fs. repeat (apply Forall_app; split); try assumption.
    repeat constructor. apply freshId_nonempty. }
  assert (Rs' : resolved w' = (Ok (Some parent), w')).
  { apply (Stable w' [zip] Fw). repeat constructor. discriminate. }
  exists zip, (rev (List.filter (inFolder parent) (drive_files (drive wb)))).
  split.
  - unfold listBackups. step Tk'. unfold bind at 1.
    rewrite (chain_accepted _ _ A F'), Rs'. unfold bind, fetch_list. rewrite A.
    cbn [listing_ok negb ret listing_files from_option id]. rewrite Fw, inFolder_app.
    subst zip. unfold inFolder at 2. cbn [List.filter df_parents df_trashed existsb].
    rewrite String.eqb_refl. cbn [orb andb negb List.filter]. now rewrite rev_unit.
  - split; [reflexivity |]. split; [exact Pre |].
    rewrite Fw. apply in_or_app. right. now left.
Qed.

End More.

(** ** Further runs on the executable host *)

(** X1, for the minimal document written to an empty store. *)
Lemma set_get_roundtrip_witness :
  minimalDoc <> VUndefined
  /\ JSON_text minimalDoc <> ""
  /\ JSON_parse (JSON_text minimalDoc) = Some minimalDoc
  /\ exists w1 w2,
       set KEYS_MATERIALS minimalDoc emptyWorld = (Ok tt, w1)
       /\ get KEYS_MATERIALS (VArr []) w1 = (Ok minimalDoc, w2).
Proof.
  assert (U : minimalDoc <> VUndefined) by discriminate.
  assert (T : JSON_text minimalDoc <> "") by (vm_compute; discriminate).
  assert (P : JSON_parse (JSON_text minimalDoc) = Some minimalDoc)
    by (vm_compute; reflexivity).
  repeat (split; [assumption |]).
  destruct (set_get_roundtrip KEYS_MATERIALS minimalDoc (VArr []) emptyWorld U T P)
    as (w1 & w2 & S & G & _).
  exists w1, w2. split; [exact S | exact G].
Defined.

(** X2, for the settings slot of an empty store. *)
Lemma set_undefined_reads_default_witness :
  JSON_parse "undefined" = None
  /\ exists w1 w2,
       set KEYS_SETTINGS VUndefined emptyWorld = (Ok tt, w1)
       /\ get KEYS_SETTINGS defaultSettings w1 = (Ok defaultSettings, w2).
Proof.
  assert (P : JSON_parse "undefined" = None) by (vm_compute; reflexivity).
  split; [exact P |].
  destruct (set_undefined_reads_default KEYS_SETTINGS defaultSettings emptyWorld P)
    as (w1 & w2 & S & _ & G & _).
  exists w1, w2. split; [exact S | exact G].
Defined.

(** X4, for a first entry in an empty store. *)
Lemma addLog_prepends_witness :
  auditTrail (localStorage emptyWorld) = Some []
  /\ exists w',
       addLog "Ana" "Login" "Acesso ao sistema" emptyWorld = (Ok tt, w')
       /\ auditTrail (localStorage w')
          = Some [entry "Ana" "Login" "Acesso ao sistema" emptyWorld].
Proof.
  assert (A : auditTrail (localStorage emptyWorld) = Some [])
    by (vm_compute; reflexivity).
  assert (T : JSON_text (VArr [entry "Ana" "Login" "Acesso ao sistema" emptyWorld])
              <> "") by (vm_compute; discriminate).
  assert (P : JSON_parse
                (JSON_text (VArr [entry "Ana" "Login" "Acesso ao sistema" emptyWorld]))
              = Some (VArr [entry "Ana" "Login" "Acesso ao sistema" emptyWorld]))
    by (vm_compute; reflexivity).
  split; [exact A |].
  destruct (addLog_prepends "Ana" "Login" "Acesso ao sistema" emptyWorld [] A T P)
    as (w' & Run & L & _).
  exists w'. split; [exact Run | exact L].
Defined.

(** X5, for a log slot that holds a broken text. *)
Lemma addLog_resets_unreadable_log_witness :
  localStorage garbledLogWorld !! KEYS_LOGS = Some "{oops"
  /\ JSON_parse "{oops" = None
  /\ exists w',
       addLog "Ana" "Login" "Acesso ao sistema" garbledLogWorld = (Ok tt, w')
       /\ localStorage w' !! KEYS_LOGS
          = Some (JSON_text
                    (VArr [entry "Ana" "Login" "Acesso ao sistema" garbledLogWorld])).
Proof.
  assert (L : localStorage garbledLogWorld !! KEYS_LOGS = Some "{oops")
    by (vm_compute; reflexivity).
  assert (P : JSON_parse "{oops" = None) by (vm_compute; reflexivity).
  repeat (split; [assumption |]).
  exact (addLog_resets_unreadable_log "Ana" "Login" "Acesso ao sistema"
           garbledLogWorld _ L P).
Defined.

(** X6, for a log slot that holds [null]. *)
Lemma addLog_rejects_unspreadable_log_witness :
  localStorage nullLogWorld !! KEYS_LOGS = Some "null"
  /\ JSON_parse "null" = Some VNull
  /\ spread VNull = None
  /\ exists w',
       addLog "Ana" "Login" "Acesso ao sistema" nullLogWorld = (Throw TypeError, w')
       /\ localStorage w' = localStorage nullLogWorld.
Proof.
  assert (L : localStorage nullLogWorld !! KEYS_LOGS = Some "null")
    by (vm_compute; reflexivity).
  assert (N : "null" <> "") by discriminate.
  assert (P : JSON_parse "null" = Some VNull) by (vm_compute; reflexivity).
  assert (S : spread VNull = None) by reflexivity.
  repeat (split; [assumption |]).
  exact (addLog_rejects_unspreadable_log "Ana" "Login" "Acesso ao sistema"
           nullLogWorld _ _ L N P S).
Defined.

(** X7, for a backup of the store that names an administrator. *)
Lemma createBackup_archive_holds_snapshot_witness :
  auditTrail (localStorage staffedWorld) = Some []
  /\ exists w' fileName,
       createBackup "Ana" staffedWorld = (Ok true, w')
       /\ downloads w'
          = [(fileName,
              Sample.Container [(payloadName, serialize (snapshot staffedWorld))])]
       /\ endsWith ".zip" fileName = true.
Proof.
  assert (Law : forall members b,
             JSZip_generateAsync members = Some b -> JSZip_loadAsync b = Some members)
    by (intros members b [= <-]; reflexivity).
  assert (G : JSZip_generateAsync [(payloadName, serialize (snapshot staffedWorld))]
              = Some (Sample.Container
                        [(payloadName, serialize (snapshot staffedWorld))]))
    by reflexivity.
  assert (A : auditTrail (localStorage staffedWorld) = Some [])
    by (vm_compute; reflexivity).
  split; [exact A |].
  destruct (createBackup_archive_holds_snapshot "Ana" staffedWorld _ [] Law G A)
    as (w' & fileName & Run & D & _ & Z & _).
  exists w', fileName. split; [exact Run |]. split; [exact D | exact Z].
Defined.

(** X8, for a container library that produces nothing. *)
Lemma createBackup_reports_archive_failure_witness :
  JSZip_generateAsync (Archive := failingArchive)
    [(payloadName, serialize (snapshot failingWorld))] = None
  /\ auditTrail (localStorage failingWorld) = Some []
  /\ exists w',
       createBackup "Ana" failingWorld = (Ok false, w')
       /\ downloads w' = [].
Proof.
  assert (G : JSZip_generateAsync (Archive := failingArchive)
                [(payloadName, serialize (snapshot failingWorld))] = None)
    by reflexivity.
  assert (A : auditTrail (localStorage failingWorld) = Some [])
    by (vm_compute; reflexivity).
  repeat (split; [assumption |]).
  destruct (createBackup_reports_archive_failure "Ana" failingWorld [] G A)
    as (w' & id & timestamp & Run & D & _).
  exists w'. split; [exact Run | exact D].
Defined.

(** X9, for a backup of the store that names an administrator, restored
    into an empty store. *)
Lemma backup_then_restore_witness :
  auditTrail (localStorage staffedWorld) = Some []
  /\ JSON_parse (serialize (snapshot staffedWorld)) = Some (snapshot staffedWorld)
  /\ lockoutOutcome (snapshot staffedWorld) (localStorage emptyWorld) = Some false
  /\ exists w1 fileName w',
       createBackup "Ana" staffedWorld = (Ok true, w1)
       /\ restoreBackup
            (Upload {| file_name := fileName; file_type := "";
                       file_data := Sample.Container
                         [(payloadName, serialize (snapshot staffedWorld))] |})
            "Bruno" emptyWorld = (Ok tt, w')
       /\ localStorage w' !! KEYS_SETTINGS = Some (Sample.text staffedSettings).
Proof.
  assert (Law : forall members b,
             JSZip_generateAsync members = Some b -> JSZip_loadAsync b = Some members)
    by (intros members b [= <-]; reflexivity).
  assert (G : JSZip_generateAsync [(payloadName, serialize (snapshot staffedWorld))]
              = Some (Sample.Container
                        [(payloadName, serialize (snapshot staffedWorld))]))
    by reflexivity.
  assert (A : auditTrail (localStorage staffedWorld) = Some [])
    by (vm_compute; reflexivity).
  assert (N : serialize (snapshot staffedWorld) <> "") by (vm_compute; discriminate).
  assert (P : JSON_parse (serialize (snapshot staffedWorld))
              = Some (snapshot staffedWorld)) by (vm_compute; reflexivity).
  assert (M : truthy (read (localStorage staffedWorld) KEYS_MATERIALS (VArr [])) = true)
    by (vm_compute; reflexivity).
  assert (S : truthy (read (localStorage staffedWorld) KEYS_SETTINGS defaultSettings)
              = true) by (vm_compute; reflexivity).
  assert (O : lockoutOutcome (snapshot staffedWorld) (localStorage emptyWorld)
              = Some false) by (vm_compute; reflexivity).
  assert (A' : auditTrail (restoredStore (snapshot staffedWorld)
                             (localStorage emptyWorld)) = Some [])
    by (vm_compute; reflexivity).
  split; [exact A |]. split; [exact P |]. split; [exact O |].
  destruct (backup_then_restore "Ana" "Bruno" "" staffedWorld emptyWorld _ [] [] false
              Law G A N P M S O A')
    as (w1 & fileName & w' & Run & _ & Back & _ & _ & _ & _ & St).
  exists w1, fileName, w'. split; [exact Run |]. split; [exact Back |].
  rewrite St. vm_compute. reflexivity.
Defined.

(** X10, for a broken text. *)
Lemma restore_rejects_unparsable_text_witness :
  JSON_parse "{oops" = None
  /\ auditTrail (localStorage emptyWorld) = Some []
  /\ exists w',
       restoreBackup (Text "{oops") "Ana" emptyWorld = (Ok tt, w')
       /\ callbacks w' = [(false, "Erro crítico ao processar dados.")].
Proof.
  assert (P : JSON_parse "{oops" = None) by (vm_compute; reflexivity).
  assert (A : auditTrail (localStorage emptyWorld) = Some [])
    by (vm_compute; reflexivity).
  repeat (split; [assumption |]).
  destruct (restore_rejects_unparsable_text "Ana" "{oops" emptyWorld []
              (or_introl P) A) as (w' & Run & Cb & _).
  exists w'. split; [exact Run | exact Cb].
Defined.

(** X11, for an archive of the minimal document. *)
Lemma restore_archive_as_text_witness :
  endsWith ".zip" (file_name minimalArchive)
  || includes "zip" (file_type minimalArchive) = true
  /\ decode (file_data minimalArchive) emptyWorld
     = (Ok (Sample.text minimalDoc), emptyWorld)
  /\ exists w',
       restoreBackup (Text (Sample.text minimalDoc)) "Ana" emptyWorld = (Ok tt, w')
       /\ restoreBackup (Upload minimalArchive) "Ana" emptyWorld = (Ok tt, w').
Proof.
  assert (Z : endsWith ".zip" (file_name minimalArchive)
              || includes "zip" (file_type minimalArchive) = true)
    by (vm_compute; reflexivity).
  assert (D : decode (file_data minimalArchive) emptyWorld
              = (Ok (Sample.text minimalDoc), emptyWorld))
    by (vm_compute; reflexivity).
  assert (N : Sample.text minimalDoc <> "") by (vm_compute; discriminate).
  eassert (R : restoreBackup (Text (Sample.text minimalDoc)) "Ana" emptyWorld
               = (Ok tt, _)) by (vm_compute; reflexivity).
  repeat (split; [assumption |]).
  destruct (restore_archive_as_text minimalArchive "Ana" emptyWorld _ _ Z D N)
    as (Same & _).
  eexists. split; [exact R |]. exact (Same _ R).
Defined.


(** X13, for a first upload into an empty Drive. *)
Lemma uploadBackup_success_witness :
  auditTrail (localStorage readyNeverWorld) = Some []
  /\ exists w' fileId,
       uploadBackup "Automático" readyNeverWorld = (Ok true, w')
       /\ existsb (fun f => String.eqb (df_id f) fileId
                            && String.eqb (df_mimeType f) "application/zip")
            (drive_files (drive w')) = true
       /\ truthy (getPropOpt
                    (getPropOpt (read (localStorage w') KEYS_SETTINGS defaultSettings)
                       "backup") "lastBackupDate") = true.
Proof.
  eassert (R : uploadRequest readyNeverWorld = (Ok (_, _, _, _), _))
    by (vm_compute; reflexivity).
  match type of R with
  | _ = (Ok (?accessToken, ?folderId, ?fileName, ?blob), ?w1) =>
      eassert (U : fetch_upload accessToken folderId fileName blob w1 = (Ok _, _))
        by (vm_compute; reflexivity)
  end.
  match type of U with
  | _ = (Ok ?response, _) =>
      assert (O : response_ok response = true) by reflexivity
  end.
  eassert (S : read (localStorage readyNeverWorld) KEYS_SETTINGS defaultSettings
               = VObj _) by (vm_compute; reflexivity).
  match type of S with
  | _ = VObj ?top =>
      eassert (B : assoc "backup" top = Some (VObj _)) by (vm_compute; reflexivity)
  end.
  assert (A : auditTrail (localStorage readyNeverWorld) = Some [])
    by (vm_compute; reflexivity).
  split; [exact A |].
  destruct (uploadBackup_success "Automático" _ _ _ _ _ _ _ _ _ _ _ R U O S B A)
    as (w' & parent & fileId & Run & _ & I & St & _).
  exists w', fileId. split; [exact Run |]. split.
  - apply existsb_exists. eexists. split; [exact I |]. cbn [df_id df_mimeType].
    now rewrite !String.eqb_refl.
  - unfold read. rewrite St. vm_compute. reflexivity.
Defined.

(** X14, before the token client is created. *)
Lemma uploadBackup_unauthenticated_witness :
  tokenClient emptyWorld = None
  /\ auditTrail (localStorage emptyWorld) = Some []
  /\ exists w',
       uploadBackup "Automático" emptyWorld
       = (Throw (Rejected "Client not initialized"), w')
       /\ drive w' = drive emptyWorld.
Proof.
  assert (T : tokenClient emptyWorld = None) by reflexivity.
  assert (A : auditTrail (localStorage emptyWorld) = Some [])
    by (vm_compute; reflexivity).
  repeat (split; [assumption |]).
  destruct (uploadBackup_unauthenticated "Automático" emptyWorld _ []
              (or_introl (conj T eq_refl)) A) as (w' & Run & D & _).
  exists w'. split; [exact Run | exact D].
Defined.

(** X15, for a store without settings. *)
Lemma runAutoBackupCheck_idle_when_disabled_witness :
  read (localStorage emptyWorld) KEYS_SETTINGS defaultSettings = defaultSettings
  /\ getProp defaultSettings "googleDrive" = Some VUndefined
  /\ truthy (getPropOpt VUndefined "clientId") = false
  /\ exists w',
       runAutoBackupCheck emptyWorld = (Ok tt, w')
       /\ localStorage w' = localStorage emptyWorld
       /\ drive w' = drive emptyWorld.
Proof.
  assert (S : read (localStorage emptyWorld) KEYS_SETTINGS defaultSettings
              = defaultSettings) by (vm_compute; reflexivity).
  assert (G : getProp defaultSettings "googleDrive" = Some VUndefined) by reflexivity.
  assert (C : truthy (getPropOpt VUndefined "clientId") = false) by reflexivity.
  repeat (split; [assumption |]).
  destruct (runAutoBackupCheck_idle_when_disabled emptyWorld _ _ S G (or_introl C))
    as (w' & Run & L & D & _).
  exists w'. split; [exact Run |]. split; [exact L | exact D].
Defined.


(** X17, for a daily policy whose last backup date is no date. *)
Lemma shouldBackup_invalid_date_witness :
  truthy (getPropOpt garbledPolicy "lastBackupDate") = true
  /\ Date_getTime (getPropOpt garbledPolicy "lastBackupDate") = None
  /\ shouldBackup garbledPolicy Sample.epoch = false.
Proof.
  assert (T : truthy (getPropOpt garbledPolicy "lastBackupDate") = true)
    by reflexivity.
  assert (D : Date_getTime (getPropOpt garbledPolicy "lastBackupDate") = None)
    by (vm_compute; reflexivity).
  repeat (split; [assumption |]).
  rewrite (shouldBackup_invalid_date garbledPolicy Sample.epoch T D).
  reflexivity.
Defined.

(** X18, for a daily policy, 25 and 26 hours after the last backup. *)
Lemma shouldBackup_monotone_witness :
  (Sample.epoch + 25 * 3600000 <= Sample.epoch + 26 * 3600000)%Z
  /\ shouldBackup dailyPolicy (Sample.epoch + 25 * 3600000) = true
  /\ shouldBackup dailyPolicy (Sample.epoch + 26 * 3600000) = true.
Proof.
  assert (L : (Sample.epoch + 25 * 3600000 <= Sample.epoch + 26 * 3600000)%Z) by lia.
  assert (D : shouldBackup dailyPolicy (Sample.epoch + 25 * 3600000) = true)
    by (vm_compute; reflexivity).
  repeat (split; [assumption |]).
  exact (shouldBackup_monotone dailyPolicy _ _ L D).
Defined.

(** X19, for a token the server no longer accepts. *)
Lemma uploadBackup_refused_token_witness :
  tokenClient readyWorld = Some (VStr "client")
  /\ gsi_response (Google := staleGoogle) (VStr "client") = TokenGranted "ya29.stale"
  /\ authorized (Google := staleGoogle) "ya29.stale" = false
  /\ auditTrail (localStorage readyWorld) = Some []
  /\ exists e w',
       uploadBackup (H1 := staleGoogle) "Automático" readyWorld = (Throw e, w')
       /\ drive w' = drive readyWorld.
Proof.
  assert (T : tokenClient readyWorld = Some (VStr "client")) by reflexivity.
  assert (G : gsi_response (Google := staleGoogle) (VStr "client")
              = TokenGranted "ya29.stale") by reflexivity.
  assert (N : authorized (Google := staleGoogle) "ya29.stale" = false)
    by (vm_compute; reflexivity).
  assert (A : auditTrail (localStorage readyWorld) = Some [])
    by (vm_compute; reflexivity).
  repeat (split; [assumption |]).
  destruct (uploadBackup_refused_token (H1 := staleGoogle) "Automático" readyWorld
              _ _ [] T G N A) as (e & w' & id & timestamp & Run & D & _).
  exists e, w'. split; [exact Run | exact D].
Defined.

(** X20, on an empty Drive. *)
Lemma findOrCreateFolderChain_resolves_witness :
  authorized Sample.token = true
  /\ Forall (fun f => df_id f <> "") (drive_files (drive emptyWorld))
  /\ exists id w1 backups,
       findOrCreateFolderChain Sample.token emptyWorld = (Ok (Some id), w1)
       /\ In backups (drive_files (drive w1))
       /\ df_id backups = id
       /\ isFolder "Backups" backups.
Proof.
  assert (A : authorized Sample.token = true) by (vm_compute; reflexivity).
  assert (F : Forall (fun f => df_id f <> "") (drive_files (drive emptyWorld)))
    by constructor.
  repeat (split; [assumption |]).
  destruct (findOrCreateFolderChain_resolves Sample.token emptyWorld A F)
    as (id & w1 & backups & root & Run & I & E & B & _).
  exists id, w1, backups. split; [exact Run |]. split; [exact I |].
  split; [exact E | exact B].
Defined.

(** X22, for a second row with a column of its own. *)
Lemma exportCSV_columns_of_first_row_witness :
  objectKeys rifleRow = Some ["id"; "name"]
  /\ ~ In "note" ["id"; "name"]
  /\ exportCSV [rifleRow; VObj (pistolRow ++ [("note", VStr "em manutenção")])]
       "materiais"
     = exportCSV [rifleRow; VObj pistolRow] "materiais".
Proof.
  assert (K : objectKeys rifleRow = Some ["id"; "name"]) by reflexivity.
  assert (N : ~ In "note" ["id"; "name"])
    by (intros [E | [E | []]]; discriminate E).
  repeat (split; [assumption |]).
  exact (exportCSV_columns_of_first_row rifleRow [] pistolRow [] "note"
           (VStr "em manutenção") "materiais" _ K N).
Defined.

(** X23, for a table with a [null] row. *)
Lemma exportCSV_null_row_witness :
  objectKeys rifleRow = Some ["id"; "name"]
  /\ In VNull [VObj pistolRow; VNull]
  /\ exportCSV [rifleRow; VObj pistolRow; VNull] "materiais" = Throw TypeError.
Proof.
  assert (K : objectKeys rifleRow = Some ["id"; "name"]) by reflexivity.
  assert (I : In VNull [VObj pistolRow; VNull]) by (right; left; reflexivity).
  repeat (split; [assumption |]).
  exact (exportCSV_null_row rifleRow [VObj pistolRow; VNull] "materiais" _ K
           (or_introl I)).
Defined.

(** X24, for a token the server no longer accepts. *)
Lemma listBackups_refused_token_witness :
  tokenClient readyWorld = Some (VStr "client")
  /\ authorized (Google := staleGoogle) "ya29.stale" = false
  /\ listBackups (H1 := staleGoogle) readyWorld
     = (Throw (Error "List failed: Unauthorized"), readyWorld).
Proof.
  assert (T : tokenClient readyWorld = Some (VStr "client")) by reflexivity.
  assert (G : gsi_response (Google := staleGoogle) (VStr "client")
              = TokenGranted "ya29.stale") by reflexivity.
  assert (N : authorized (Google := staleGoogle) "ya29.stale" = false)
    by (vm_compute; reflexivity).
  repeat (split; [assumption |]).
  exact (listBackups_refused_token (H1 := staleGoogle) readyWorld _ _ T G N).
Defined.

(** X25, on an empty Drive. *)
Lemma listBackups_creates_missing_folders_witness :
  tokenClient readyWorld = Some (VStr "client")
  /\ lookupFolder "App_Controle_Armamento" None (drive_files (drive readyWorld)) = None
  /\ exists files w' created,
       listBackups readyWorld = (Ok files, w')
       /\ drive_files (drive w') = (drive_files (drive readyWorld) ++ created)%list
       /\ countNamed "App_Controle_Armamento" created = 1%nat.
Proof.
  assert (T : tokenClient readyWorld = Some (VStr "client")) by reflexivity.
  assert (G : gsi_response (VStr "client") = TokenGranted Sample.token) by reflexivity.
  assert (A : authorized Sample.token = true) by (vm_compute; reflexivity).
  assert (F : Forall (fun f => df_id f <> "") (drive_files (drive readyWorld)))
    by constructor.
  assert (L : lookupFolder "App_Controle_Armamento" None
                (drive_files (drive readyWorld)) = None) by reflexivity.
  repeat (split; [assumption |]).
  destruct (listBackups_creates_missing_folders readyWorld _ _ T G A F L)
    as (files & w' & created & Run & D & C & _).
  exists files, w', created. split; [exact Run |]. split; [exact D | exact C].
Defined.

(** X26, for a first upload into an empty Drive. *)
Lemma listBackups_after_upload_witness :
  Forall (fun f => df_id f <> "") (drive_files (drive readyNeverWorld))
  /\ exists w' archive older,
       uploadBackup "Automático" readyNeverWorld = (Ok true, w')
       /\ listBackups w' = (Ok (archive :: older), w')
       /\ df_mimeType archive = "application/zip".
Proof.
  assert (F : Forall (fun f => df_id f <> "") (drive_files (drive readyNeverWorld)))
    by constructor.
  eassert (U : uploadBackup "Automático" readyNeverWorld = (Ok true, _))
    by (vm_compute; reflexivity).
  split; [exact F |].
  destruct (listBackups_after_upload "Automático" readyNeverWorld _ F U)
    as (archive & older & Run & Z & _).
  eexists _, archive, older. split; [exact U |]. split; [exact Run | exact Z].
Defined.
